(** * ulog: a shallow embedding of [ulog/ulog.go]

    The development follows the source file top to bottom: the constant
    tables, the [ULog] record, [Load], [Close], [SetLevel], [strftime] and
    [log].  Go strings are sequences of bytes and are modelled by [string]
    (one [ascii] per byte); [syslog.Priority] is an [int] and is modelled
    by [Z]. *)

From Stdlib Require Import ZArith Bool List Lia.
From Stdlib Require Import Strings.Ascii Strings.String Numbers.DecimalString.
Import ListNotations.

Open Scope Z_scope.
Open Scope string_scope.

(** ** Bytes and strings *)

Definition byte (n : nat) : ascii := ascii_of_nat n.
Definition code (c : ascii) : nat := nat_of_ascii c.

Definition in_range (lo hi : nat) (c : ascii) : bool :=
  (Nat.leb lo (code c) && Nat.leb (code c) hi)%bool.

Definition is_ascii (c : ascii) : bool := Nat.ltb (code c) 128.

(** [string(b)] for a byte [b]: Go converts the integer to the UTF-8
    encoding of the code point of that number, so a byte above 0x7F
    becomes two bytes. *)
Definition string_of_byte (c : ascii) : string :=
  if is_ascii c then String c EmptyString
  else String (byte (192 + Nat.div (code c) 64))
         (String (byte (128 + Nat.modulo (code c) 64)) EmptyString).

Fixpoint repeat_char (c : ascii) (n : nat) : string :=
  match n with
  | O => EmptyString
  | S k => String c (repeat_char c k)
  end.

Fixpoint rev_string (s : string) : string :=
  match s with
  | EmptyString => EmptyString
  | String c t => rev_string t ++ String c EmptyString
  end.

(** [strings.Join] with the empty separator. *)
Fixpoint Join (elems : list string) : string :=
  match elems with
  | [] => EmptyString
  | e :: rest => e ++ Join rest
  end.

(** [strings.ToLower].  The source only ever compares its result with
    ASCII literals.  The runes whose lower case is an ASCII letter are
    A..Z, U+0130 (bytes C4 B0, lower case [i]) and U+212A (bytes E2 84 AA,
    lower case [k]); the bytes of every other rune are kept, they never
    equal an ASCII literal before or after the mapping. *)
Definition lower_byte (c : ascii) : ascii :=
  if in_range 65 90 c then byte (code c + 32) else c.

Fixpoint ToLower (s : string) : string :=
  match s with
  | EmptyString => EmptyString
  | String c t =>
      match t with
      | EmptyString => String (lower_byte c) EmptyString
      | String c1 t1 =>
          if (Ascii.eqb c (byte 196) && Ascii.eqb c1 (byte 176))%bool
          then String "i" (ToLower t1)
          else
            match t1 with
            | EmptyString => String (lower_byte c) (ToLower t)
            | String c2 t2 =>
                if (Ascii.eqb c (byte 226) && Ascii.eqb c1 (byte 132)
                    && Ascii.eqb c2 (byte 170))%bool
                then String "k" (ToLower t2)
                else String (lower_byte c) (ToLower t)
            end
      end
  end.

(** ** Regular expressions

    The patterns of the source use literals, classes, greedy [*] and [+]
    on a class, concatenation, alternation, capture groups and [$].  Go's
    [regexp] returns the leftmost match and, among those, the one a
    backtracking search finds first; [run] is that search, written with
    a continuation for what follows the current node.  All the classes
    and literals of the patterns are ASCII and the negated classes accept
    every rune, so matching bytes and matching runes delimit the same
    substrings. *)

Inductive re : Type :=
| Chr (c : ascii)
| Cls (p : ascii -> bool)
| Star (p : ascii -> bool)
| Plus (p : ascii -> bool)
| Cat (r1 r2 : re)
| Alt (r1 r2 : re)
| Cap (i : nat) (r : re)
| EndText.

Definition captures := list (nat * string).

Fixpoint star {R : Type} (p : ascii -> bool) (s : string)
  (k : string -> option R) : option R :=
  match s with
  | EmptyString => k s
  | String c t =>
      if p c then
        match star p t k with
        | Some r => Some r
        | None => k s
        end
      else k s
  end.

Fixpoint run {R : Type} (r : re) (s : string) (cs : captures)
  (k : string -> captures -> option R) : option R :=
  match r with
  | Chr c =>
      match s with
      | String d t => if Ascii.eqb c d then k t cs else None
      | EmptyString => None
      end
  | Cls p =>
      match s with
      | String d t => if p d then k t cs else None
      | EmptyString => None
      end
  | Star p => star p s (fun s' => k s' cs)
  | Plus p =>
      match s with
      | String d t => if p d then star p t (fun s' => k s' cs) else None
      | EmptyString => None
      end
  | Cat r1 r2 => run r1 s cs (fun s' cs' => run r2 s' cs' k)
  | Alt r1 r2 =>
      match run r1 s cs k with
      | Some x => Some x
      | None => run r2 s cs k
      end
  | Cap i r1 =>
      run r1 s cs
        (fun s' cs' =>
           k s' ((i, substring 0 (length s - length s') s) :: cs'))
  | EndText =>
      match s with
      | EmptyString => k s cs
      | String _ _ => None
      end
  end.

Fixpoint capture (cs : captures) (i : nat) : string :=
  match cs with
  | [] => EmptyString
  | (j, v) :: rest => if Nat.eqb i j then v else capture rest i
  end.

(** A match anchored at the start of [s]: the submatch slice (index 0 is
    the whole match, index [i] is group [i]) and the number of bytes
    matched. *)
Definition match_at (r : re) (ncap : nat) (s : string)
  : option (list string * nat) :=
  run r s []
    (fun s' cs =>
       let n := (length s - length s')%nat in
       Some (substring 0 n s :: map (capture cs) (seq 1 ncap), n)).

(** [FindAllStringSubmatch(s, -1)]: successive non-overlapping matches,
    each the leftmost one at or after the end of the previous match.
    [skip] counts the bytes of the current match still to pass over.
    Every pattern of the source consumes at least one byte, so the
    rules of Go for empty matches never apply. *)
Fixpoint find_all_from (r : re) (ncap : nat) (skip : nat) (s : string)
  : list (list string) :=
  match s with
  | EmptyString => []
  | String _ t =>
      match skip with
      | S k => find_all_from r ncap k t
      | O =>
          match match_at r ncap s with
          | Some (m, n) => m :: find_all_from r ncap (Nat.pred n) t
          | None => find_all_from r ncap O t
          end
      end
  end.

Definition FindAllStringSubmatch (r : re) (ncap : nat) (s : string)
  : list (list string) :=
  find_all_from r ncap O s.

(** [MatchString]: is there a match anywhere in [s]. *)
Fixpoint MatchString (r : re) (s : string) : bool :=
  match match_at r 0 s with
  | Some _ => true
  | None =>
      match s with
      | EmptyString => false
      | String _ t => MatchString r t
      end
  end.

(** [ReplaceAllString] with the replacement given as a function of the
    submatch slice. *)
Fixpoint replace_all_from (r : re) (ncap : nat) (repl : list string -> string)
  (skip : nat) (s : string) : string :=
  match s with
  | EmptyString => EmptyString
  | String c t =>
      match skip with
      | S k => replace_all_from r ncap repl k t
      | O =>
          match match_at r ncap s with
          | Some (m, n) => repl m ++ replace_all_from r ncap repl (Nat.pred n) t
          | None => String c (replace_all_from r ncap repl O t)
          end
      end
  end.

Definition ReplaceAllString (r : re) (ncap : nat) (s : string)
  (repl : list string -> string) : string :=
  replace_all_from r ncap repl O s.

(** Indexing a submatch slice: [m[i]]. *)
Definition sub (m : list string) (i : nat) : string := nth i m EmptyString.

(** *** The classes and literals of the source's patterns *)

(** [\s] is [[\t\n\f\r ]] in Go. *)
Definition is_space (c : ascii) : bool :=
  (Nat.eqb (code c) 9 || Nat.eqb (code c) 10 || Nat.eqb (code c) 12
   || Nat.eqb (code c) 13 || Nat.eqb (code c) 32)%bool.

Definition is_digit (c : ascii) : bool := in_range 48 57 c.

Definition one_of (set : string) (c : ascii) : bool :=
  existsb (Ascii.eqb c) (list_ascii_of_string set).

Fixpoint Lit (s : string) : re :=
  match s with
  | EmptyString => Star (fun _ => false)
  | String c EmptyString => Chr c
  | String c t => Cat (Chr c) (Lit t)
  end.

(** The directive pattern of [Load]: group 1 is one of the four names,
    then [\s*], an opening parenthesis, group 2 is the longest run of
    bytes other than a closing parenthesis, then a closing parenthesis. *)
Definition directive_re : re :=
  Cat (Cap 1 (Alt (Lit "file") (Alt (Lit "console")
                 (Alt (Lit "syslog") (Lit "option")))))
   (Cat (Star is_space)
    (Cat (Chr "(")
     (Cat (Cap 2 (Star (fun c => negb (Ascii.eqb c ")"))))
          (Chr ")")))).

(** The option pattern of [Load]: group 1 is [[^:=,\s]+], then [\s*],
    one of [:] and [=], [\s*], and group 2 is [[^,\s]+]. *)
Definition option_re : re :=
  Cat (Cap 1 (Plus (fun c => negb (one_of ":=," c || is_space c))))
   (Cat (Star is_space)
    (Cat (Cls (one_of ":="))
     (Cat (Star is_space)
          (Cap 2 (Plus (fun c => negb (one_of "," c || is_space c))))))).

(** The port pattern of [Load]: a colon, [\d+], end of text. *)
Definition port_re : re := Cat (Chr ":") (Cat (Plus is_digit) EndText).

(** The colorizer pattern: a double quote (byte 34), group 1 is the
    longest non-empty run of bytes other than a double quote, a double
    quote, [\s*], a colon. *)
Definition colorizer_re : re :=
  Cat (Chr (byte 34))
   (Cat (Cap 1 (Plus (fun c => negb (Ascii.eqb c (byte 34)))))
    (Cat (Chr (byte 34)) (Cat (Star is_space) (Chr ":")))).

(** ** Constants and tables *)

(** [TIME_NONE], [TIME_DATE], [TIME_TIMESTAMP] ([iota] constants). *)
Inductive TimeMode : Type := TIME_NONE | TIME_DATE | TIME_TIMESTAMP.

(** [log/syslog]: severities and facilities of [syslog.Priority]. *)
Definition LOG_EMERG : Z := 0.
Definition LOG_ALERT : Z := 1.
Definition LOG_CRIT : Z := 2.
Definition LOG_ERR : Z := 3.
Definition LOG_WARNING : Z := 4.
Definition LOG_NOTICE : Z := 5.
Definition LOG_INFO : Z := 6.
Definition LOG_DEBUG : Z := 7.
Definition LOG_KERN : Z := 0.
Definition LOG_USER : Z := 8.
Definition LOG_DAEMON : Z := 24.
Definition LOG_LOCAL0 : Z := 128.
Definition LOG_LOCAL1 : Z := 136.
Definition LOG_LOCAL2 : Z := 144.
Definition LOG_LOCAL3 : Z := 152.
Definition LOG_LOCAL4 : Z := 160.
Definition LOG_LOCAL5 : Z := 168.
Definition LOG_LOCAL6 : Z := 176.
Definition LOG_LOCAL7 : Z := 184.

(** A Go map with string keys, and [m[k]]: the value of a missing key is
    the zero value of the element type. *)
Fixpoint lookup {A : Type} (m : list (string * A)) (k : string) : option A :=
  match m with
  | [] => None
  | (k', v) :: rest => if String.eqb k k' then Some v else lookup rest k
  end.

Definition index_priority (m : list (string * Z)) (k : string) : Z :=
  match lookup m k with
  | Some v => v
  | None => 0
  end.

Definition facilities : list (string * Z) :=
  [("user", LOG_USER); ("daemon", LOG_DAEMON);
   ("local0", LOG_LOCAL0); ("local1", LOG_LOCAL1);
   ("local2", LOG_LOCAL2); ("local3", LOG_LOCAL3);
   ("local4", LOG_LOCAL4); ("local5", LOG_LOCAL5);
   ("local6", LOG_LOCAL6); ("local7", LOG_LOCAL7)].

Definition severities : list (string * Z) :=
  [("error", LOG_ERR); ("warning", LOG_WARNING);
   ("info", LOG_INFO); ("debug", LOG_DEBUG)].

(** [severityLabels] and [severityColors] are keyed by priority. *)
Definition index_label (m : list (Z * string)) (k : Z) : string :=
  match find (fun e => Z.eqb k (fst e)) m with
  | Some e => snd e
  | None => EmptyString
  end.

Definition severityLabels : list (Z * string) :=
  [(LOG_ERR, "ERRO "); (LOG_WARNING, "WARN ");
   (LOG_INFO, "INFO "); (LOG_DEBUG, "DBUG ")].

Definition ESC : string := String (byte 27) EmptyString.

Definition severityColors : list (Z * string) :=
  [(LOG_ERR, ESC ++ "[31m"); (LOG_WARNING, ESC ++ "[33m");
   (LOG_INFO, ESC ++ "[36m"); (LOG_DEBUG, ESC ++ "[32m")].

(** ** Time

    A [time.Time] is an instant (seconds and nanoseconds since the Unix
    epoch) in a location; [time.Now()] has location [Local]. *)

Inductive Location : Type := UTC | Local.

Record Time : Type := mkTime {
  unix_sec : Z;
  nanosecond : Z;
  location : Location
}.

Definition time_Unix (sec nsec : Z) : Time :=
  {| unix_sec := sec; nanosecond := nsec; location := Local |}.

Definition in_location (l : Location) (t : Time) : Time :=
  {| unix_sec := unix_sec t; nanosecond := nanosecond t; location := l |}.

Definition Second : Z := 1000000000.
Definition maxDuration : Z := 2 ^ 63 - 1.
Definition minDuration : Z := - 2 ^ 63.

(** [t.Sub(u)]: the difference in nanoseconds, saturated to the range of
    [time.Duration]. *)
Definition Sub (t u : Time) : Z :=
  let d := (unix_sec t - unix_sec u) * Second + (nanosecond t - nanosecond u) in
  Z.max minDuration (Z.min maxDuration d).

Inductive Month : Type :=
| January | February | March | April | May | June
| July | August | September | October | November | December.

Inductive Weekday : Type :=
| Sunday | Monday | Tuesday | Wednesday | Thursday | Friday | Saturday.

Definition month_number (m : Month) : Z :=
  match m with
  | January => 1 | February => 2 | March => 3 | April => 4
  | May => 5 | June => 6 | July => 7 | August => 8
  | September => 9 | October => 10 | November => 11 | December => 12
  end.

Definition month_name (m : Month) : string :=
  match m with
  | January => "January" | February => "February" | March => "March"
  | April => "April" | May => "May" | June => "June" | July => "July"
  | August => "August" | September => "September" | October => "October"
  | November => "November" | December => "December"
  end.

Definition weekday_number (d : Weekday) : Z :=
  match d with
  | Sunday => 0 | Monday => 1 | Tuesday => 2 | Wednesday => 3
  | Thursday => 4 | Friday => 5 | Saturday => 6
  end.

Definition weekday_name (d : Weekday) : string :=
  match d with
  | Sunday => "Sunday" | Monday => "Monday" | Tuesday => "Tuesday"
  | Wednesday => "Wednesday" | Thursday => "Thursday" | Friday => "Friday"
  | Saturday => "Saturday"
  end.

(** What the accessors of [time.Time] return for an instant in its
    location. *)
Record Calendar : Type := mkCalendar {
  Year : Z;
  Month_ : Month;
  Day : Z;
  Hour : Z;
  Minute : Z;
  Second_ : Z;
  YearDay : Z;
  Weekday_ : Weekday;
  ISOYear : Z;
  ISOWeek : Z;
  ZoneName : string;
  ZoneOffset : Z
}.

(** ** Handles, streams and the logger record *)

Definition File : Type := nat.
Definition SyslogWriter : Type := nat.

Inductive Stream : Type := Stdout | Stderr.

Record ULog : Type := mkULog {
  file : bool;
  console : bool;
  syslog : bool;
  fileHandle : option File;
  filePath : string;
  filePreviousPath : string;
  fileTime : TimeMode;
  fileSeverity : bool;
  consoleHandle : Stream;
  consoleTime : TimeMode;
  consoleSeverity : bool;
  consoleColors : bool;
  consoleColorizer : re;
  syslogHandle : option SyslogWriter;
  syslogRemote : string;
  syslogName : string;
  syslogFacility : Z;
  optionUTC : bool;
  lastCheck : Time;
  level : Z
}.

(** Field assignments [this.f = v]. *)

Definition set_file (v : bool) (u : ULog) : ULog :=
  {| file := v; console := console u; syslog := syslog u; fileHandle :=
     fileHandle u; filePath := filePath u; filePreviousPath :=
     filePreviousPath u; fileTime := fileTime u; fileSeverity :=
     fileSeverity u; consoleHandle := consoleHandle u; consoleTime :=
     consoleTime u; consoleSeverity := consoleSeverity u; consoleColors :=
     consoleColors u; consoleColorizer := consoleColorizer u; syslogHandle
     := syslogHandle u; syslogRemote := syslogRemote u; syslogName :=
     syslogName u; syslogFacility := syslogFacility u; optionUTC :=
     optionUTC u; lastCheck := lastCheck u; level := level u |}.

Definition set_console (v : bool) (u : ULog) : ULog :=
  {| file := file u; console := v; syslog := syslog u; fileHandle :=
     fileHandle u; filePath := filePath u; filePreviousPath :=
     filePreviousPath u; fileTime := fileTime u; fileSeverity :=
     fileSeverity u; consoleHandle := consoleHandle u; consoleTime :=
     consoleTime u; consoleSeverity := consoleSeverity u; consoleColors :=
     consoleColors u; consoleColorizer := consoleColorizer u; syslogHandle
     := syslogHandle u; syslogRemote := syslogRemote u; syslogName :=
     syslogName u; syslogFacility := syslogFacility u; optionUTC :=
     optionUTC u; lastCheck := lastCheck u; level := level u |}.

Definition set_syslog (v : bool) (u : ULog) : ULog :=
  {| file := file u; console := console u; syslog := v; fileHandle :=
     fileHandle u; filePath := filePath u; filePreviousPath :=
     filePreviousPath u; fileTime := fileTime u; fileSeverity :=
     fileSeverity u; consoleHandle := consoleHandle u; consoleTime :=
     consoleTime u; consoleSeverity := consoleSeverity u; consoleColors :=
     consoleColors u; consoleColorizer := consoleColorizer u; syslogHandle
     := syslogHandle u; syslogRemote := syslogRemote u; syslogName :=
     syslogName u; syslogFacility := syslogFacility u; optionUTC :=
     optionUTC u; lastCheck := lastCheck u; level := level u |}.

Definition set_fileHandle (v : option File) (u : ULog) : ULog :=
  {| file := file u; console := console u; syslog := syslog u; fileHandle :=
     v; filePath := filePath u; filePreviousPath := filePreviousPath u;
     fileTime := fileTime u; fileSeverity := fileSeverity u; consoleHandle
     := consoleHandle u; consoleTime := consoleTime u; consoleSeverity :=
     consoleSeverity u; consoleColors := consoleColors u; consoleColorizer
     := consoleColorizer u; syslogHandle := syslogHandle u; syslogRemote :=
     syslogRemote u; syslogName := syslogName u; syslogFacility :=
     syslogFacility u; optionUTC := optionUTC u; lastCheck := lastCheck u;
     level := level u |}.

Definition set_filePath (v : string) (u : ULog) : ULog :=
  {| file := file u; console := console u; syslog := syslog u; fileHandle :=
     fileHandle u; filePath := v; filePreviousPath := filePreviousPath u;
     fileTime := fileTime u; fileSeverity := fileSeverity u; consoleHandle
     := consoleHandle u; consoleTime := consoleTime u; consoleSeverity :=
     consoleSeverity u; consoleColors := consoleColors u; consoleColorizer
     := consoleColorizer u; syslogHandle := syslogHandle u; syslogRemote :=
     syslogRemote u; syslogName := syslogName u; syslogFacility :=
     syslogFacility u; optionUTC := optionUTC u; lastCheck := lastCheck u;
     level := level u |}.

Definition set_filePreviousPath (v : string) (u : ULog) : ULog :=
  {| file := file u; console := console u; syslog := syslog u; fileHandle :=
     fileHandle u; filePath := filePath u; filePreviousPath := v; fileTime
     := fileTime u; fileSeverity := fileSeverity u; consoleHandle :=
     consoleHandle u; consoleTime := consoleTime u; consoleSeverity :=
     consoleSeverity u; consoleColors := consoleColors u; consoleColorizer
     := consoleColorizer u; syslogHandle := syslogHandle u; syslogRemote :=
     syslogRemote u; syslogName := syslogName u; syslogFacility :=
     syslogFacility u; optionUTC := optionUTC u; lastCheck := lastCheck u;
     level := level u |}.

Definition set_fileTime (v : TimeMode) (u : ULog) : ULog :=
  {| file := file u; console := console u; syslog := syslog u; fileHandle :=
     fileHandle u; filePath := filePath u; filePreviousPath :=
     filePreviousPath u; fileTime := v; fileSeverity := fileSeverity u;
     consoleHandle := consoleHandle u; consoleTime := consoleTime u;
     consoleSeverity := consoleSeverity u; consoleColors := consoleColors u;
     consoleColorizer := consoleColorizer u; syslogHandle := syslogHandle u;
     syslogRemote := syslogRemote u; syslogName := syslogName u;
     syslogFacility := syslogFacility u; optionUTC := optionUTC u; lastCheck
     := lastCheck u; level := level u |}.

Definition set_fileSeverity (v : bool) (u : ULog) : ULog :=
  {| file := file u; console := console u; syslog := syslog u; fileHandle :=
     fileHandle u; filePath := filePath u; filePreviousPath :=
     filePreviousPath u; fileTime := fileTime u; fileSeverity := v;
     consoleHandle := consoleHandle u; consoleTime := consoleTime u;
     consoleSeverity := consoleSeverity u; consoleColors := consoleColors u;
     consoleColorizer := consoleColorizer u; syslogHandle := syslogHandle u;
     syslogRemote := syslogRemote u; syslogName := syslogName u;
     syslogFacility := syslogFacility u; optionUTC := optionUTC u; lastCheck
     := lastCheck u; level := level u |}.

Definition set_consoleHandle (v : Stream) (u : ULog) : ULog :=
  {| file := file u; console := console u; syslog := syslog u; fileHandle :=
     fileHandle u; filePath := filePath u; filePreviousPath :=
     filePreviousPath u; fileTime := fileTime u; fileSeverity :=
     fileSeverity u; consoleHandle := v; consoleTime := consoleTime u;
     consoleSeverity := consoleSeverity u; consoleColors := consoleColors u;
     consoleColorizer := consoleColorizer u; syslogHandle := syslogHandle u;
     syslogRemote := syslogRemote u; syslogName := syslogName u;
     syslogFacility := syslogFacility u; optionUTC := optionUTC u; lastCheck
     := lastCheck u; level := level u |}.

Definition set_consoleTime (v : TimeMode) (u : ULog) : ULog :=
  {| file := file u; console := console u; syslog := syslog u; fileHandle :=
     fileHandle u; filePath := filePath u; filePreviousPath :=
     filePreviousPath u; fileTime := fileTime u; fileSeverity :=
     fileSeverity u; consoleHandle := consoleHandle u; consoleTime := v;
     consoleSeverity := consoleSeverity u; consoleColors := consoleColors u;
     consoleColorizer := consoleColorizer u; syslogHandle := syslogHandle u;
     syslogRemote := syslogRemote u; syslogName := syslogName u;
     syslogFacility := syslogFacility u; optionUTC := optionUTC u; lastCheck
     := lastCheck u; level := level u |}.

Definition set_consoleSeverity (v : bool) (u : ULog) : ULog :=
  {| file := file u; console := console u; syslog := syslog u; fileHandle :=
     fileHandle u; filePath := filePath u; filePreviousPath :=
     filePreviousPath u; fileTime := fileTime u; fileSeverity :=
     fileSeverity u; consoleHandle := consoleHandle u; consoleTime :=
     consoleTime u; consoleSeverity := v; consoleColors := consoleColors u;
     consoleColorizer := consoleColorizer u; syslogHandle := syslogHandle u;
     syslogRemote := syslogRemote u; syslogName := syslogName u;
     syslogFacility := syslogFacility u; optionUTC := optionUTC u; lastCheck
     := lastCheck u; level := level u |}.

Definition set_consoleColors (v : bool) (u : ULog) : ULog :=
  {| file := file u; console := console u; syslog := syslog u; fileHandle :=
     fileHandle u; filePath := filePath u; filePreviousPath :=
     filePreviousPath u; fileTime := fileTime u; fileSeverity :=
     fileSeverity u; consoleHandle := consoleHandle u; consoleTime :=
     consoleTime u; consoleSeverity := consoleSeverity u; consoleColors :=
     v; consoleColorizer := consoleColorizer u; syslogHandle := syslogHandle
     u; syslogRemote := syslogRemote u; syslogName := syslogName u;
     syslogFacility := syslogFacility u; optionUTC := optionUTC u; lastCheck
     := lastCheck u; level := level u |}.

Definition set_consoleColorizer (v : re) (u : ULog) : ULog :=
  {| file := file u; console := console u; syslog := syslog u; fileHandle :=
     fileHandle u; filePath := filePath u; filePreviousPath :=
     filePreviousPath u; fileTime := fileTime u; fileSeverity :=
     fileSeverity u; consoleHandle := consoleHandle u; consoleTime :=
     consoleTime u; consoleSeverity := consoleSeverity u; consoleColors :=
     consoleColors u; consoleColorizer := v; syslogHandle := syslogHandle u;
     syslogRemote := syslogRemote u; syslogName := syslogName u;
     syslogFacility := syslogFacility u; optionUTC := optionUTC u; lastCheck
     := lastCheck u; level := level u |}.

Definition set_syslogHandle (v : option SyslogWriter) (u : ULog) : ULog :=
  {| file := file u; console := console u; syslog := syslog u; fileHandle :=
     fileHandle u; filePath := filePath u; filePreviousPath :=
     filePreviousPath u; fileTime := fileTime u; fileSeverity :=
     fileSeverity u; consoleHandle := consoleHandle u; consoleTime :=
     consoleTime u; consoleSeverity := consoleSeverity u; consoleColors :=
     consoleColors u; consoleColorizer := consoleColorizer u; syslogHandle
     := v; syslogRemote := syslogRemote u; syslogName := syslogName u;
     syslogFacility := syslogFacility u; optionUTC := optionUTC u; lastCheck
     := lastCheck u; level := level u |}.

Definition set_syslogRemote (v : string) (u : ULog) : ULog :=
  {| file := file u; console := console u; syslog := syslog u; fileHandle :=
     fileHandle u; filePath := filePath u; filePreviousPath :=
     filePreviousPath u; fileTime := fileTime u; fileSeverity :=
     fileSeverity u; consoleHandle := consoleHandle u; consoleTime :=
     consoleTime u; consoleSeverity := consoleSeverity u; consoleColors :=
     consoleColors u; consoleColorizer := consoleColorizer u; syslogHandle
     := syslogHandle u; syslogRemote := v; syslogName := syslogName u;
     syslogFacility := syslogFacility u; optionUTC := optionUTC u; lastCheck
     := lastCheck u; level := level u |}.

Definition set_syslogName (v : string) (u : ULog) : ULog :=
  {| file := file u; console := console u; syslog := syslog u; fileHandle :=
     fileHandle u; filePath := filePath u; filePreviousPath :=
     filePreviousPath u; fileTime := fileTime u; fileSeverity :=
     fileSeverity u; consoleHandle := consoleHandle u; consoleTime :=
     consoleTime u; consoleSeverity := consoleSeverity u; consoleColors :=
     consoleColors u; consoleColorizer := consoleColorizer u; syslogHandle
     := syslogHandle u; syslogRemote := syslogRemote u; syslogName := v;
     syslogFacility := syslogFacility u; optionUTC := optionUTC u; lastCheck
     := lastCheck u; level := level u |}.

Definition set_syslogFacility (v : Z) (u : ULog) : ULog :=
  {| file := file u; console := console u; syslog := syslog u; fileHandle :=
     fileHandle u; filePath := filePath u; filePreviousPath :=
     filePreviousPath u; fileTime := fileTime u; fileSeverity :=
     fileSeverity u; consoleHandle := consoleHandle u; consoleTime :=
     consoleTime u; consoleSeverity := consoleSeverity u; consoleColors :=
     consoleColors u; consoleColorizer := consoleColorizer u; syslogHandle
     := syslogHandle u; syslogRemote := syslogRemote u; syslogName :=
     syslogName u; syslogFacility := v; optionUTC := optionUTC u; lastCheck
     := lastCheck u; level := level u |}.

Definition set_optionUTC (v : bool) (u : ULog) : ULog :=
  {| file := file u; console := console u; syslog := syslog u; fileHandle :=
     fileHandle u; filePath := filePath u; filePreviousPath :=
     filePreviousPath u; fileTime := fileTime u; fileSeverity :=
     fileSeverity u; consoleHandle := consoleHandle u; consoleTime :=
     consoleTime u; consoleSeverity := consoleSeverity u; consoleColors :=
     consoleColors u; consoleColorizer := consoleColorizer u; syslogHandle
     := syslogHandle u; syslogRemote := syslogRemote u; syslogName :=
     syslogName u; syslogFacility := syslogFacility u; optionUTC := v;
     lastCheck := lastCheck u; level := level u |}.

Definition set_lastCheck (v : Time) (u : ULog) : ULog :=
  {| file := file u; console := console u; syslog := syslog u; fileHandle :=
     fileHandle u; filePath := filePath u; filePreviousPath :=
     filePreviousPath u; fileTime := fileTime u; fileSeverity :=
     fileSeverity u; consoleHandle := consoleHandle u; consoleTime :=
     consoleTime u; consoleSeverity := consoleSeverity u; consoleColors :=
     consoleColors u; consoleColorizer := consoleColorizer u; syslogHandle
     := syslogHandle u; syslogRemote := syslogRemote u; syslogName :=
     syslogName u; syslogFacility := syslogFacility u; optionUTC :=
     optionUTC u; lastCheck := v; level := level u |}.

Definition set_level (v : Z) (u : ULog) : ULog :=
  {| file := file u; console := console u; syslog := syslog u; fileHandle :=
     fileHandle u; filePath := filePath u; filePreviousPath :=
     filePreviousPath u; fileTime := fileTime u; fileSeverity :=
     fileSeverity u; consoleHandle := consoleHandle u; consoleTime :=
     consoleTime u; consoleSeverity := consoleSeverity u; consoleColors :=
     consoleColors u; consoleColorizer := consoleColorizer u; syslogHandle
     := syslogHandle u; syslogRemote := syslogRemote u; syslogName :=
     syslogName u; syslogFacility := syslogFacility u; optionUTC :=
     optionUTC u; lastCheck := lastCheck u; level := v |}.

(** The calls the logger makes on the operating system, in order. *)
Inductive Event : Type :=
| Lock
| Unlock
| SyslogClose (w : SyslogWriter)
| FileClose (f : File)
| SyslogDial (network raddr : string) (priority : Z) (tag : string)
| SyslogSend (w : SyslogWriter) (severity : Z) (m : string)
| MkdirAll (path : string) (perm : Z)
| OpenFile (name : string) (perm : Z)
| FileWriteString (f : File) (s : string)
| Fprintf (w : Stream) (s : string).

(** ** [Close] *)

Definition Close (this : ULog) : ULog * list Event :=
  let (u1, e1) :=
    match syslogHandle this with
    | Some w => (set_syslogHandle None this, [SyslogClose w])
    | None => (this, [])
    end in
  let (u2, e2) :=
    match fileHandle u1 with
    | Some f => (set_fileHandle None u1, [FileClose f])
    | None => (u1, [])
    end in
  (u2, ([Lock] ++ e1 ++ e2 ++ [Unlock])%list).

(** ** [SetLevel] *)

Definition SetLevel (level_ : string) (this : ULog) : ULog :=
  let level_ := ToLower level_ in
  if level_ =? "error" then set_level LOG_ERR this
  else if level_ =? "warning" then set_level LOG_WARNING this
  else if level_ =? "info" then set_level LOG_INFO this
  else if level_ =? "debug" then set_level LOG_DEBUG this
  else this.

(** ** [Load] *)

(** The test the source repeats on boolean option values. *)
Definition is_true (v : string) : bool :=
  ((v =? "1") || (v =? "true") || (v =? "on") || (v =? "yes"))%bool.

Definition options_of (body : string) : list (list string) :=
  FindAllStringSubmatch option_re 2 body.

Definition directives_of (target : string) : list (list string) :=
  FindAllStringSubmatch directive_re 2 target.

Definition load_file_option (this : ULog) (option : list string) : ULog :=
  let key := ToLower (sub option 1) in
  if key =? "path" then set_filePath (sub option 2) this
  else if key =? "time" then
    let v := ToLower (sub option 2) in
    if ((v =? "stamp") || (v =? "timestamp"))%bool
    then set_fileTime TIME_TIMESTAMP this
    else if negb (is_true v) then set_fileTime TIME_NONE this
    else this
  else if key =? "severity" then
    let v := ToLower (sub option 2) in
    if negb (is_true v) then set_fileSeverity false this else this
  else this.

Definition load_console_option (this : ULog) (option : list string) : ULog :=
  let v := ToLower (sub option 2) in
  let key := ToLower (sub option 1) in
  if key =? "output" then
    if v =? "stdout" then set_consoleHandle Stdout this else this
  else if key =? "time" then
    if ((v =? "stamp") || (v =? "timestamp"))%bool
    then set_consoleTime TIME_TIMESTAMP this
    else if negb (is_true v) then set_consoleTime TIME_NONE this
    else this
  else if key =? "severity" then
    if negb (is_true v) then set_consoleSeverity false this else this
  else if key =? "colors" then
    if negb (is_true v) then set_consoleColors false this else this
  else this.

Definition load_syslog_option (this : ULog) (option : list string) : ULog :=
  let key := ToLower (sub option 1) in
  if key =? "remote" then
    let this := set_syslogRemote (sub option 2) this in
    if negb (MatchString port_re (syslogRemote this))
    then set_syslogRemote (syslogRemote this ++ ":514") this
    else this
  else if key =? "name" then set_syslogName (sub option 2) this
  else if key =? "facility" then
    set_syslogFacility (index_priority facilities (ToLower (sub option 2))) this
  else this.

Definition load_option_option (this : ULog) (option : list string) : ULog :=
  let v := ToLower (sub option 2) in
  let key := ToLower (sub option 1) in
  if key =? "utc" then
    if is_true v then set_optionUTC true this else this
  else if key =? "level" then
    set_level (index_priority severities (ToLower v)) this
  else this.

Definition load_directive (this : ULog) (target : list string) : ULog :=
  let name := ToLower (sub target 1) in
  if name =? "file" then
    let this :=
      fold_left load_file_option (options_of (sub target 2))
        (set_file true this) in
    if filePath this =? "" then set_file false this else this
  else if name =? "console" then
    fold_left load_console_option (options_of (sub target 2))
      (set_console true this)
  else if name =? "syslog" then
    fold_left load_syslog_option (options_of (sub target 2))
      (set_syslog true this)
  else if name =? "option" then
    fold_left load_option_option (options_of (sub target 2)) this
  else this.

Section Logger.

(** [filepath.Base(os.Args[0])]. *)
Variable progname : string.

(** The assignments of [Load] before its loop. *)
Definition load_defaults (this : ULog) : ULog :=
  {| file := false; console := false; syslog := false;
     fileHandle := fileHandle this;
     filePath := ""; filePreviousPath := "";
     fileTime := TIME_DATE; fileSeverity := true;
     consoleHandle := Stderr; consoleTime := TIME_DATE;
     consoleSeverity := true; consoleColors := true;
     consoleColorizer := colorizer_re;
     syslogHandle := syslogHandle this;
     syslogRemote := ""; syslogName := progname;
     syslogFacility := LOG_DAEMON;
     optionUTC := false; lastCheck := time_Unix 0 0; level := LOG_INFO |}.

Definition Load (target : string) (this : ULog) : ULog * list Event :=
  let (closed, events) := Close this in
  (fold_left load_directive (directives_of target) (load_defaults closed),
   (events ++ [Lock; Unlock])%list).

(** The zero value of [ULog] with nil handles, as [New] allocates it.
    The console writer and the colorizer are nil in Go until [Load]
    assigns them, which it does before any use; they hold here the
    values [Load] gives them. *)
Definition zero_ULog : ULog :=
  {| file := false; console := false; syslog := false;
     fileHandle := None; filePath := ""; filePreviousPath := "";
     fileTime := TIME_NONE; fileSeverity := false;
     consoleHandle := Stderr; consoleTime := TIME_NONE;
     consoleSeverity := false; consoleColors := false;
     consoleColorizer := colorizer_re;
     syslogHandle := None; syslogRemote := ""; syslogName := "";
     syslogFacility := 0; optionUTC := false;
     lastCheck :=
       {| unix_sec := -62135596800; nanosecond := 0; location := UTC |};
     level := 0 |}.

Definition New (target : string) : ULog := fst (Load target zero_ULog).

End Logger.

(** ** Number formatting *)

Definition digits (n : Z) : string :=
  NilZero.string_of_uint (N.to_uint (Z.abs_N n)).

Definition sign (n : Z) : string := if (n <? 0)%Z then "-" else "".

(** [fmt.Sprintf] with the verbs [%d] ([width = 0]), [%2d] and [%0wd]:
    the sign counts in the width. *)
Definition fmt_d (zero : bool) (width : nat) (n : Z) : string :=
  let pad := (width - length (sign n) - length (digits n))%nat in
  if zero then sign n ++ repeat_char "0" pad ++ digits n
  else repeat_char " " pad ++ sign n ++ digits n.

(** [appendInt] of package [time]: the sign does not count in the
    width. *)
Definition appendInt (n : Z) (width : nat) : string :=
  sign n ++ repeat_char "0" (width - length (digits n))%nat ++ digits n.

(** ** [strftime] *)

Section Strftime.

(** The accessors of package [time]. *)
Variable calendar : Time -> Calendar.

Definition zone_sign (zone : Z) : string := if (zone <? 0)%Z then "-" else "+".

(** [base.Format] on the six layouts the source uses. *)
Definition Format_Mon (base : Time) : string :=
  substring 0 3 (weekday_name (Weekday_ (calendar base))).

Definition Format_Monday (base : Time) : string :=
  weekday_name (Weekday_ (calendar base)).

Definition Format_Jan (base : Time) : string :=
  substring 0 3 (month_name (Month_ (calendar base))).

Definition Format_January (base : Time) : string :=
  month_name (Month_ (calendar base)).

Definition Format_ctime (base : Time) : string :=
  let c := calendar base in
  Format_Mon base ++ " " ++ Format_Jan base ++ " " ++ appendInt (Day c) 0
  ++ " " ++ appendInt (Hour c) 2 ++ ":" ++ appendInt (Minute c) 2
  ++ ":" ++ appendInt (Second_ c) 2 ++ " " ++ appendInt (Year c) 4.

Definition Format_numeric_zone (base : Time) : string :=
  let zone := Z.quot (ZoneOffset (calendar base)) 60 in
  zone_sign zone ++ appendInt (Z.quot (Z.abs zone) 60) 2
  ++ appendInt (Z.rem (Z.abs zone) 60) 2.

Definition Format_MST (base : Time) : string :=
  if ZoneName (calendar base) =? "" then Format_numeric_zone base
  else ZoneName (calendar base).

Definition hour12 (zero : bool) (h : Z) : string :=
  if ((h =? 0)%Z || (h =? 12)%Z)%bool then "12" else fmt_d zero 2 (Z.rem h 12).

(** The inner [switch layout[index+1]]: the strings one verb appends to
    [output]. *)
Definition verb (v : ascii) (base : Time) : list string :=
  let c := calendar base in
  let month := month_number (Month_ c) in
  let wday := weekday_number (Weekday_ c) in
  match v with
  | "a"%char => [Format_Mon base]
  | "A"%char => [Format_Monday base]
  | "b"%char => [Format_Jan base]
  | "B"%char => [Format_January base]
  | "c"%char => [Format_ctime base]
  | "C"%char => [fmt_d true 2 (Z.quot (Year c) 100)]
  | "d"%char => [fmt_d true 2 (Day c)]
  | "D"%char =>
      [fmt_d true 2 month ++ "/" ++ fmt_d true 2 (Day c) ++ "/"
       ++ fmt_d true 2 (Z.rem (Year c) 100)]
  | "e"%char => [fmt_d false 2 (Day c)]
  | "f"%char => [fmt_d true 6 (Z.quot (nanosecond base) 1000)]
  | "F"%char =>
      [fmt_d true 4 (Year c) ++ "-" ++ fmt_d true 2 month ++ "-"
       ++ fmt_d true 2 (Day c)]
  | "g"%char => [fmt_d true 2 (Z.rem (ISOYear c) 100)]
  | "G"%char => [fmt_d true 4 (ISOYear c)]
  | "h"%char => [Format_Jan base]
  | "H"%char => [fmt_d true 2 (Hour c)]
  | "I"%char => [hour12 true (Hour c)]
  | "j"%char => [fmt_d true 3 (YearDay c)]
  | "k"%char => [fmt_d false 2 (Hour c)]
  | "l"%char => [hour12 false (Hour c)]
  | "m"%char => [fmt_d true 2 month]
  | "M"%char => [fmt_d true 2 (Minute c)]
  | "n"%char => [String (byte 10) EmptyString]
  | "p"%char => [if (Hour c <? 12)%Z then "AM" else "PM"]
  | "P"%char => [if (Hour c <? 12)%Z then "am" else "pm"]
  | "r"%char =>
      [hour12 true (Hour c);
       ":" ++ fmt_d true 2 (Minute c) ++ ":" ++ fmt_d true 2 (Second_ c);
       if (Hour c <? 12)%Z then " AM" else " PM"]
  | "R"%char => [fmt_d true 2 (Hour c) ++ ":" ++ fmt_d true 2 (Minute c)]
  | "s"%char => [fmt_d false 0 (unix_sec base)]
  | "S"%char => [fmt_d true 2 (Second_ c)]
  | "t"%char => [String (byte 9) EmptyString]
  | "T"%char =>
      [fmt_d true 2 (Hour c) ++ ":" ++ fmt_d true 2 (Minute c) ++ ":"
       ++ fmt_d true 2 (Second_ c)]
  | "u"%char => [fmt_d false 0 (if (wday =? 0)%Z then 7 else wday)]
  | "U"%char => [fmt_d false 0 (Z.quot (YearDay c + 6 - wday) 7)]
  | "V"%char => [fmt_d true 2 (ISOWeek c)]
  | "w"%char => [fmt_d false 0 wday]
  | "W"%char =>
      [fmt_d false 0
         (Z.quot (YearDay c + 6 - (if (wday =? 0)%Z then 6 else wday - 1)) 7)]
  | "x"%char =>
      [fmt_d true 2 month ++ "/" ++ fmt_d true 2 (Day c) ++ "/"
       ++ fmt_d true 2 (Z.rem (Year c) 100)]
  | "X"%char =>
      [fmt_d true 2 (Hour c) ++ ":" ++ fmt_d true 2 (Minute c) ++ ":"
       ++ fmt_d true 2 (Second_ c)]
  | "y"%char => [fmt_d true 2 (Z.rem (Year c) 100)]
  | "Y"%char => [fmt_d true 4 (Year c)]
  | "z"%char => [Format_numeric_zone base]
  | "Z"%char => [Format_MST base]
  | "%"%char => ["%"]
  | _ => []
  end.

(** The loop of [strftime] on the bytes from [index] on: a [%] that is
    not the last byte consumes the byte after it ([index++] twice), a
    [%] that is the last byte appends nothing, any other byte [b]
    appends [string(b)]. *)
Fixpoint strftime_output (layout : string) (base : Time) : list string :=
  match layout with
  | EmptyString => []
  | String "%"%char rest =>
      match rest with
      | EmptyString => []
      | String v rest' => (verb v base ++ strftime_output rest' base)%list
      end
  | String b rest => string_of_byte b :: strftime_output rest base
  end.

Definition strftime (layout : string) (base : Time) : string :=
  Join (strftime_output layout base).

End Strftime.

(** ** [strings.TrimSpace] and [bytes.TrimSpace]

    Both drop the leading and the trailing runes of Unicode's White_Space
    property: the ASCII ones, U+0085 and U+00A0 (two bytes), and U+1680,
    U+2000..U+200A, U+2028, U+2029, U+202F, U+205F, U+3000 (three
    bytes). *)

Definition ascii_space (c : ascii) : bool :=
  (in_range 9 13 c || Nat.eqb (code c) 32)%bool.

Definition space2 (b1 b2 : ascii) : bool :=
  (Nat.eqb (code b1) 194 && (Nat.eqb (code b2) 133 || Nat.eqb (code b2) 160))%bool.

Definition space3 (b1 b2 b3 : ascii) : bool :=
  ((Nat.eqb (code b1) 225 && Nat.eqb (code b2) 154 && Nat.eqb (code b3) 128)
   || (Nat.eqb (code b1) 226 && Nat.eqb (code b2) 128
       && (in_range 128 138 b3 || in_range 168 169 b3 || Nat.eqb (code b3) 175))
   || (Nat.eqb (code b1) 226 && Nat.eqb (code b2) 129 && Nat.eqb (code b3) 159)
   || (Nat.eqb (code b1) 227 && Nat.eqb (code b2) 128 && Nat.eqb (code b3) 128))%bool.

(** Dropping the white space at the front of [s]; with [backwards] the
    bytes of [s] are those of the original string from its end, so the
    bytes of a rune come last byte first. *)
Fixpoint trim_front (backwards : bool) (s : string) : string :=
  match s with
  | EmptyString => s
  | String c t =>
      if ascii_space c then trim_front backwards t
      else
        match t with
        | EmptyString => s
        | String c1 t1 =>
            if (if backwards then space2 c1 c else space2 c c1)
            then trim_front backwards t1
            else
              match t1 with
              | EmptyString => s
              | String c2 t2 =>
                  if (if backwards then space3 c2 c1 c else space3 c c1 c2)
                  then trim_front backwards t2
                  else s
              end
        end
  end.

Definition TrimSpace (s : string) : string :=
  rev_string (trim_front true (rev_string (trim_front false s))).

(** ** [log] *)

(** How a call of [log] ends: it returns, or it panics. *)
Inductive Outcome (A : Type) : Type :=
| Return (a : A)
| Panic.

Arguments Return {A} a.
Arguments Panic {A}.

(** What the operating system answers during one call of [log]: the
    result of [syslog.Dial] and of [os.OpenFile] ([None] for an error) and
    the instant [time.Now()] returns. *)
Record Env : Type := mkEnv {
  env_dial : option SyslogWriter;
  env_now : Time;
  env_open : option File
}.

Section Dispatcher.

Variable calendar : Time -> Calendar.

(** Go values of map kind, and non-nil Go values of a kind other than
    map and string and other than a byte slice. *)
Variables GoMap GoOther : Type.

(** An [interface{}] value, by what [log] can tell apart: [nil], a
    [string], a value of a defined type whose kind is string, a map, a
    byte slice, anything else. *)
Inductive Value : Type :=
| VNil
| VString (s : string)
| VNamedString (s : string)
| VMap (m : GoMap)
| VBytes (b : string)
| VOther (o : GoOther).

(** [encoding/json]: what [Encode] writes for a map with HTML escaping
    off, [None] when it returns an error. *)
Variable Encode : GoMap -> option string.

(** [fmt.Sprintf(format, a...)]. *)
Variable Sprintf : string -> list Value -> string.

(** [filepath.Dir]. *)
Variable Dir : string -> string.

Inductive Kind : Type := KMap | KString | KSlice | KOtherKind.

(** [reflect.TypeOf(x).Kind()]: [TypeOf(nil)] is a nil [Type], on which
    the call of [Kind] panics. *)
Definition KindOf (x : Value) : Outcome Kind :=
  match x with
  | VNil => Panic
  | VString _ => Return KString
  | VNamedString _ => Return KString
  | VMap _ => Return KMap
  | VBytes _ => Return KSlice
  | VOther _ => Return KOtherKind
  end.

Definition is_map (x : Value) : bool :=
  match KindOf x with
  | Return KMap => true
  | _ => false
  end.

(** The template and the arguments after the [switch] on the kind of
    the payload; the assertion [xlayout.(string)] panics on a defined
    string type. *)
Definition normalize (xlayout : Value) (a : list Value)
  : Outcome (string * list Value) :=
  match KindOf xlayout with
  | Panic => Panic
  | Return KMap =>
      match xlayout with
      | VMap m =>
          match Encode m with
          | Some buffer => Return ("%s", [VBytes (TrimSpace buffer)])
          | None => Return ("", a)
          end
      | _ => Return ("", a)
      end
  | Return KString =>
      match xlayout with
      | VString s => Return (s, a)
      | _ => Panic
      end
  | Return _ => Return ("", a)
  end.

Definition is_severity (severity : Z) : bool :=
  ((severity =? LOG_ERR)%Z || (severity =? LOG_WARNING)%Z
   || (severity =? LOG_INFO)%Z || (severity =? LOG_DEBUG)%Z)%bool.

(** Lines 383-409. *)
Definition log_syslog (this : ULog) (env : Env) (severity : Z)
  (layout : string) (a : list Value) : ULog * list Event :=
  if syslog this then
    let (this, dial) :=
      match syslogHandle this with
      | None =>
          let protocol := if syslogRemote this =? "" then "" else "udp" in
          (set_syslogHandle (env_dial env) this,
           [Lock;
            SyslogDial protocol (syslogRemote this) (syslogFacility this)
              (syslogName this);
            Unlock])
      | Some _ => (this, [])
      end in
    match syslogHandle this with
    | Some w =>
        if is_severity severity
        then (this, (dial ++ [SyslogSend w severity (Sprintf layout a)])%list)
        else (this, dial)
    | None => (this, dial)
    end
  else (this, []).

(** The prefix of a line: the date and time, the Unix time, or
    nothing. *)
Definition time_prefix (mode : TimeMode) (now : Time) : string :=
  let c := calendar now in
  match mode with
  | TIME_DATE =>
      fmt_d true 4 (Year c) ++ "-" ++ fmt_d true 2 (month_number (Month_ c))
      ++ "-" ++ fmt_d true 2 (Day c) ++ " " ++ fmt_d true 2 (Hour c) ++ ":"
      ++ fmt_d true 2 (Minute c) ++ ":" ++ fmt_d true 2 (Second_ c) ++ " "
  | TIME_TIMESTAMP => fmt_d false 0 (unix_sec now) ++ " "
  | TIME_NONE => ""
  end.

(** Lines 420-427: the path is resolved again and, when it changed, the
    open file is closed and the new path recorded. *)
Definition rotate (this : ULog) (path : string) : ULog * list Event :=
  if negb (path =? filePreviousPath this) then
    let (this, closed) :=
      match fileHandle this with
      | Some f => (set_fileHandle None this, [FileClose f])
      | None => (this, [])
      end in
    (set_filePreviousPath path this, closed)
  else (this, []).

(** Lines 428-433. *)
Definition open_if_nil (this : ULog) (env : Env) (path : string)
  : ULog * list Event :=
  match fileHandle this with
  | None =>
      (set_fileHandle (env_open env) this,
       [MkdirAll (Dir path) 493; OpenFile path 420])
  | Some _ => (this, [])
  end.

Definition check_due (this : ULog) (now : Time) : bool :=
  ((Sub now (lastCheck this) >=? Second)%Z
   || match fileHandle this with None => true | Some _ => false end)%bool.

(** Lines 416-451. *)
Definition log_file (this : ULog) (env : Env) (now : Time) (severity : Z)
  (layout : string) (a : list Value) : ULog * list Event :=
  if file this then
    let (this, checked) :=
      if check_due this now then
        let this := set_lastCheck now this in
        let path := strftime calendar (filePath this) now in
        let (this, closed) := rotate this path in
        let (this, opened) := open_if_nil this env path in
        (this, ([Lock] ++ closed ++ opened ++ [Unlock])%list)
      else (this, []) in
    match fileHandle this with
    | Some f =>
        let prefix := time_prefix (fileTime this) now in
        let prefix :=
          if fileSeverity this
          then prefix ++ index_label severityLabels severity
          else prefix in
        (this,
         (checked
          ++ [Lock;
              FileWriteString f (Sprintf (prefix ++ layout ++ String (byte 10) "") a);
              Unlock])%list)
    | None => (this, checked)
    end
  else (this, []).

(** The replacement of the colorizer: the key between two escape
    sequences, inside its quotes and before the colon. *)
Definition colorize (m : list string) : string :=
  String (byte 34) (ESC ++ "[37m" ++ sub m 1 ++ ESC ++ "[0m")
  ++ String (byte 34) ":".

(** Lines 452-475. *)
Definition log_console (this : ULog) (now : Time) (severity : Z)
  (xlayout : Value) (layout : string) (a : list Value) : list Event :=
  if console this then
    let prefix := time_prefix (consoleTime this) now in
    let prefix :=
      if consoleSeverity this then
        if consoleColors this
        then prefix ++ index_label severityColors severity
             ++ index_label severityLabels severity ++ ESC ++ "[0m"
        else prefix ++ index_label severityLabels severity
      else prefix in
    let a :=
      if (is_map xlayout && consoleColors this)%bool
      then map (fun x =>
                  VString (ReplaceAllString (consoleColorizer this) 1
                             (Sprintf "%s" [x]) colorize)) a
      else a in
    [Lock;
     Fprintf (consoleHandle this)
       (Sprintf (prefix ++ layout ++ String (byte 10) "") a);
     Unlock]
  else [].

(** The filter of line 365. *)
Definition filtered (this : ULog) (severity : Z) : bool :=
  ((level this <? severity)%Z
   || (negb (syslog this) && negb (file this) && negb (console this)))%bool.

Definition log (this : ULog) (env : Env) (severity : Z) (xlayout : Value)
  (a : list Value) : Outcome (ULog * list Event) :=
  if filtered this severity then Return (this, [])
  else
    match normalize xlayout a with
    | Panic => Panic
    | Return (layout, a) =>
        let layout := TrimSpace layout in
        let (this, sent) := log_syslog this env severity layout a in
        let now :=
          in_location (if optionUTC this then UTC else Local) (env_now env) in
        let (this, written) := log_file this env now severity layout a in
        let printed := log_console this now severity xlayout layout a in
        Return (this, (sent ++ written ++ printed)%list)
    end.

Definition Error (this : ULog) (env : Env) (layout : Value) (a : list Value) :=
  log this env LOG_ERR layout a.
Definition Warn (this : ULog) (env : Env) (layout : Value) (a : list Value) :=
  log this env LOG_WARNING layout a.
Definition Info (this : ULog) (env : Env) (layout : Value) (a : list Value) :=
  log this env LOG_INFO layout a.
Definition Debug (this : ULog) (env : Env) (layout : Value) (a : list Value) :=
  log this env LOG_DEBUG layout a.

End Dispatcher.

Arguments VNil {GoMap GoOther}.
Arguments VString {GoMap GoOther} s.
Arguments VNamedString {GoMap GoOther} s.
Arguments VMap {GoMap GoOther} m.
Arguments VBytes {GoMap GoOther} b.
Arguments VOther {GoMap GoOther} o.

(** * Vocabulary of the properties *)

(** ** What a descriptor sets

    [settings name key target] lists, in the order [Load] meets them, the
    values of the options named [key] (in any case) in the directives
    named [name] of the descriptor. *)

Definition option_value (key : string) (o : list string) : list string :=
  if ToLower (sub o 1) =? key then [sub o 2] else [].

Definition values_of (key : string) (options : list (list string))
  : list string :=
  flat_map (option_value key) options.

Definition directive_settings (name key : string) (d : list string)
  : list string :=
  if ToLower (sub d 1) =? name then values_of key (options_of (sub d 2))
  else [].

Definition settings (name key target : string) : list string :=
  flat_map (directive_settings name key) (directives_of target).

(** The last element of a list, if any. *)
Definition last_of {A : Type} (l : list A) : option A :=
  fold_left (fun _ x => Some x) l None.

(** The priority a [level] option with value [v] assigns: the value is
    put in lower case at line 179 and again at line 186. *)
Definition level_of_value (v : string) : Z :=
  index_priority severities (ToLower (ToLower v)).

Definition facility_of_value (v : string) : Z :=
  index_priority facilities (ToLower v).

(** The two cases in which [ToLower] reads more than one byte: [c] is
    the first byte of U+0130, of U+212A, and [t] has the others. *)
Definition special2 (c : ascii) (t : string) : bool :=
  match t with
  | String c1 _ => (Ascii.eqb c (byte 196) && Ascii.eqb c1 (byte 176))%bool
  | EmptyString => false
  end.

Definition special3 (c : ascii) (t : string) : bool :=
  match t with
  | String c1 (String c2 _) =>
      (Ascii.eqb c (byte 226) && Ascii.eqb c1 (byte 132)
       && Ascii.eqb c2 (byte 170))%bool
  | _ => false
  end.

Definition tail (n : nat) (s : string) : string :=
  substring n (length s - n) s.

(** ** Templates of [strftime] *)

(** The verbs of the inner [switch]. *)
Definition verbs : string := "aAbBcCdDefFgGhHIjklmMnpPrRsStTuUVwWxXyYzZ%".

Definition is_verb (c : ascii) : bool := one_of verbs c.

(** Does the loop, run over [p] alone, end on a [%] that is the last
    byte of [p]?  If not, the loop over [p ++ s] reaches the first byte
    of [s] with [index] on it. *)
Fixpoint dangling (p : string) : bool :=
  match p with
  | EmptyString => false
  | String "%"%char rest =>
      match rest with
      | EmptyString => true
      | String _ rest' => dangling rest'
      end
  | String _ rest => dangling rest
  end.

Fixpoint last_byte (s : string) : option ascii :=
  match s with
  | EmptyString => None
  | String c EmptyString => Some c
  | String _ t => last_byte t
  end.

Definition no_percent (s : string) : bool :=
  forallb (fun c => negb (Ascii.eqb c "%")) (list_ascii_of_string s).

Definition all_ascii (s : string) : bool :=
  forallb is_ascii (list_ascii_of_string s).

(** The two bytes of U+00E9 in UTF-8, and the four bytes [strftime]
    returns for them: [string(0xC3)] and [string(0xA9)]. *)
Definition e_acute : string := String (byte 195) (String (byte 169) "").

Definition e_acute_mangled : string :=
  String (byte 195) (String (byte 131) (String (byte 194) (String (byte 169) ""))).

(** ** Calls on the file *)

Definition is_file_event (e : Event) : bool :=
  match e with
  | FileClose _ | MkdirAll _ _ | OpenFile _ _ | FileWriteString _ _ => true
  | _ => false
  end.

Definition no_file_event (events : list Event) : bool :=
  forallb (fun e => negb (is_file_event e)) events.

(** ** Sample values *)

(** 2024-03-05 08:00:00 UTC, a Tuesday, day 65 of the year. *)
Definition sample_time : Time :=
  {| unix_sec := 1709625600; nanosecond := 0; location := UTC |}.

Definition sample_calendar (t : Time) : Calendar :=
  {| Year := 2024; Month_ := March; Day := 5; Hour := 8; Minute := 0;
     Second_ := 0; YearDay := 65; Weekday_ := Tuesday; ISOYear := 2024;
     ISOWeek := 10; ZoneName := "UTC"; ZoneOffset := 0 |}.

Definition quiet_env : Env :=
  {| env_dial := None; env_now := sample_time; env_open := None |}.

(** A [Sprintf] for the examples: it knows the verb [%s] alone, and
    marks a missing argument and surplus arguments. *)
Definition show_value (v : Value string Z) : string :=
  match v with
  | VNil => "<nil>"
  | VString s => s
  | VNamedString s => s
  | VMap m => m
  | VBytes b => b
  | VOther o => fmt_d false 0 o
  end.

Fixpoint sample_Sprintf (format : string) (a : list (Value string Z))
  : string :=
  match format with
  | EmptyString =>
      match a with
      | [] => ""
      | _ => "%!(EXTRA " ++ Join (map show_value a) ++ ")"
      end
  | String "%" (String "s" rest) =>
      match a with
      | x :: a' => show_value x ++ sample_Sprintf rest a'
      | [] => "%!s(MISSING)" ++ sample_Sprintf rest []
      end
  | String c rest => String c (sample_Sprintf rest a)
  end.

Definition sample_log :=
  log sample_calendar string Z (fun m => Some m) sample_Sprintf (fun p => p).

(** A logger whose file was opened the day before [sample_time]. *)
Definition yesterday_log : ULog :=
  set_fileHandle (Some 7%nat)
    (set_filePreviousPath "/tmp/x-20240304.log"
       (set_lastCheck (time_Unix 1709596800 0)
          (New "ulog" "file(path=/tmp/x-%Y%m%d.log, time=0) option(utc=1)"))).

Definition today_env : Env :=
  {| env_dial := None; env_now := sample_time; env_open := Some 8%nat |}.

Definition rotated : ULog * list Event :=
  match sample_log yesterday_log today_env LOG_INFO (VString "hello") [] with
  | Return r => r
  | Panic => (yesterday_log, [])
  end.

(** ** The least number of bytes a pattern matches *)

Fixpoint min_length (r : re) : nat :=
  match r with
  | Chr _ | Cls _ | Plus _ => 1
  | Star _ | EndText => 0
  | Cat r1 r2 => min_length r1 + min_length r2
  | Alt r1 r2 => Nat.min (min_length r1) (min_length r2)
  | Cap _ r1 => min_length r1
  end.

(** ** Directives, handles and flags *)

(** Is there a directive named [name] in the descriptor? *)
Definition has_directive (name target : string) : bool :=
  existsb (fun d => ToLower (sub d 1) =? name) (directives_of target).

(** The calls [Close] makes between its lock and its unlock. *)
Definition close_calls (this : ULog) : list Event :=
  (match syslogHandle this with
   | Some w => [SyslogClose w]
   | None => []
   end
   ++ match fileHandle this with
      | Some f => [FileClose f]
      | None => []
      end)%list.

(** ** How the options of a descriptor add up

    Each function gives the field after one more value of the option,
    from the field before it. *)

(** [severity] and [colors]: a value that is not true switches off. *)
Definition switch_off (on : bool) (v : string) : bool :=
  if is_true (ToLower v) then on else false.

(** [utc]: a true value switches on. *)
Definition switch_on (on : bool) (v : string) : bool :=
  if is_true (ToLower v) then true else on.

(** [output]. *)
Definition to_stdout (w : Stream) (v : string) : Stream :=
  if ToLower v =? "stdout" then Stdout else w.

(** [time]. *)
Definition time_mode (mode : TimeMode) (v : string) : TimeMode :=
  if ((ToLower v =? "stamp") || (ToLower v =? "timestamp"))%bool
  then TIME_TIMESTAMP
  else if is_true (ToLower v) then mode else TIME_NONE.

(** [remote]. *)
Definition with_port (v : string) : string :=
  if MatchString port_re v then v else v ++ ":514".

(** Values of a boolean option that count as true, in any case. *)
Definition true_value (v : string) : bool := is_true (ToLower v).

(** The mode a [time] value that is not a true value sets. *)
Definition mode_of (v : string) : TimeMode :=
  if ((ToLower v =? "stamp") || (ToLower v =? "timestamp"))%bool
  then TIME_TIMESTAMP else TIME_NONE.

(** The bytes of a key and of a value in the option pattern. *)
Definition key_byte (c : ascii) : bool :=
  negb (one_of ":=," c || is_space c).

Definition value_byte (c : ascii) : bool :=
  negb (one_of "," c || is_space c).

Definition all_bytes_in (p : ascii -> bool) (s : string) : bool :=
  forallb p (list_ascii_of_string s).

(** ** The calls of [log], sink by sink *)

Definition is_syslog_event (e : Event) : bool :=
  match e with
  | SyslogClose _ | SyslogDial _ _ _ _ | SyslogSend _ _ _ => true
  | _ => false
  end.

Definition is_console_event (e : Event) : bool :=
  match e with
  | Fprintf _ _ => true
  | _ => false
  end.

Definition file_calls (events : list Event) : list Event :=
  filter is_file_event events.

Definition syslog_calls (events : list Event) : list Event :=
  filter is_syslog_event events.

Definition console_calls (events : list Event) : list Event :=
  filter is_console_event events.

(** The lock along a sequence of calls, starting with the lock held or
    not: a lock is taken only when it is free and released only when it
    is held, every call on a file, on the console and on the syslog
    connection other than a send is made with the lock held, a send is
    made with the lock free, and the lock is free at the end. *)
Fixpoint locks_ok (held : bool) (events : list Event) : bool :=
  match events with
  | [] => negb held
  | Lock :: rest => (negb held && locks_ok true rest)%bool
  | Unlock :: rest => (held && locks_ok false rest)%bool
  | SyslogSend _ _ _ :: rest => (negb held && locks_ok held rest)%bool
  | _ :: rest => (held && locks_ok held rest)%bool
  end.

(** The instant [log] works with. *)
Definition log_now (this : ULog) (env : Env) : Time :=
  in_location (if optionUTC this then UTC else Local) (env_now env).

Definition line_feed : string := String (byte 10) "".

Section Lines.

Variable calendar : Time -> Calendar.

(** The prefix of a line of the file (lines 437-446). *)
Definition file_prefix (this : ULog) (now : Time) (severity : Z) : string :=
  let prefix := time_prefix calendar (fileTime this) now in
  if fileSeverity this
  then prefix ++ index_label severityLabels severity
  else prefix.

(** The prefix of a line of the console (lines 453-466). *)
Definition console_prefix (this : ULog) (now : Time) (severity : Z)
  : string :=
  let prefix := time_prefix calendar (consoleTime this) now in
  if consoleSeverity this then
    if consoleColors this
    then prefix ++ index_label severityColors severity
         ++ index_label severityLabels severity ++ ESC ++ "[0m"
    else prefix ++ index_label severityLabels severity
  else prefix.

End Lines.

(** A string without the escape byte. *)
Definition no_escape (s : string) : bool :=
  all_bytes_in (fun c => negb (Ascii.eqb c (byte 27))) s.

(** A logger whose file was opened at [sample_time] on the path of that
    day, and one with a syslog connection and colours off. *)
Definition today_log : ULog :=
  set_fileHandle (Some 7%nat)
    (set_filePreviousPath "/tmp/x-20240305.log"
       (set_lastCheck sample_time
          (New "ulog" "file(path=/tmp/x-%Y%m%d.log, time=0) option(utc=1)"))).

Definition syslog_log : ULog :=
  New "ulog" "syslog(remote=loghost, name=app) console(colors=0, time=0)".

Definition dial_env : Env :=
  {| env_dial := Some 3%nat; env_now := sample_time; env_open := None |}.

(** The number of bytes above 0x7F in a string. *)
Definition high_bytes (s : string) : nat :=
  List.length (filter (fun c => negb (is_ascii c)) (list_ascii_of_string s)).

(** * Properties *)

(** ** The model on examples *)

Example directive_re_ex :
  FindAllStringSubmatch directive_re 2 "x file (path=/a, time=0) console()y"
  = [["file (path=/a, time=0)"; "file"; "path=/a, time=0"];
     ["console()"; "console"; ""]].
Proof. reflexivity. Qed.

Example option_re_ex :
  FindAllStringSubmatch option_re 2 "path=/a, Time : 0,,x y=:z"
  = [["path=/a"; "path"; "/a"]; ["Time : 0"; "Time"; "0"];
     ["y=:z"; "y"; ":z"]].
Proof. reflexivity. Qed.

Example port_re_ex :
  (MatchString port_re "host:514", MatchString port_re "host",
   MatchString port_re "host:51a", MatchString port_re "a:1:")
  = (true, false, false, false).
Proof. reflexivity. Qed.

Example load_ex :
  let u := New "prog" "file(path=/tmp/x-%Y.log, time=stamp) console(output=STDOUT colors=no) syslog(remote=h, facility=Local3) option(utc=yes, level=Debug)" in
  (file u, filePath u, fileTime u, console u, consoleHandle u, consoleColors u,
   syslog u, syslogRemote u, syslogName u, syslogFacility u, optionUTC u,
   level u)
  = (true, "/tmp/x-%Y.log", TIME_TIMESTAMP, true, Stdout, false,
     true, "h:514", "prog", 152, true, 7).
Proof. vm_compute. reflexivity. Qed.

Example fmt_d_ex :
  (fmt_d true 2 7, fmt_d true 4 (-5), fmt_d false 2 7, fmt_d false 0 1234,
   fmt_d true 3 0, appendInt (-5) 4)
  = ("07", "-005", " 7", "1234", "000", "-0005").
Proof. reflexivity. Qed.

Example strftime_ex :
  (strftime sample_calendar "%Y-%m-%d" sample_time,
   strftime sample_calendar "/tmp/x-%Y%m%d.log" sample_time,
   strftime sample_calendar "%a %b %e %I:%M:%S %p %Z %z %j %q|%" sample_time)
  = ("2024-03-05", "/tmp/x-20240305.log",
     "Tue Mar  5 08:00:00 AM UTC +0000 065 |").
Proof. vm_compute. reflexivity. Qed.

Example TrimSpace_ex :
  TrimSpace (String (byte 9) (String (byte 194) (String (byte 160)
    (" a b " ++ String (byte 226) (String (byte 128) (String (byte 168)
    (String (byte 10) EmptyString)))))))
  = "a b".
Proof. reflexivity. Qed.

Example settings_ex :
  settings "option" "level" "option(level=debug) file(level=x) option(utc=1, LEVEL=Info)"
  = ["debug"; "Info"].
Proof. reflexivity. Qed.

(** A directive whose body has no closing parenthesis of its own takes
    the text up to the next one: the [option] directive below is read
    as part of the body of [file], and its [level] is not an option of
    an [option] directive. *)
Example settings_swallowed_ex :
  (directives_of "file(option(level=verbose)",
   settings "option" "level" "file(option(level=verbose)",
   level (New "ulog" "file(option(level=verbose)"))
  = ([["file(option(level=verbose)"; "file"; "option(level=verbose"]],
     [], LOG_INFO).
Proof. reflexivity. Qed.

(** The last [level] option decides. *)
Example settings_last_ex :
  (level (New "ulog" "option(level=verbose) option(level=warning)"),
   level (New "ulog" "option(level=warning, level=verbose)"))
  = (LOG_WARNING, 0).
Proof. reflexivity. Qed.

(** A [file] directive without a [path] keeps the sink of an earlier
    one that has a [path]. *)
Example file_path_kept_ex :
  let u := New "ulog" "file(path=/var/log/a.log) file(time=0)" in
  (file u, filePath u, fileTime u) = (true, "/var/log/a.log", TIME_NONE).
Proof. reflexivity. Qed.

(** The colorizer on the text of a map with the keys [user] and [id]. *)
Example colorizer_ex :
  let q := String (byte 34) "" in
  ReplaceAllString colorizer_re 1
    ("{" ++ q ++ "user" ++ q ++ ":" ++ q ++ "a" ++ q ++ ","
     ++ q ++ "id" ++ q ++ ":1}") colorize
  = "{" ++ q ++ ESC ++ "[37muser" ++ ESC ++ "[0m" ++ q ++ ":" ++ q ++ "a"
    ++ q ++ "," ++ q ++ ESC ++ "[37mid" ++ ESC ++ "[0m" ++ q ++ ":1}".
Proof. reflexivity. Qed.

(** A call of [Info] with a map on a console with colours. *)
Example log_map_ex :
  let q := String (byte 34) "" in
  let u := New "ulog" "console(time=stamp)" in
  sample_log u quiet_env LOG_INFO
    (VMap ("{" ++ q ++ "id" ++ q ++ ":1}" ++ String (byte 10) "")) []
  = Return
      (u,
       [Lock;
        Fprintf Stderr
          ("1709625600 " ++ ESC ++ "[36mINFO " ++ ESC ++ "[0m{" ++ q ++ ESC
           ++ "[37mid" ++ ESC ++ "[0m" ++ q ++ ":1}" ++ String (byte 10) "");
        Unlock]).
Proof. reflexivity. Qed.

(** ** Every match of the patterns is non-empty *)

Lemma star_consumes {R : Type} p s (k : string -> option R) x :
  star p s k = Some x ->
  exists s', k s' = Some x /\ (length s' <= length s)%nat.
Proof.
  induction s as [|c t IH]; simpl; intro H.
  - exists EmptyString. auto.
  - destruct (p c).
    + destruct (star p t k) as [y|] eqn:E.
      * injection H as <-.
        destruct (IH eq_refl) as [s' [Hk Hl] ].
        exists s'. split; [exact Hk | lia].
      * exists (String c t). auto.
    + exists (String c t). auto.
Qed.

Lemma run_consumes {R : Type} r :
  forall s cs (k : string -> captures -> option R) x,
    run r s cs k = Some x ->
    exists s' cs',
      k s' cs' = Some x /\ (length s' + min_length r <= length s)%nat.
Proof.
  induction r as [c | p | p | p | r1 IH1 r2 IH2 | r1 IH1 r2 IH2 | i r1 IH1 | ];
    intros s cs k x H; simpl in H.
  - destruct s as [|d t]; [discriminate H | ].
    destruct (Ascii.eqb c d); [ | discriminate H].
    exists t, cs. simpl. split; [exact H | lia].
  - destruct s as [|d t]; [discriminate H | ].
    destruct (p d); [ | discriminate H].
    exists t, cs. simpl. split; [exact H | lia].
  - apply star_consumes in H. destruct H as [s' [Hk Hl] ].
    exists s', cs. simpl. split; [exact Hk | lia].
  - destruct s as [|d t]; [discriminate H | ].
    destruct (p d); [ | discriminate H].
    apply star_consumes in H. destruct H as [s' [Hk Hl] ].
    exists s', cs. simpl. split; [exact Hk | lia].
  - apply IH1 in H. destruct H as [s1 [cs1 [H Hl1] ] ].
    apply IH2 in H. destruct H as [s2 [cs2 [H Hl2] ] ].
    exists s2, cs2. simpl. split; [exact H | lia].
  - destruct (run r1 s cs k) as [y|] eqn:E.
    + injection H as <-. apply IH1 in E.
      destruct E as [s' [cs' [Hk Hl] ] ].
      exists s', cs'. simpl. split; [exact Hk | lia].
    + apply IH2 in H. destruct H as [s' [cs' [Hk Hl] ] ].
      exists s', cs'. simpl. split; [exact Hk | lia].
  - apply IH1 in H. destruct H as [s' [cs' [Hk Hl] ] ].
    eexists. eexists. split; [exact Hk | simpl; lia].
  - destruct s; [ | discriminate H].
    exists EmptyString, cs. auto.
Qed.

(** A match of [r] at the start of [s] has at least [min_length r]
    bytes and at most the bytes of [s]. *)
Lemma match_at_length r ncap s m n :
  match_at r ncap s = Some (m, n) ->
  (min_length r <= n <= length s)%nat.
Proof.
  unfold match_at. intro H.
  apply run_consumes in H. destruct H as [s' [cs' [H Hl] ] ].
  injection H as _ <-. lia.
Qed.

Example patterns_consume :
  (min_length directive_re, min_length option_re, min_length port_re,
   min_length colorizer_re) = (6, 3, 2, 4)%nat.
Proof. reflexivity. Qed.

(** ** Folds *)

Ltac case_ifs :=
  repeat match goal with
         | |- context [if ?b then _ else _] => destruct b
         end.

Lemma fold_left_preserves {A B C : Type} (f : A -> B -> A) (g : A -> C) :
  (forall a b, g (f a b) = g a) ->
  forall l a, g (fold_left f l a) = g a.
Proof.
  intros Hstep l.
  induction l as [|b l IH]; intro a; simpl.
  - reflexivity.
  - rewrite IH. apply Hstep.
Qed.

Lemma last_of_app {A : Type} (l1 l2 : list A) :
  last_of (l1 ++ l2) =
  match last_of l2 with
  | Some x => Some x
  | None => last_of l1
  end.
Proof.
  unfold last_of.
  rewrite fold_left_app.
  generalize (fold_left (fun (_ : option A) (x : A) => Some x) l1 None).
  induction l2 as [|x l2 IH] using rev_ind; intro o.
  - reflexivity.
  - rewrite !fold_left_app. reflexivity.
Qed.

Lemma last_of_nil_inv {A : Type} (l : list A) : last_of l = None -> l = [].
Proof.
  destruct l as [|x l] using rev_ind.
  - reflexivity.
  - unfold last_of. rewrite fold_left_app. discriminate.
Qed.

(** A field that each element either leaves alone or overwrites with a
    function of the element ends as the last overwrite made. *)
Lemma fold_left_last_write {A B C V : Type} (f : A -> B -> A) (g : A -> C)
  (writes : B -> list V) (val : V -> C) :
  (forall a b,
      g (f a b) = match last_of (writes b) with
                  | Some v => val v
                  | None => g a
                  end) ->
  forall l a,
    g (fold_left f l a) = match last_of (flat_map writes l) with
                          | Some v => val v
                          | None => g a
                          end.
Proof.
  intros Hstep l.
  induction l as [|b l IH] using rev_ind; intro a.
  - reflexivity.
  - rewrite fold_left_app, flat_map_app, last_of_app. simpl.
    rewrite app_nil_r, Hstep.
    destruct (last_of (writes b)); [reflexivity | apply IH].
Qed.

(** ** The level and the facility after [Load] *)

Ltac name_case d k :=
  let E := fresh "E" in
  destruct (ToLower (sub d 1) =? k) eqn:E;
  [apply String.eqb_eq in E; try rewrite E in *; simpl | ].

(** The five ways through [load_directive], in the order of its
    [switch]. *)
Ltac name_cases d :=
  unfold load_directive, directive_settings;
  name_case d "file";
  [ | name_case d "console";
      [ | name_case d "syslog"; [ | name_case d "option" ] ] ].

Lemma load_file_option_level u o :
  level (load_file_option u o) = level u.
Proof. unfold load_file_option. case_ifs; reflexivity. Qed.

Lemma load_console_option_level u o :
  level (load_console_option u o) = level u.
Proof. unfold load_console_option. case_ifs; reflexivity. Qed.

Lemma load_syslog_option_level u o :
  level (load_syslog_option u o) = level u.
Proof. unfold load_syslog_option. case_ifs; reflexivity. Qed.

Lemma load_option_option_level u o :
  level (load_option_option u o) =
  match last_of (option_value "level" o) with
  | Some v => level_of_value v
  | None => level u
  end.
Proof.
  unfold load_option_option, option_value.
  destruct (ToLower (sub o 1) =? "utc") eqn:E.
  - apply String.eqb_eq in E. rewrite E. simpl. case_ifs; reflexivity.
  - destruct (ToLower (sub o 1) =? "level"); reflexivity.
Qed.

Lemma load_directive_level u d :
  level (load_directive u d) =
  match last_of (directive_settings "option" "level" d) with
  | Some v => level_of_value v
  | None => level u
  end.
Proof.
  name_cases d.
  - case_ifs; simpl; rewrite (fold_left_preserves _ level); auto using load_file_option_level.
  - rewrite (fold_left_preserves _ level); auto using load_console_option_level.
  - rewrite (fold_left_preserves _ level); auto using load_syslog_option_level.
  - apply (fold_left_last_write _ level (option_value "level") level_of_value).
    apply load_option_option_level.
  - reflexivity.
Qed.

Lemma Load_level progname target this :
  level (fst (Load progname target this)) =
  match last_of (settings "option" "level" target) with
  | Some v => level_of_value v
  | None => LOG_INFO
  end.
Proof.
  unfold Load, settings.
  destruct (Close this) as [closed events]. simpl.
  rewrite (fold_left_last_write _ level
             (directive_settings "option" "level") level_of_value).
  - reflexivity.
  - apply load_directive_level.
Qed.

Lemma load_file_option_syslogFacility u o :
  syslogFacility (load_file_option u o) = syslogFacility u.
Proof. unfold load_file_option. case_ifs; reflexivity. Qed.

Lemma load_console_option_syslogFacility u o :
  syslogFacility (load_console_option u o) = syslogFacility u.
Proof. unfold load_console_option. case_ifs; reflexivity. Qed.

Lemma load_option_option_syslogFacility u o :
  syslogFacility (load_option_option u o) = syslogFacility u.
Proof. unfold load_option_option. case_ifs; reflexivity. Qed.

Lemma load_syslog_option_syslogFacility u o :
  syslogFacility (load_syslog_option u o) =
  match last_of (option_value "facility" o) with
  | Some v => facility_of_value v
  | None => syslogFacility u
  end.
Proof.
  unfold load_syslog_option, option_value.
  destruct (ToLower (sub o 1) =? "remote") eqn:E.
  - apply String.eqb_eq in E. rewrite E. simpl. case_ifs; reflexivity.
  - destruct (ToLower (sub o 1) =? "name") eqn:E'.
    + apply String.eqb_eq in E'. rewrite E'. reflexivity.
    + destruct (ToLower (sub o 1) =? "facility"); reflexivity.
Qed.

Lemma load_directive_syslogFacility u d :
  syslogFacility (load_directive u d) =
  match last_of (directive_settings "syslog" "facility" d) with
  | Some v => facility_of_value v
  | None => syslogFacility u
  end.
Proof.
  name_cases d.
  - case_ifs; simpl; rewrite (fold_left_preserves _ syslogFacility);
      auto using load_file_option_syslogFacility.
  - rewrite (fold_left_preserves _ syslogFacility);
      auto using load_console_option_syslogFacility.
  - rewrite (fold_left_last_write _ syslogFacility
               (option_value "facility") facility_of_value)
      by apply load_syslog_option_syslogFacility.
    reflexivity.
  - rewrite (fold_left_preserves _ syslogFacility);
      auto using load_option_option_syslogFacility.
  - reflexivity.
Qed.

Lemma Load_syslogFacility progname target this :
  syslogFacility (fst (Load progname target this)) =
  match last_of (settings "syslog" "facility" target) with
  | Some v => facility_of_value v
  | None => LOG_DAEMON
  end.
Proof.
  unfold Load, settings.
  destruct (Close this) as [closed events]. simpl.
  rewrite (fold_left_last_write _ syslogFacility
             (directive_settings "syslog" "facility") facility_of_value).
  - reflexivity.
  - apply load_directive_syslogFacility.
Qed.

(** ** The file sink after [Load] *)

Lemma load_console_option_filePath u o :
  filePath (load_console_option u o) = filePath u.
Proof. unfold load_console_option. case_ifs; reflexivity. Qed.

Lemma load_syslog_option_filePath u o :
  filePath (load_syslog_option u o) = filePath u.
Proof. unfold load_syslog_option. case_ifs; reflexivity. Qed.

Lemma load_option_option_filePath u o :
  filePath (load_option_option u o) = filePath u.
Proof. unfold load_option_option. case_ifs; reflexivity. Qed.

Lemma load_file_option_filePath u o :
  filePath (load_file_option u o) =
  match last_of (option_value "path" o) with
  | Some v => v
  | None => filePath u
  end.
Proof.
  unfold load_file_option, option_value.
  destruct (ToLower (sub o 1) =? "path"); [reflexivity | ].
  simpl. case_ifs; reflexivity.
Qed.

Lemma load_directive_filePath u d :
  filePath (load_directive u d) =
  match last_of (directive_settings "file" "path" d) with
  | Some v => v
  | None => filePath u
  end.
Proof.
  name_cases d.
  - assert (H : forall w : ULog,
               filePath (if filePath w =? "" then set_file false w else w)
               = filePath w) by (intro w; case_ifs; reflexivity).
    rewrite H.
    rewrite (fold_left_last_write _ filePath (option_value "path") (fun v => v))
      by apply load_file_option_filePath.
    reflexivity.
  - rewrite (fold_left_preserves _ filePath);
      auto using load_console_option_filePath.
  - rewrite (fold_left_preserves _ filePath);
      auto using load_syslog_option_filePath.
  - rewrite (fold_left_preserves _ filePath);
      auto using load_option_option_filePath.
  - reflexivity.
Qed.

Lemma load_file_option_file u o :
  file (load_file_option u o) = file u.
Proof. unfold load_file_option. case_ifs; reflexivity. Qed.

Lemma load_console_option_file u o :
  file (load_console_option u o) = file u.
Proof. unfold load_console_option. case_ifs; reflexivity. Qed.

Lemma load_syslog_option_file u o :
  file (load_syslog_option u o) = file u.
Proof. unfold load_syslog_option. case_ifs; reflexivity. Qed.

Lemma load_option_option_file u o :
  file (load_option_option u o) = file u.
Proof. unfold load_option_option. case_ifs; reflexivity. Qed.

(** A [file] directive leaves the sink enabled exactly when the path is
    not empty after it; every other directive leaves the flag alone. *)
Lemma load_directive_file u d :
  file (load_directive u d) =
  if ToLower (sub d 1) =? "file"
  then negb (filePath (load_directive u d) =? "")
  else file u.
Proof.
  name_cases d.
  - match goal with
    | |- context [fold_left ?f ?l ?a] =>
        assert (Hw : file (fold_left f l a) = true)
          by (rewrite (fold_left_preserves _ file);
              auto using load_file_option_file);
        revert Hw; generalize (fold_left f l a)
    end.
    intros w Hw.
    destruct (filePath w =? "") eqn:Ew; simpl; rewrite ?Ew; auto.
  - rewrite (fold_left_preserves _ file); auto using load_console_option_file.
  - rewrite (fold_left_preserves _ file); auto using load_syslog_option_file.
  - rewrite (fold_left_preserves _ file); auto using load_option_option_file.
  - reflexivity.
Qed.

Lemma fold_load_directive_file ds :
  forall u,
    file u = false ->
    filePath (fold_left load_directive ds u) = "" ->
    file (fold_left load_directive ds u) = false.
Proof.
  induction ds as [|d ds IH] using rev_ind; intros u Hu Hpath.
  - exact Hu.
  - rewrite fold_left_app in *. simpl in *.
    rewrite load_directive_file.
    destruct (ToLower (sub d 1) =? "file") eqn:E.
    + rewrite Hpath. reflexivity.
    + apply IH; [exact Hu | ].
      rewrite load_directive_filePath in Hpath.
      unfold directive_settings in Hpath. rewrite E in Hpath. exact Hpath.
Qed.

Lemma Load_filePath progname target this :
  filePath (fst (Load progname target this)) =
  match last_of (settings "file" "path" target) with
  | Some v => v
  | None => ""
  end.
Proof.
  unfold Load, settings.
  destruct (Close this) as [closed events]. simpl.
  rewrite (fold_left_last_write _ filePath
             (directive_settings "file" "path") (fun v => v)).
  - reflexivity.
  - apply load_directive_filePath.
Qed.

(** ** [ToLower] is idempotent *)

Lemma substring_all s : substring 0 (length s) s = s.
Proof. induction s as [|c s IH]; simpl; [ | rewrite IH]; reflexivity. Qed.

Lemma ToLower_cons c t :
  ToLower (String c t) =
  if special2 c t then String "i" (ToLower (tail 1 t))
  else if special3 c t then String "k" (ToLower (tail 2 t))
  else String (lower_byte c) (ToLower t).
Proof.
  unfold tail.
  destruct t as [|c1 [|c2 t2]]; simpl.
  - reflexivity.
  - destruct (Ascii.eqb c (byte 196) && Ascii.eqb c1 (byte 176))%bool;
      reflexivity.
  - rewrite Nat.sub_0_r, !substring_all.
    destruct (Ascii.eqb c (byte 196) && Ascii.eqb c1 (byte 176))%bool;
      [ | destruct (Ascii.eqb c (byte 226) && Ascii.eqb c1 (byte 132)
                    && Ascii.eqb c2 (byte 170))%bool ];
      reflexivity.
Qed.

Ltac all_bytes c := destruct c as [[] [] [] [] [] [] [] []].

Lemma lower_byte_idempotent c : lower_byte (lower_byte c) = lower_byte c.
Proof. all_bytes c; reflexivity. Qed.

Lemma lower_byte_high c :
  is_ascii (lower_byte c) = false -> lower_byte c = c.
Proof. all_bytes c; intro H; (reflexivity || discriminate H). Qed.

Lemma ToLower_head t b rest :
  ToLower t = String b rest -> is_ascii b = false ->
  exists t', t = String b t' /\ rest = ToLower t'.
Proof.
  destruct t as [|c t]; [discriminate | ].
  rewrite ToLower_cons.
  destruct (special2 c t); [ | destruct (special3 c t)];
    intros E Hb; injection E as E1 E2; subst b.
  - discriminate Hb.
  - discriminate Hb.
  - exists t. rewrite (lower_byte_high c Hb). auto.
Qed.

Lemma special2_lower c t :
  special2 c t = false -> special2 (lower_byte c) (ToLower t) = false.
Proof.
  intro H. unfold special2.
  destruct (ToLower t) as [|z rest] eqn:E; [reflexivity | ].
  destruct (Ascii.eqb (lower_byte c) (byte 196)) eqn:E1; [ | reflexivity].
  destruct (Ascii.eqb z (byte 176)) eqn:E2; [ | reflexivity].
  apply Ascii.eqb_eq in E1, E2. subst z.
  destruct (ToLower_head _ _ _ E eq_refl) as [t' [-> _]].
  assert (Hc : c = byte 196)
    by (rewrite <- E1; symmetry; apply lower_byte_high; rewrite E1; reflexivity).
  subst c. discriminate H.
Qed.

Lemma special3_lower c t :
  special3 c t = false -> special3 (lower_byte c) (ToLower t) = false.
Proof.
  intro H. unfold special3.
  destruct (ToLower t) as [|z [|z2 rest]] eqn:E; try reflexivity.
  destruct (Ascii.eqb (lower_byte c) (byte 226)) eqn:E1; [ | reflexivity].
  destruct (Ascii.eqb z (byte 132)) eqn:E2; [ | reflexivity].
  destruct (Ascii.eqb z2 (byte 170)) eqn:E3; [ | reflexivity].
  apply Ascii.eqb_eq in E1, E2, E3. subst z z2.
  destruct (ToLower_head _ _ _ E eq_refl) as [t' [-> E']].
  symmetry in E'.
  destruct (ToLower_head _ _ _ E' eq_refl) as [t'' [-> _]].
  assert (Hc : c = byte 226)
    by (rewrite <- E1; symmetry; apply lower_byte_high; rewrite E1; reflexivity).
  subst c. discriminate H.
Qed.

Lemma length_tail_le n t : (length (tail n t) <= length t)%nat.
Proof.
  unfold tail. revert n.
  induction t as [|c t IH]; intro n; simpl.
  - destruct n; simpl; lia.
  - destruct n; simpl.
    + rewrite substring_all. lia.
    + specialize (IH n). lia.
Qed.

Lemma ToLower_idempotent_bounded n :
  forall s, (length s <= n)%nat -> ToLower (ToLower s) = ToLower s.
Proof.
  induction n as [|n IH]; intros s Hn.
  - destruct s; [reflexivity | simpl in Hn; lia].
  - destruct s as [|c t]; [reflexivity | ].
    simpl in Hn.
    assert (Ht : forall k, ToLower (ToLower (tail k t)) = ToLower (tail k t))
      by (intro k; apply IH; pose proof (length_tail_le k t); lia).
    rewrite (ToLower_cons c t).
    destruct (special2 c t) eqn:E2; [ | destruct (special3 c t) eqn:E3].
    + rewrite ToLower_cons.
      replace (special2 "i" (ToLower (tail 1 t))) with false
        by (unfold special2; destruct (ToLower (tail 1 t)); reflexivity).
      replace (special3 "i" (ToLower (tail 1 t))) with false
        by (unfold special3;
            destruct (ToLower (tail 1 t)) as [|? [|? ?]]; reflexivity).
      rewrite Ht. reflexivity.
    + rewrite ToLower_cons.
      replace (special2 "k" (ToLower (tail 2 t))) with false
        by (unfold special2; destruct (ToLower (tail 2 t)); reflexivity).
      replace (special3 "k" (ToLower (tail 2 t))) with false
        by (unfold special3;
            destruct (ToLower (tail 2 t)) as [|? [|? ?]]; reflexivity).
      rewrite Ht. reflexivity.
    + rewrite ToLower_cons.
      rewrite (special2_lower _ _ E2), (special3_lower _ _ E3).
      rewrite lower_byte_idempotent, IH by lia. reflexivity.
Qed.

Lemma ToLower_idempotent s : ToLower (ToLower s) = ToLower s.
Proof. apply (ToLower_idempotent_bounded (length s)). lia. Qed.

Lemma index_priority_none m k : lookup m k = None -> index_priority m k = 0.
Proof. unfold index_priority. intros ->. reflexivity. Qed.

Lemma filtered_below this severity :
  (level this < severity)%Z -> filtered this severity = true.
Proof.
  intro H. unfold filtered.
  apply Z.ltb_lt in H. rewrite H. reflexivity.
Qed.

(** ** Claims on [Load] and [SetLevel] *)

(** C1 (as amended): when the last [level] option of the [option]
    directives has a value that is not a key of [severities] in any
    case, [Load] leaves [level] at the zero value of the priority type;
    zero is below [LOG_ERR], so the filter of [log] stops every call at
    one of the four severities, [Error] included: the call returns with
    the logger unchanged and nothing written. *)
Theorem Load_unknown_level_filters_error :
  forall (progname target : string) (this : ULog) (v : string),
    last_of (settings "option" "level" target) = Some v ->
    lookup severities (ToLower v) = None ->
    let u := fst (Load progname target this) in
    level u = 0%Z
    /\ (level u < LOG_ERR)%Z
    /\ (forall severity, is_severity severity = true ->
                         filtered u severity = true)
    /\ (forall calendar GoMap GoOther Encode Sprintf Dir env payload a,
           Error calendar GoMap GoOther Encode Sprintf Dir u env payload a
           = Return (u, [])).
Proof.
  intros progname target this v Hlast Hv u.
  assert (Hu : level u = 0%Z).
  { unfold u. rewrite Load_level, Hlast.
    unfold level_of_value. rewrite ToLower_idempotent.
    apply index_priority_none, Hv. }
  split; [exact Hu | ].
  split; [rewrite Hu; reflexivity | ].
  split.
  - intros severity Hs. apply filtered_below. rewrite Hu.
    unfold is_severity in Hs.
    repeat (apply orb_true_iff in Hs; destruct Hs as [Hs | Hs]);
      apply Z.eqb_eq in Hs; subst severity; reflexivity.
  - intros. unfold Error, log.
    rewrite filtered_below by (rewrite Hu; reflexivity).
    reflexivity.
Qed.

(** C2 (as amended): after [Load], the syslog facility is [LOG_DAEMON]
    when no [syslog] directive has a [facility] option, and it is the
    zero value when the last such option has a value that is not a key
    of [facilities] in any case. *)
Theorem Load_facility_default_and_unknown :
  forall (progname target : string) (this : ULog),
    (settings "syslog" "facility" target = [] ->
     syslogFacility (fst (Load progname target this)) = LOG_DAEMON)
    /\ (forall v,
           last_of (settings "syslog" "facility" target) = Some v ->
           lookup facilities (ToLower v) = None ->
           syslogFacility (fst (Load progname target this)) = 0%Z).
Proof.
  intros progname target this. split.
  - intro H. rewrite Load_syslogFacility, H. reflexivity.
  - intros v Hlast Hv. rewrite Load_syslogFacility, Hlast.
    apply index_priority_none, Hv.
Qed.

(** C8: when no [file] directive of the descriptor has a [path] option,
    the file sink is disabled after [Load], whether or not the
    descriptor has [file] directives. *)
Theorem Load_file_without_path_disabled :
  forall (progname target : string) (this : ULog),
    settings "file" "path" target = [] ->
    file (fst (Load progname target this)) = false.
Proof.
  intros progname target this H.
  pose proof (Load_filePath progname target this) as Hpath.
  rewrite H in Hpath. simpl in Hpath.
  unfold Load in *. destruct (Close this) as [closed events]. simpl in *.
  apply fold_load_directive_file; [reflexivity | exact Hpath].
Qed.

(** C9: [SetLevel] sets [level] to the priority of the name when the
    name in lower case is one of the four severity names, and returns
    the logger as it was for every other name; it has no error
    result. *)
Theorem SetLevel_known_names_only :
  forall (name : string) (this : ULog),
    (ToLower name = "error" -> SetLevel name this = set_level LOG_ERR this)
    /\ (ToLower name = "warning" ->
        SetLevel name this = set_level LOG_WARNING this)
    /\ (ToLower name = "info" -> SetLevel name this = set_level LOG_INFO this)
    /\ (ToLower name = "debug" ->
        SetLevel name this = set_level LOG_DEBUG this)
    /\ (ToLower name <> "error" -> ToLower name <> "warning" ->
        ToLower name <> "info" -> ToLower name <> "debug" ->
        SetLevel name this = this).
Proof.
  intros name this. unfold SetLevel.
  repeat split.
  - intros ->. reflexivity.
  - intros ->. reflexivity.
  - intros ->. reflexivity.
  - intros ->. reflexivity.
  - intros H1 H2 H3 H4.
    apply String.eqb_neq in H1, H2, H3, H4.
    rewrite H1, H2, H3, H4. reflexivity.
Qed.

Lemma Load_unknown_level_filters_error_witness :
  let target := "console() option(level=verbose)" in
  last_of (settings "option" "level" target) = Some "verbose"
  /\ lookup severities (ToLower "verbose") = None
  /\ level (fst (Load "ulog" target zero_ULog)) = 0%Z.
Proof.
  intro target.
  split; [reflexivity | split; [reflexivity | ] ].
  destruct (Load_unknown_level_filters_error "ulog" target zero_ULog "verbose")
    as [H _]; [reflexivity | reflexivity | exact H].
Defined.

Lemma Load_facility_default_and_unknown_witness :
  syslogFacility (fst (Load "ulog" "syslog(name=app)" zero_ULog)) = LOG_DAEMON
  /\ syslogFacility (fst (Load "ulog" "syslog(facility=mail)" zero_ULog)) = 0%Z.
Proof.
  split.
  - apply (proj1 (Load_facility_default_and_unknown
                    "ulog" "syslog(name=app)" zero_ULog)).
    reflexivity.
  - apply (proj2 (Load_facility_default_and_unknown
                    "ulog" "syslog(facility=mail)" zero_ULog) "mail");
      reflexivity.
Defined.

Lemma Load_file_without_path_disabled_witness :
  settings "file" "path" "file(time=stamp, severity=0) console()" = []
  /\ file (fst (Load "ulog" "file(time=stamp, severity=0) console()" zero_ULog))
     = false.
Proof.
  split; [reflexivity | ].
  apply Load_file_without_path_disabled. reflexivity.
Defined.

Lemma SetLevel_known_names_only_witness :
  let u := New "ulog" "console()" in
  level (SetLevel "ERROR" u) = LOG_ERR
  /\ level (SetLevel "Warning" u) = LOG_WARNING
  /\ level (SetLevel "info" (SetLevel "debug" u)) = LOG_INFO
  /\ level (SetLevel "DeBuG" u) = LOG_DEBUG
  /\ SetLevel "bogus" (SetLevel "debug" u) = SetLevel "debug" u.
Proof.
  intro u.
  destruct (SetLevel_known_names_only "ERROR" u) as [H1 _].
  destruct (SetLevel_known_names_only "Warning" u) as [_ [H2 _] ].
  destruct (SetLevel_known_names_only "info" (SetLevel "debug" u))
    as [_ [_ [H3 _] ] ].
  destruct (SetLevel_known_names_only "DeBuG" u) as [_ [_ [_ [H4 _] ] ] ].
  destruct (SetLevel_known_names_only "bogus" (SetLevel "debug" u))
    as [_ [_ [_ [_ H5] ] ] ].
  rewrite H1, H2, H3, H4 by reflexivity.
  split; [reflexivity | ].
  split; [reflexivity | ].
  split; [reflexivity | ].
  split; [reflexivity | ].
  apply H5; discriminate.
Defined.

(** The descriptor [console() option(level=verbose)] enables the
    console and leaves [level] at zero; [LOG_ERR] is 3, so the filter
    stops a call of [Error] and nothing reaches the console. *)
Lemma unknown_level_error_counterexample :
  let u := New "ulog" "console() option(level=verbose)" in
  let env := {| env_dial := None; env_now := sample_time; env_open := None |} in
  console u = true
  /\ level u = 0%Z
  /\ filtered u LOG_ERR = true
  /\ Error sample_calendar string Z (fun m => Some m) (fun f _ => f)
       (fun p => p) u env (VString "disk full") []
     = Return (u, []).
Proof. repeat split. Qed.

(** The descriptor [syslog()] has no [facility] option and [Load]
    leaves the facility at [LOG_DAEMON], which is 24, not zero. *)
Lemma facility_absent_counterexample :
  syslogFacility (New "ulog" "syslog()") = LOG_DAEMON
  /\ syslogFacility (New "ulog" "syslog()") <> 0%Z.
Proof. split; [reflexivity | discriminate]. Qed.

(** ** [strftime] *)

Lemma append_nil_r (s : string) : s ++ "" = s.
Proof. induction s as [|c s IH]; simpl; [ | rewrite IH]; reflexivity. Qed.

Lemma append_assoc (s1 s2 s3 : string) : (s1 ++ s2) ++ s3 = s1 ++ (s2 ++ s3).
Proof. induction s1 as [|c s1 IH]; simpl; [ | rewrite IH]; reflexivity. Qed.

Lemma Join_app (l1 l2 : list string) :
  Join (l1 ++ l2) = Join l1 ++ Join l2.
Proof.
  induction l1 as [|e l1 IH]; simpl.
  - reflexivity.
  - rewrite IH, append_assoc. reflexivity.
Qed.

Section StrftimeFacts.

Variable calendar : Time -> Calendar.

Lemma verb_unrecognized c base :
  is_verb c = false -> verb calendar c base = [].
Proof.
  all_bytes c; intro H; vm_compute in H;
    first [discriminate H | reflexivity].
Qed.

(** [verbs] lists exactly the bytes that have a case in the inner
    [switch]: each of them appends at least one string. *)
Lemma verb_recognized c base :
  is_verb c = true -> verb calendar c base <> [].
Proof.
  all_bytes c; intro H; vm_compute in H;
    first [discriminate H | discriminate].
Qed.

Lemma strftime_output_cons c rest base :
  strftime_output calendar (String c rest) base =
  if Ascii.eqb c "%" then
    match rest with
    | EmptyString => []
    | String v rest' =>
        (verb calendar v base ++ strftime_output calendar rest' base)%list
    end
  else string_of_byte c :: strftime_output calendar rest base.
Proof. all_bytes c; reflexivity. Qed.

Lemma dangling_cons c rest :
  dangling (String c rest) =
  if Ascii.eqb c "%" then
    match rest with
    | EmptyString => true
    | String _ rest' => dangling rest'
    end
  else dangling rest.
Proof. all_bytes c; reflexivity. Qed.

Lemma strftime_output_app_bounded n base s :
  forall p, (length p <= n)%nat -> dangling p = false ->
    strftime_output calendar (p ++ s) base =
    (strftime_output calendar p base ++ strftime_output calendar s base)%list.
Proof.
  induction n as [|n IH]; intros p Hn Hp.
  - destruct p; [reflexivity | simpl in Hn; lia].
  - destruct p as [|c p]; [reflexivity | ].
    simpl in Hn. rewrite dangling_cons in Hp.
    change (String c p ++ s) with (String c (p ++ s)).
    rewrite !strftime_output_cons.
    destruct (Ascii.eqb c "%").
    + destruct p as [|v p]; [discriminate Hp | ].
      simpl in Hn.
      cbn [append].
      rewrite IH by (auto; lia).
      apply app_assoc.
    + rewrite IH by (auto; lia). reflexivity.
Qed.

(** The loop is compositional at every point where it starts a new
    iteration. *)
Lemma strftime_app p s base :
  dangling p = false ->
  strftime calendar (p ++ s) base =
  strftime calendar p base ++ strftime calendar s base.
Proof.
  intro Hp. unfold strftime.
  rewrite (strftime_output_app_bounded (length p)) by auto.
  apply Join_app.
Qed.

Lemma dangling_last_byte_bounded n :
  forall s, (length s <= n)%nat -> dangling s = true ->
            last_byte s = Some "%"%char.
Proof.
  induction n as [|n IH]; intros s Hn Hs.
  - destruct s; [discriminate Hs | simpl in Hn; lia].
  - destruct s as [|c s]; [discriminate Hs | ].
    simpl in Hn. rewrite dangling_cons in Hs.
    destruct (Ascii.eqb c "%") eqn:E.
    + destruct s as [|v s].
      * apply Ascii.eqb_eq in E. subst c. reflexivity.
      * simpl in Hn.
        destruct s as [|w s]; [discriminate Hs | ].
        change (last_byte (String w s) = Some "%"%char).
        apply IH; [simpl in *; lia | exact Hs].
    + destruct s as [|v s]; [discriminate Hs | ].
      change (last_byte (String v s) = Some "%"%char).
      apply IH; [simpl in *; lia | exact Hs].
Qed.

Lemma strftime_literal_byte c rest base :
  Ascii.eqb c "%" = false ->
  strftime calendar (String c rest) base =
  string_of_byte c ++ strftime calendar rest base.
Proof.
  intro H. unfold strftime. rewrite strftime_output_cons, H. reflexivity.
Qed.

(** A template of ASCII bytes other than [%] is returned as it is. *)
Lemma strftime_ascii_literal layout base :
  no_percent layout = true -> all_ascii layout = true ->
  strftime calendar layout base = layout.
Proof.
  unfold no_percent, all_ascii.
  induction layout as [|c layout IH]; simpl; intros Hp Ha.
  - reflexivity.
  - apply andb_true_iff in Hp. destruct Hp as [Hc Hp].
    apply andb_true_iff in Ha. destruct Ha as [Hc' Ha].
    apply negb_true_iff in Hc.
    rewrite strftime_literal_byte by exact Hc.
    unfold string_of_byte. rewrite Hc'. simpl.
    rewrite IH by assumption. reflexivity.
Qed.

End StrftimeFacts.

(** C3 (the code departs from the claim): a template without [%] is not
    always returned as it is.  Each byte above 0x7F goes through
    [string(layout[index])], which encodes the byte as a code point: the
    two bytes of U+00E9 come back as four bytes, at every instant. *)
Theorem strftime_non_ascii_literal_changed :
  forall (calendar : Time -> Calendar) (base : Time),
    no_percent e_acute = true
    /\ strftime calendar e_acute base = e_acute_mangled
    /\ strftime calendar e_acute base <> e_acute.
Proof.
  intros calendar base.
  split; [reflexivity | ].
  split; [reflexivity | discriminate].
Qed.

(** C7 (as amended): [%%] gives one [%], and a [%] followed by a byte
    that is not a verb gives nothing: the [%] and that one byte are
    passed over, at every instant and wherever in the template the loop
    meets the [%] (after a prefix [p] the loop has fully consumed), and
    the rest of the template is formatted as it would be alone.  So a
    character of one byte that is not a verb vanishes with the [%]; of
    a character of several bytes the first byte alone is passed over
    and the bytes after it belong to the rest of the template.
    [strftime] has no error result. *)
Theorem strftime_percent_and_unknown_verb :
  forall (calendar : Time -> Calendar) (base : Time),
    strftime calendar "%%" base = "%"
    /\ (forall c, is_verb c = false ->
                  strftime calendar (String "%" (String c "")) base = "")
    /\ (forall p rest, dangling p = false ->
          strftime calendar (p ++ "%%" ++ rest) base =
          strftime calendar p base ++ "%" ++ strftime calendar rest base)
    /\ (forall p c rest, dangling p = false -> is_verb c = false ->
          strftime calendar (p ++ String "%" (String c rest)) base =
          strftime calendar p base ++ strftime calendar rest base).
Proof.
  intros calendar base.
  split; [reflexivity | ].
  split.
  - intros c Hc. unfold strftime. simpl.
    rewrite (verb_unrecognized calendar c base Hc). reflexivity.
  - split.
    + intros p rest Hp. rewrite strftime_app by exact Hp. reflexivity.
    + intros p c rest Hp Hc. rewrite strftime_app by exact Hp.
      f_equal. unfold strftime. simpl.
      rewrite (verb_unrecognized calendar c base Hc). reflexivity.
Qed.

Lemma strftime_percent_and_unknown_verb_witness :
  strftime sample_calendar "%q" sample_time = ""
  /\ strftime sample_calendar "%Y%%%d" sample_time = "2024%05"
  /\ strftime sample_calendar "%Y%q%d" sample_time = "202405".
Proof.
  destruct (strftime_percent_and_unknown_verb sample_calendar sample_time)
    as [_ [H1 [H2 H3] ] ].
  split; [apply (H1 "q"%char); reflexivity | ].
  split.
  - transitivity (strftime sample_calendar "%Y" sample_time ++ "%"
                  ++ strftime sample_calendar "%d" sample_time);
      [exact (H2 "%Y" "%d" eq_refl) | reflexivity].
  - transitivity (strftime sample_calendar "%Y" sample_time
                  ++ strftime sample_calendar "%d" sample_time);
      [exact (H3 "%Y" "q"%char "%d" eq_refl eq_refl) | reflexivity].
Defined.

(** The character U+00E9 after a [%] does not vanish: the inner
    [switch] reads its first byte, 0xC3, which is no verb, and the loop
    goes on with its second byte, 0xA9, as a byte of the template. *)
Lemma percent_before_two_byte_character_counterexample :
  is_verb (byte 195) = false
  /\ strftime sample_calendar ("%" ++ e_acute) sample_time
     = String (byte 194) (String (byte 169) "")
  /\ strftime sample_calendar ("%" ++ e_acute) sample_time <> "".
Proof. split; [reflexivity | split; [reflexivity | discriminate] ]. Qed.

(** C10: a [%] that is the last byte of the template adds nothing: for a
    template [s] that does not end in [%], [s ++ "%"] is formatted as
    [s] is. *)
Theorem strftime_trailing_percent :
  forall (calendar : Time -> Calendar) (s : string) (base : Time),
    last_byte s <> Some "%"%char ->
    strftime calendar (s ++ "%") base = strftime calendar s base.
Proof.
  intros calendar s base Hs.
  assert (Hd : dangling s = false).
  { destruct (dangling s) eqn:E; [ | reflexivity].
    exfalso. apply Hs.
    apply (dangling_last_byte_bounded (length s)); auto. }
  rewrite strftime_app by exact Hd.
  change (strftime calendar "%" base) with "".
  apply append_nil_r.
Qed.

Lemma strftime_trailing_percent_witness :
  last_byte "%H:%M" <> Some "%"%char
  /\ strftime sample_calendar "%H:%M%" sample_time = "08:00".
Proof.
  split; [discriminate | ].
  transitivity (strftime sample_calendar "%H:%M" sample_time);
    [ | reflexivity].
  apply (strftime_trailing_percent sample_calendar "%H:%M" sample_time).
  discriminate.
Defined.

(** ** [log] *)

Lemma set_syslogHandle_same this :
  set_syslogHandle (syslogHandle this) this = this.
Proof. destruct this; reflexivity. Qed.

Section LogFacts.

Variable calendar : Time -> Calendar.
Variables GoMap GoOther : Type.
Variable Encode : GoMap -> option string.
Variable Sprintf : string -> list (Value GoMap GoOther) -> string.
Variable Dir : string -> string.

(** The syslog part of [log] changes the syslog handle alone and makes
    no call on a file. *)
Lemma log_syslog_effect this env severity layout a :
  exists h,
    fst (log_syslog GoMap GoOther Sprintf this env severity layout a)
    = set_syslogHandle h this
    /\ no_file_event
         (snd (log_syslog GoMap GoOther Sprintf this env severity layout a))
       = true.
Proof.
  unfold log_syslog.
  destruct (syslog this).
  - destruct (syslogHandle this) as [w|] eqn:Eh.
    + exists (Some w). rewrite Eh.
      destruct (is_severity severity); simpl;
        rewrite <- Eh, set_syslogHandle_same; auto.
    + exists (env_dial env). simpl.
      destruct (env_dial env); [destruct (is_severity severity) | ]; auto.
  - exists (syslogHandle this). simpl.
    rewrite set_syslogHandle_same. auto.
Qed.

(** When the resolved path is new, [rotate] closes the open file if
    there is one, clears the handle and records the path. *)
Lemma rotate_new_path this path :
  path <> filePreviousPath this ->
  rotate this path =
  (set_filePreviousPath path (set_fileHandle None this),
   match fileHandle this with
   | Some f => [FileClose f]
   | None => []
   end).
Proof.
  intro H. unfold rotate.
  apply String.eqb_neq in H. rewrite H. simpl.
  destruct (fileHandle this) eqn:E; [reflexivity | ].
  destruct this; simpl in *; subst; reflexivity.
Qed.

Lemma log_file_rotation this env now severity layout a :
  file this = true ->
  check_due this now = true ->
  strftime calendar (filePath this) now <> filePreviousPath this ->
  let path := strftime calendar (filePath this) now in
  let closed := match fileHandle this with
                | Some f => [FileClose f]
                | None => []
                end in
  let r := log_file calendar GoMap GoOther Sprintf Dir this env now severity
             layout a in
  filePreviousPath (fst r) = path
  /\ fileHandle (fst r) = env_open env
  /\ exists after,
       snd r = ([Lock] ++ closed
                ++ [MkdirAll (Dir path) 493; OpenFile path 420; Unlock]
                ++ after)%list.
Proof.
  intros Hfile Hdue Hpath path closed r.
  unfold r, log_file. rewrite Hfile, Hdue.
  rewrite rotate_new_path by exact Hpath.
  fold path. unfold open_if_nil. simpl.
  destruct (env_open env) as [f|]; simpl.
  - split; [reflexivity | split; [reflexivity | ] ].
    eexists. fold closed.
    rewrite <- !app_assoc. simpl. reflexivity.
  - split; [reflexivity | split; [reflexivity | ] ].
    exists []. reflexivity.
Qed.

End LogFacts.

(** C4: when the severity is less urgent than the minimum (its number is
    above [level]), or when no sink is enabled, [log] returns at once:
    the logger is unchanged and the call makes no call on the operating
    system, so no output, no input or output, and no lock or unlock;
    this holds for every payload, nil included. *)
Theorem log_filtered_does_nothing :
  forall (calendar : Time -> Calendar) (GoMap GoOther : Type)
         (Encode : GoMap -> option string)
         (Sprintf : string -> list (Value GoMap GoOther) -> string)
         (Dir : string -> string)
         (this : ULog) (env : Env) (severity : Z)
         (payload : Value GoMap GoOther) (a : list (Value GoMap GoOther)),
    (level this < severity)%Z
    \/ (syslog this = false /\ file this = false /\ console this = false) ->
    log calendar GoMap GoOther Encode Sprintf Dir this env severity payload a
    = Return (this, []).
Proof.
  intros calendar GoMap GoOther Encode Sprintf Dir this env severity payload a H.
  unfold log.
  replace (filtered this severity) with true; [reflexivity | ].
  symmetry. destruct H as [H | [Hs [Hf Hc] ] ].
  - apply filtered_below, H.
  - unfold filtered. rewrite Hs, Hf, Hc. apply orb_true_r.
Qed.

Lemma log_filtered_does_nothing_witness :
  let u := New "ulog" "console() file(path=/tmp/a.log)" in
  sample_log u quiet_env LOG_DEBUG VNil [] = Return (u, [])
  /\ sample_log zero_ULog quiet_env LOG_ERR (VString "x") []
     = Return (zero_ULog, []).
Proof.
  intro u. split.
  - apply log_filtered_does_nothing. left. reflexivity.
  - apply log_filtered_does_nothing. right. repeat split.
Defined.

(** C5: [log] is not total in its payload.  When the severity passes the
    filter and a sink is enabled, a nil payload makes the call panic:
    [reflect.TypeOf] is applied to it and [Kind] is called on the nil
    result.  A payload that is not nil and whose kind is neither string
    nor map leaves the template empty: the call goes on exactly as for
    the empty string, and returns. *)
Theorem log_nil_payload_panics :
  forall (calendar : Time -> Calendar) (GoMap GoOther : Type)
         (Encode : GoMap -> option string)
         (Sprintf : string -> list (Value GoMap GoOther) -> string)
         (Dir : string -> string)
         (this : ULog) (env : Env) (severity : Z)
         (a : list (Value GoMap GoOther)),
    (severity <= level this)%Z ->
    syslog this = true \/ file this = true \/ console this = true ->
    log calendar GoMap GoOther Encode Sprintf Dir this env severity VNil a
    = Panic
    /\ (forall payload,
           KindOf GoMap GoOther payload = Return KSlice
           \/ KindOf GoMap GoOther payload = Return KOtherKind ->
           normalize GoMap GoOther Encode payload a = Return ("", a)
           /\ log calendar GoMap GoOther Encode Sprintf Dir this env severity
                payload a
              = log calendar GoMap GoOther Encode Sprintf Dir this env severity
                  (VString "") a
           /\ exists r,
               log calendar GoMap GoOther Encode Sprintf Dir this env severity
                 payload a = Return r).
Proof.
  intros calendar GoMap GoOther Encode Sprintf Dir this env severity a
         Hlevel Hsink.
  assert (Hf : filtered this severity = false).
  { unfold filtered.
    replace (level this <? severity)%Z with false
      by (symmetry; apply Z.ltb_ge; exact Hlevel).
    destruct Hsink as [H | [H | H] ]; rewrite H; simpl;
      rewrite ?andb_false_r; reflexivity. }
  split.
  - unfold log. rewrite Hf. reflexivity.
  - intros payload Hk.
    assert (Hn : normalize GoMap GoOther Encode payload a = Return ("", a)
                 /\ is_map GoMap GoOther payload = false).
    { destruct payload; destruct Hk as [Hk | Hk]; try discriminate Hk;
        split; reflexivity. }
    destruct Hn as [Hn Hm].
    split; [exact Hn | ].
    assert (Hs : normalize GoMap GoOther Encode (VString "") a
                 = Return ("", a)) by reflexivity.
    assert (E : log calendar GoMap GoOther Encode Sprintf Dir this env severity
                  payload a
                = log calendar GoMap GoOther Encode Sprintf Dir this env
                    severity (VString "") a).
    { unfold log. rewrite Hf, Hn, Hs.
      unfold log_console. rewrite Hm. reflexivity. }
    split; [exact E | ].
    rewrite E. unfold log. rewrite Hf, Hs.
    destruct (log_syslog GoMap GoOther Sprintf this env severity
                (TrimSpace "") a) as [u1 sent].
    destruct (log_file calendar GoMap GoOther Sprintf Dir u1 env
                (in_location (if optionUTC u1 then UTC else Local)
                   (env_now env)) severity (TrimSpace "") a) as [u2 written].
    eexists. reflexivity.
Qed.

Lemma log_nil_payload_panics_witness :
  let u := New "ulog" "console(time=0, colors=0)" in
  sample_log u quiet_env LOG_ERR VNil [] = Panic
  /\ sample_log u quiet_env LOG_ERR (VOther 42%Z) []
     = Return (u, [Lock; Fprintf Stderr ("ERRO " ++ String (byte 10) ""); Unlock]).
Proof.
  intro u. unfold sample_log.
  destruct (log_nil_payload_panics sample_calendar string Z (fun m => Some m)
              sample_Sprintf (fun p => p) u quiet_env LOG_ERR [])
    as [H1 H2].
  - discriminate.
  - right. right. reflexivity.
  - split; [exact H1 | ].
    destruct (H2 (VOther 42%Z)) as [_ [H3 _] ]; [right; reflexivity | ].
    rewrite H3. reflexivity.
Defined.

(** C6: in a call of [log] that passes the filter with the file sink
    enabled, when the rotation check runs and the path resolved from the
    template is not the path recorded before, the open file, if there is
    one, is closed before any attempt to open, the attempt is made on
    the new path, the handle after the call is the one that attempt
    returned (none when it failed) and the new path is the recorded
    one.  No call on a file comes before the lock of the check. *)
Theorem log_rotation_closes_and_records :
  forall (calendar : Time -> Calendar) (GoMap GoOther : Type)
         (Encode : GoMap -> option string)
         (Sprintf : string -> list (Value GoMap GoOther) -> string)
         (Dir : string -> string)
         (this : ULog) (env : Env) (severity : Z)
         (payload : Value GoMap GoOther) (a : list (Value GoMap GoOther))
         (this' : ULog) (events : list Event),
    log calendar GoMap GoOther Encode Sprintf Dir this env severity payload a
    = Return (this', events) ->
    filtered this severity = false ->
    file this = true ->
    let now :=
      in_location (if optionUTC this then UTC else Local) (env_now env) in
    let path := strftime calendar (filePath this) now in
    check_due this now = true ->
    path <> filePreviousPath this ->
    filePreviousPath this' = path
    /\ fileHandle this' = env_open env
    /\ exists before after,
         events =
         (before ++ [Lock]
          ++ match fileHandle this with
             | Some f => [FileClose f]
             | None => []
             end
          ++ [MkdirAll (Dir path) 493; OpenFile path 420; Unlock]
          ++ after)%list
         /\ no_file_event before = true.
Proof.
  intros calendar GoMap GoOther Encode Sprintf Dir this env severity payload a
         this' events Hlog Hf Hfile now path Hdue Hpath.
  unfold log in Hlog. rewrite Hf in Hlog.
  destruct (normalize GoMap GoOther Encode payload a) as [[layout a'] | ];
    [ | discriminate Hlog].
  destruct (log_syslog_effect GoMap GoOther Sprintf this env severity
              (TrimSpace layout) a') as [h [Hu1 Hsent] ].
  destruct (log_syslog GoMap GoOther Sprintf this env severity
              (TrimSpace layout) a') as [u1 sent].
  simpl in Hu1, Hsent. subst u1.
  change (optionUTC (set_syslogHandle h this)) with (optionUTC this) in Hlog.
  fold now in Hlog.
  pose proof (log_file_rotation calendar GoMap GoOther Sprintf Dir
                (set_syslogHandle h this) env now severity (TrimSpace layout)
                a' Hfile Hdue Hpath) as Hrot.
  simpl in Hrot.
  destruct (log_file calendar GoMap GoOther Sprintf Dir
              (set_syslogHandle h this) env now severity (TrimSpace layout) a')
    as [u2 written].
  simpl in Hrot. destruct Hrot as [Hp [Hh [after Hw] ] ].
  injection Hlog as <- <-.
  split; [exact Hp | split; [exact Hh | ] ].
  exists sent. eexists. split; [ | exact Hsent].
  rewrite Hw. fold path. simpl.
  rewrite <- app_assoc. simpl. reflexivity.
Qed.

Lemma log_rotation_closes_and_records_witness :
  filePreviousPath (fst rotated) = "/tmp/x-20240305.log"
  /\ fileHandle (fst rotated) = Some 8%nat
  /\ snd rotated
     = [Lock; FileClose 7%nat; MkdirAll "/tmp/x-20240305.log" 493;
        OpenFile "/tmp/x-20240305.log" 420; Unlock;
        Lock; FileWriteString 8%nat ("INFO hello" ++ String (byte 10) "");
        Unlock].
Proof.
  destruct (log_rotation_closes_and_records sample_calendar string Z
              (fun m => Some m) sample_Sprintf (fun p => p)
              yesterday_log today_env LOG_INFO (VString "hello") []
              (fst rotated) (snd rotated))
    as [H1 [H2 _] ].
  - reflexivity.
  - reflexivity.
  - reflexivity.
  - reflexivity.
  - intro H. vm_compute in H. discriminate H.
  - split; [ | split; [exact H2 | reflexivity] ].
    rewrite H1. reflexivity.
Defined.

(** * Further properties *)

(** ** [Close] and what [Load] does before its loop *)

Lemma Close_state this :
  fst (Close this) = set_fileHandle None (set_syslogHandle None this).
Proof. destruct this as [? ? ? [f|] ? ? ? ? ? ? ? ? ? [w|] ? ? ? ? ? ?]; reflexivity. Qed.

Lemma Close_calls this :
  snd (Close this) = ([Lock] ++ close_calls this ++ [Unlock])%list.
Proof.
  destruct this as [? ? ? [f|] ? ? ? ? ? ? ? ? ? [w|] ? ? ? ? ? ?]; reflexivity.
Qed.

(** X1: [Close] closes each open handle once, the syslog writer before
    the file, between one lock and one unlock; it sets both handles to
    nil and changes no other field.  A second [Close] finds nothing to
    close: it locks, unlocks and returns the same logger. *)
Theorem Close_closes_once_and_is_idempotent :
  forall this : ULog,
    Close this
    = (set_fileHandle None (set_syslogHandle None this),
       ([Lock] ++ close_calls this ++ [Unlock])%list)
    /\ Close (fst (Close this)) = (fst (Close this), [Lock; Unlock]).
Proof.
  intro this. split.
  - rewrite (surjective_pairing (Close this)), Close_state, Close_calls.
    reflexivity.
  - destruct this as [? ? ? [f|] ? ? ? ? ? ? ? ? ? [w|] ? ? ? ? ? ?];
      reflexivity.
Qed.

Lemma load_defaults_handles progname this this' :
  fileHandle this = fileHandle this' ->
  syslogHandle this = syslogHandle this' ->
  load_defaults progname this = load_defaults progname this'.
Proof. unfold load_defaults. intros -> ->. reflexivity. Qed.

(** X2: the configuration [Load] returns depends on the descriptor and
    on the program name alone: whatever the logger was before, open
    handles included, [Load] returns what [New] returns for the same
    descriptor. *)
Theorem Load_forgets_previous :
  forall (progname target : string) (this : ULog),
    fst (Load progname target this) = New progname target.
Proof.
  intros progname target this. unfold New, Load.
  rewrite (surjective_pairing (Close this)).
  rewrite (surjective_pairing (Close zero_ULog)). simpl fst.
  f_equal. apply load_defaults_handles; rewrite Close_state; reflexivity.
Qed.

Ltac option_cases :=
  intros;
  unfold load_file_option, load_console_option, load_syslog_option,
    load_option_option;
  case_ifs; reflexivity.

(** A field that no option and none of the three sink flags touches is
    the same after a directive. *)
Lemma load_directive_preserves {C : Type} (g : ULog -> C) :
  (forall u o, g (load_file_option u o) = g u) ->
  (forall u o, g (load_console_option u o) = g u) ->
  (forall u o, g (load_syslog_option u o) = g u) ->
  (forall u o, g (load_option_option u o) = g u) ->
  (forall b u, g (set_file b u) = g u) ->
  (forall b u, g (set_console b u) = g u) ->
  (forall b u, g (set_syslog b u) = g u) ->
  forall u d, g (load_directive u d) = g u.
Proof.
  intros Hf Hc Hs Ho Sf Sc Ss u d.
  name_cases d.
  - case_ifs; rewrite ?Sf, (fold_left_preserves _ g), ?Sf; auto.
  - rewrite (fold_left_preserves _ g), ?Sc; auto.
  - rewrite (fold_left_preserves _ g), ?Ss; auto.
  - rewrite (fold_left_preserves _ g); auto.
  - reflexivity.
Qed.

Lemma load_directive_fileHandle u d :
  fileHandle (load_directive u d) = fileHandle u.
Proof. apply load_directive_preserves; try reflexivity; option_cases. Qed.

Lemma load_directive_syslogHandle u d :
  syslogHandle (load_directive u d) = syslogHandle u.
Proof. apply load_directive_preserves; try reflexivity; option_cases. Qed.

(** X3: [Load] never leaves a handle open and never opens one.  It
    first closes every open handle, each once and under the lock, then
    takes the lock once more for the parsing, and makes no other call;
    the logger it returns has neither a file nor a syslog handle,
    whatever the descriptor says. *)
Theorem Load_closes_and_opens_nothing :
  forall (progname target : string) (this : ULog),
    snd (Load progname target this)
    = ([Lock] ++ close_calls this ++ [Unlock; Lock; Unlock])%list
    /\ fileHandle (fst (Load progname target this)) = None
    /\ syslogHandle (fst (Load progname target this)) = None.
Proof.
  intros progname target this. unfold Load.
  rewrite (surjective_pairing (Close this)). simpl fst. simpl snd.
  split; [ | split].
  - rewrite Close_calls. rewrite <- !app_assoc. reflexivity.
  - rewrite (fold_left_preserves _ fileHandle)
      by apply load_directive_fileHandle.
    simpl. rewrite Close_state. reflexivity.
  - rewrite (fold_left_preserves _ syslogHandle)
      by apply load_directive_syslogHandle.
    simpl. rewrite Close_state. reflexivity.
Qed.

(** ** Options across the directives of a descriptor *)

Lemma fold_left_writes {A B C V : Type} (f : A -> B -> A) (g : A -> C)
  (writes : B -> list V) (step : C -> V -> C) :
  (forall a b, g (f a b) = fold_left step (writes b) (g a)) ->
  forall l a,
    g (fold_left f l a) = fold_left step (flat_map writes l) (g a).
Proof.
  intros Hstep l.
  induction l as [|b l IH]; intro a; simpl.
  - reflexivity.
  - rewrite IH, Hstep, fold_left_app. reflexivity.
Qed.

Lemma flat_map_if {A B : Type} (c : bool) (f : A -> list B) (l : list A) :
  flat_map (fun x => if c then f x else []) l
  = if c then flat_map f l else [].
Proof.
  destruct c; [reflexivity | ].
  induction l as [|x l IH]; simpl; auto.
Qed.

(** A field that the options named [key] of the directives named [name]
    write, and that nothing else touches. *)
Lemma load_directive_writes {C : Type} (g : ULog -> C) (name key : string)
  (step : C -> string -> C) :
  In name ["file"; "console"; "syslog"; "option"] ->
  (forall u o, g (load_file_option u o)
               = fold_left step
                   (if "file" =? name then option_value key o else []) (g u)) ->
  (forall u o, g (load_console_option u o)
               = fold_left step
                   (if "console" =? name then option_value key o else [])
                   (g u)) ->
  (forall u o, g (load_syslog_option u o)
               = fold_left step
                   (if "syslog" =? name then option_value key o else [])
                   (g u)) ->
  (forall u o, g (load_option_option u o)
               = fold_left step
                   (if "option" =? name then option_value key o else [])
                   (g u)) ->
  (forall b u, g (set_file b u) = g u) ->
  (forall b u, g (set_console b u) = g u) ->
  (forall b u, g (set_syslog b u) = g u) ->
  forall u d,
    g (load_directive u d)
    = fold_left step (directive_settings name key d) (g u).
Proof.
  intros Hname Hf Hc Hs Ho Sf Sc Ss u d.
  name_cases d; unfold values_of.
  - match goal with
    | |- context [if filePath ?w =? "" then _ else _] =>
        destruct (filePath w =? "")
    end;
      rewrite ?Sf;
      rewrite (fold_left_writes _ g _ step Hf), flat_map_if, Sf; reflexivity.
  - rewrite (fold_left_writes _ g _ step Hc), flat_map_if, Sc. reflexivity.
  - rewrite (fold_left_writes _ g _ step Hs), flat_map_if, Ss. reflexivity.
  - rewrite (fold_left_writes _ g _ step Ho), flat_map_if. reflexivity.
  - replace (ToLower (sub d 1) =? name) with false; [reflexivity | ].
    symmetry. apply String.eqb_neq. intro Hd.
    simpl in Hname.
    destruct Hname as [<- | [<- | [<- | [<- | [] ] ] ] ];
      rewrite Hd in *; simpl in *; discriminate.
Qed.

Lemma Load_writes {C : Type} (g : ULog -> C) (name key : string)
  (step : C -> string -> C) (progname target : string) (this : ULog) :
  (forall u d, g (load_directive u d)
               = fold_left step (directive_settings name key d) (g u)) ->
  g (fst (Load progname target this))
  = fold_left step (settings name key target)
      (g (load_defaults progname (fst (Close this)))).
Proof.
  intro H. unfold Load, settings.
  rewrite (surjective_pairing (Close this)). simpl fst.
  apply (fold_left_writes _ g _ step H).
Qed.

Ltac option_writes o :=
  unfold load_file_option, load_console_option, load_syslog_option,
    load_option_option, option_value;
  repeat match goal with
         | |- context [ToLower (sub o 1) =? ?k] =>
             let E := fresh "E" in
             destruct (ToLower (sub o 1) =? k) eqn:E;
             [apply String.eqb_eq in E; try rewrite E in *; simpl | ]
         end;
  simpl;
  repeat match goal with
         | |- context [is_true ?v] => destruct (is_true v); simpl
         | |- context [MatchString ?r ?v] =>
             destruct (MatchString r v); simpl
         end;
  case_ifs; try reflexivity; try discriminate.

Ltac one_option :=
  let w := fresh "w" in
  let o := fresh "o" in
  intros w o; option_writes o.

Ltac directive_writes :=
  apply load_directive_writes;
  [ simpl; tauto
  | one_option | one_option | one_option | one_option
  | reflexivity | reflexivity | reflexivity ].

Lemma load_directive_consoleColors u d :
  consoleColors (load_directive u d)
  = fold_left switch_off (directive_settings "console" "colors" d)
      (consoleColors u).
Proof. unfold switch_off. directive_writes. Qed.

Lemma load_directive_consoleSeverity u d :
  consoleSeverity (load_directive u d)
  = fold_left switch_off (directive_settings "console" "severity" d)
      (consoleSeverity u).
Proof. unfold switch_off. directive_writes. Qed.

Lemma load_directive_fileSeverity u d :
  fileSeverity (load_directive u d)
  = fold_left switch_off (directive_settings "file" "severity" d)
      (fileSeverity u).
Proof. unfold switch_off. directive_writes. Qed.

Lemma load_directive_optionUTC u d :
  optionUTC (load_directive u d)
  = fold_left switch_on (directive_settings "option" "utc" d) (optionUTC u).
Proof. unfold switch_on. directive_writes. Qed.

Lemma load_directive_consoleHandle u d :
  consoleHandle (load_directive u d)
  = fold_left to_stdout (directive_settings "console" "output" d)
      (consoleHandle u).
Proof. unfold to_stdout. directive_writes. Qed.

Lemma load_directive_fileTime u d :
  fileTime (load_directive u d)
  = fold_left time_mode (directive_settings "file" "time" d) (fileTime u).
Proof. unfold time_mode. directive_writes. Qed.

Lemma load_directive_consoleTime u d :
  consoleTime (load_directive u d)
  = fold_left time_mode (directive_settings "console" "time" d)
      (consoleTime u).
Proof. unfold time_mode. directive_writes. Qed.

Lemma load_directive_syslogRemote u d :
  syslogRemote (load_directive u d)
  = fold_left (fun _ v => with_port v)
      (directive_settings "syslog" "remote" d) (syslogRemote u).
Proof. unfold with_port. directive_writes. Qed.

Lemma load_directive_syslogName u d :
  syslogName (load_directive u d)
  = fold_left (fun _ v => v) (directive_settings "syslog" "name" d)
      (syslogName u).
Proof. directive_writes. Qed.

Lemma fold_switch_off l : forall b,
  fold_left switch_off l b = (b && forallb true_value l)%bool.
Proof.
  induction l as [|v l IH]; intro b; simpl.
  - rewrite andb_true_r. reflexivity.
  - rewrite IH. unfold switch_off, true_value.
    destruct (is_true (ToLower v)); simpl;
      [reflexivity | rewrite andb_false_r; reflexivity].
Qed.

Lemma fold_switch_on l : forall b,
  fold_left switch_on l b = (b || existsb true_value l)%bool.
Proof.
  induction l as [|v l IH]; intro b; simpl.
  - rewrite orb_false_r. reflexivity.
  - rewrite IH. unfold switch_on, true_value.
    destruct (is_true (ToLower v)); simpl;
      [rewrite orb_true_r; reflexivity | reflexivity].
Qed.

Lemma fold_to_stdout l : forall w,
  fold_left to_stdout l w
  = if existsb (fun v => ToLower v =? "stdout") l then Stdout else w.
Proof.
  induction l as [|v l IH]; intro w; simpl.
  - reflexivity.
  - rewrite IH. unfold to_stdout.
    destruct (ToLower v =? "stdout"); simpl; [ | reflexivity].
    destruct (existsb _ l); reflexivity.
Qed.

Lemma fold_last_write {V C : Type} (val : V -> C) l : forall c,
  fold_left (fun _ v => val v) l c
  = match last_of l with
    | Some v => val v
    | None => c
    end.
Proof.
  induction l as [|v l IH] using rev_ind; intro c.
  - reflexivity.
  - rewrite fold_left_app, last_of_app. reflexivity.
Qed.

(** X4: the options [severity], [colors], [utc] and [output] switch one
    way only, across all the directives of a descriptor.  The severity
    label and the colours are on unless some value of the option is not
    one of [1], [true], [on], [yes] in any case; a later true value
    does not switch them on again.  UTC is on as soon as one value of
    [utc] is a true value, and the console is the standard output as
    soon as one value of [output] is [stdout]; no later value undoes
    it. *)
Theorem Load_one_way_switches :
  forall (progname target : string) (this : ULog),
    let u := fst (Load progname target this) in
    fileSeverity u = forallb true_value (settings "file" "severity" target)
    /\ consoleSeverity u
       = forallb true_value (settings "console" "severity" target)
    /\ consoleColors u
       = forallb true_value (settings "console" "colors" target)
    /\ optionUTC u = existsb true_value (settings "option" "utc" target)
    /\ consoleHandle u
       = if existsb (fun v => ToLower v =? "stdout")
              (settings "console" "output" target)
         then Stdout else Stderr.
Proof.
  intros progname target this u. unfold u.
  rewrite (Load_writes fileSeverity "file" "severity" switch_off)
    by apply load_directive_fileSeverity.
  rewrite (Load_writes consoleSeverity "console" "severity" switch_off)
    by apply load_directive_consoleSeverity.
  rewrite (Load_writes consoleColors "console" "colors" switch_off)
    by apply load_directive_consoleColors.
  rewrite (Load_writes optionUTC "option" "utc" switch_on)
    by apply load_directive_optionUTC.
  rewrite (Load_writes consoleHandle "console" "output" to_stdout)
    by apply load_directive_consoleHandle.
  rewrite !fold_switch_off, fold_switch_on, fold_to_stdout.
  repeat split.
Qed.

Lemma true_value_not_stamp v :
  true_value v = true ->
  ((ToLower v =? "stamp") || (ToLower v =? "timestamp"))%bool = false.
Proof.
  unfold true_value, is_true. intro H.
  repeat (apply orb_true_iff in H; destruct H as [H | H]);
    apply String.eqb_eq in H; rewrite H; reflexivity.
Qed.

Lemma fold_time_mode l : forall m,
  fold_left time_mode l m
  = match last_of (filter (fun v => negb (true_value v)) l) with
    | Some v => mode_of v
    | None => m
    end.
Proof.
  induction l as [|v l IH] using rev_ind; intro m.
  - reflexivity.
  - rewrite fold_left_app, filter_app, last_of_app. simpl.
    rewrite IH. unfold time_mode, mode_of.
    destruct (true_value v) eqn:E; simpl.
    + rewrite (true_value_not_stamp v E).
      unfold true_value in E. rewrite E. reflexivity.
    + unfold true_value in E. rewrite E. reflexivity.
Qed.

(** X5: the time prefix of the file and of the console is decided by
    the last [time] option of the sink whose value is not a true value:
    [stamp] or [timestamp] gives the Unix time and any other value
    gives no prefix; with no such option the prefix is the date and
    time.  A true value changes nothing, so it does not bring back a
    prefix that an earlier option took away. *)
Theorem Load_time_mode :
  forall (progname target : string) (this : ULog),
    let decided name :=
      last_of (filter (fun v => negb (true_value v))
                 (settings name "time" target)) in
    let u := fst (Load progname target this) in
    fileTime u = match decided "file" with
                 | Some v => mode_of v
                 | None => TIME_DATE
                 end
    /\ consoleTime u = match decided "console" with
                       | Some v => mode_of v
                       | None => TIME_DATE
                       end.
Proof.
  intros progname target this decided u. unfold u, decided.
  rewrite (Load_writes fileTime "file" "time" time_mode)
    by apply load_directive_fileTime.
  rewrite (Load_writes consoleTime "console" "time" time_mode)
    by apply load_directive_consoleTime.
  rewrite !fold_time_mode. split; reflexivity.
Qed.

Lemma MatchString_default_port v : MatchString port_re (v ++ ":514") = true.
Proof.
  induction v as [|c v IH].
  - reflexivity.
  - change (String c v ++ ":514") with (String c (v ++ ":514")).
    unfold MatchString; fold MatchString.
    destruct (match_at port_re 0 (String c (v ++ ":514")));
      [reflexivity | exact IH].
Qed.

Lemma with_port_has_port v : MatchString port_re (with_port v) = true.
Proof.
  unfold with_port.
  destruct (MatchString port_re v) eqn:E;
    [exact E | apply MatchString_default_port].
Qed.

(** X6: the remote address and the name of the syslog sink are those
    of the last [remote] and [name] options of the [syslog]
    directives.  A remote address that does not end in a colon and
    digits gets [:514] added, so after [Load] the address is empty (the
    local syslog) or ends in a colon and digits; the name is the
    program name when no [name] option is given. *)
Theorem Load_syslog_remote_and_name :
  forall (progname target : string) (this : ULog),
    let u := fst (Load progname target this) in
    syslogRemote u = match last_of (settings "syslog" "remote" target) with
                     | Some v => with_port v
                     | None => ""
                     end
    /\ (syslogRemote u = ""
        \/ MatchString port_re (syslogRemote u) = true)
    /\ syslogName u = match last_of (settings "syslog" "name" target) with
                      | Some v => v
                      | None => progname
                      end.
Proof.
  intros progname target this u. unfold u.
  rewrite (Load_writes syslogRemote "syslog" "remote" (fun _ v => with_port v))
    by apply load_directive_syslogRemote.
  rewrite (Load_writes syslogName "syslog" "name" (fun _ v => v))
    by apply load_directive_syslogName.
  rewrite (fold_last_write with_port), (fold_last_write (fun v => v)).
  split; [reflexivity | split; [ | reflexivity] ].
  destruct (last_of (settings "syslog" "remote" target)) as [v|].
  - right. apply with_port_has_port.
  - left. reflexivity.
Qed.

(** X7: a name the tables know is taken: when the last [level] option
    has one of the four severity names as its value, in any case, the
    minimum severity is that severity, and when the last [facility]
    option has one of the ten facility names, the facility is that
    facility; with no [level] option the minimum severity is
    [LOG_INFO]. *)
Theorem Load_known_level_and_facility :
  forall (progname target : string) (this : ULog),
    let u := fst (Load progname target this) in
    (settings "option" "level" target = [] -> level u = LOG_INFO)
    /\ (forall v p,
           last_of (settings "option" "level" target) = Some v ->
           lookup severities (ToLower v) = Some p -> level u = p)
    /\ (forall v p,
           last_of (settings "syslog" "facility" target) = Some v ->
           lookup facilities (ToLower v) = Some p -> syslogFacility u = p).
Proof.
  intros progname target this u. unfold u.
  split; [ | split].
  - intro H. rewrite Load_level, H. reflexivity.
  - intros v p Hlast Hp. rewrite Load_level, Hlast.
    unfold level_of_value, index_priority.
    rewrite ToLower_idempotent, Hp. reflexivity.
  - intros v p Hlast Hp. rewrite Load_syslogFacility, Hlast.
    unfold facility_of_value, index_priority. rewrite Hp. reflexivity.
Qed.

Lemma Load_known_level_and_facility_witness :
  let target := "option(level=Warning) syslog(facility=LOCAL3) option(level=DEBUG)" in
  level (New "ulog" target) = LOG_DEBUG
  /\ syslogFacility (New "ulog" target) = LOG_LOCAL3
  /\ level (New "ulog" "console()") = LOG_INFO.
Proof.
  intro target.
  destruct (Load_known_level_and_facility "ulog" target zero_ULog)
    as [_ [H1 H2] ].
  destruct (Load_known_level_and_facility "ulog" "console()" zero_ULog)
    as [H3 _].
  split; [apply (H1 "DEBUG"); reflexivity | ].
  split; [apply (H2 "LOCAL3"); reflexivity | ].
  apply H3. reflexivity.
Defined.

(** ** What the option pattern captures *)

Lemma star_split {R : Type} p s (k : string -> option R) x :
  star p s k = Some x ->
  exists w s', s = w ++ s' /\ all_bytes_in p w = true /\ k s' = Some x.
Proof.
  induction s as [|c t IH]; simpl; intro H.
  - exists "", "". auto.
  - destruct (p c) eqn:Ec.
    + destruct (star p t k) as [y|] eqn:E.
      * injection H as <-.
        destruct (IH eq_refl) as [w [s' [-> [Hw Hk] ] ] ].
        exists (String c w), s'. unfold all_bytes_in in *. simpl.
        rewrite Ec, Hw. auto.
      * exists "", (String c t). auto.
    + exists "", (String c t). auto.
Qed.

Lemma length_append (a b : string) :
  length (a ++ b) = (length a + length b)%nat.
Proof. induction a as [|c a IH]; simpl; [ | rewrite IH]; reflexivity. Qed.

Lemma substring_prefix (a b : string) :
  substring 0 (length (a ++ b) - length b) (a ++ b) = a.
Proof.
  rewrite length_append.
  replace (length a + length b - length b)%nat with (length a) by lia.
  induction a as [|c a IH]; simpl.
  - destruct b; reflexivity.
  - rewrite IH. reflexivity.
Qed.

Lemma some_pair_inv {A B : Type} (a c : A) (b d : B) :
  Some (a, b) = Some (c, d) -> a = c /\ b = d.
Proof. intro H. split; congruence. Qed.

(** A match of the option pattern has a key and a value that are not
    empty and are made of the bytes of their classes. *)
Lemma option_re_captures s m n :
  match_at option_re 2 s = Some (m, n) ->
  exists key value,
    m = [substring 0 n s; key; value]
    /\ key <> "" /\ all_bytes_in key_byte key = true
    /\ value <> "" /\ all_bytes_in value_byte value = true.
Proof.
  unfold match_at, option_re. cbn [run]. intro H.
  destruct s as [|d t]; [discriminate H | ].
  destruct (negb (one_of ":=," d || is_space d)) eqn:Ed; [ | discriminate H].
  apply star_split in H. destruct H as [w1 [s1 [-> [Hw1 H] ] ] ].
  apply star_split in H. destruct H as [w2 [s2 [-> [_ H] ] ] ].
  destruct s2 as [|e s3]; [discriminate H | ].
  destruct (one_of ":=" e); [ | discriminate H].
  apply star_split in H. destruct H as [w3 [s4 [-> [_ H] ] ] ].
  destruct s4 as [|f t4]; [discriminate H | ].
  destruct (negb (one_of "," f || is_space f)) eqn:Ef; [ | discriminate H].
  apply star_split in H. destruct H as [w4 [s5 [-> [Hw4 H] ] ] ].
  apply some_pair_inv in H. destruct H as [Hm Hn].
  rewrite <- Hm, <- Hn. clear Hm Hn.
  exists (String d w1), (String f w4).
  split; [ | split; [discriminate | split; [ | split; [discriminate | ] ] ] ].
  - cbn [map seq capture Nat.eqb].
    change (String f (w4 ++ s5)) with (String f w4 ++ s5).
    rewrite substring_prefix.
    change (String d (w1 ++ w2 ++ String e (w3 ++ String f w4 ++ s5)))
      with (String d w1 ++ (w2 ++ String e (w3 ++ String f w4 ++ s5))).
    rewrite substring_prefix. reflexivity.
  - unfold all_bytes_in, key_byte in *. simpl. rewrite Ed, Hw1. reflexivity.
  - unfold all_bytes_in, value_byte in *. simpl. rewrite Ef, Hw4. reflexivity.
Qed.

Lemma find_all_from_In r ncap m s : forall skip,
  In m (find_all_from r ncap skip s) ->
  exists s' n, match_at r ncap s' = Some (m, n).
Proof.
  induction s as [|c t IH]; intros skip H; simpl in H.
  - destruct H.
  - destruct skip as [|k]; [ | exact (IH _ H)].
    destruct (match_at r ncap (String c t)) as [ [m' n]|] eqn:E.
    + destruct H as [<- | H]; [eauto | exact (IH _ H)].
    + exact (IH _ H).
Qed.

Lemma settings_values name key target v :
  In v (settings name key target) ->
  v <> "" /\ all_bytes_in value_byte v = true.
Proof.
  unfold settings, directive_settings, values_of, option_value, options_of,
    FindAllStringSubmatch.
  intro H. apply in_flat_map in H. destruct H as [d [_ H] ].
  destruct (ToLower (sub d 1) =? name); [ | destruct H].
  apply in_flat_map in H. destruct H as [o [Ho H] ].
  destruct (ToLower (sub o 1) =? key); [ | destruct H].
  destruct H as [<- | [] ].
  apply find_all_from_In in Ho. destruct Ho as [s' [n Ho] ].
  apply option_re_captures in Ho.
  destruct Ho as [k [value [-> [_ [_ [H1 H2] ] ] ] ] ].
  auto.
Qed.

Lemma last_of_In {A : Type} (l : list A) x : last_of l = Some x -> In x l.
Proof.
  destruct l as [|y l] using rev_ind; [discriminate | ].
  rewrite last_of_app. simpl. intro H. injection H as <-.
  apply in_or_app. right. left. reflexivity.
Qed.

(** ** Which sinks a descriptor enables *)

Lemma fold_left_sticky {A B : Type} (f : A -> B -> A) (g : A -> bool)
  (hit : B -> bool) :
  (forall a b, g (f a b) = (g a || hit b)%bool) ->
  forall l a, g (fold_left f l a) = (g a || existsb hit l)%bool.
Proof.
  intros Hstep l.
  induction l as [|b l IH]; intro a; simpl.
  - rewrite orb_false_r. reflexivity.
  - rewrite IH, Hstep, orb_assoc. reflexivity.
Qed.

Lemma load_directive_console u d :
  console (load_directive u d)
  = (console u || (ToLower (sub d 1) =? "console"))%bool.
Proof.
  name_cases d.
  - rewrite orb_false_r.
    case_ifs; simpl; rewrite (fold_left_preserves _ console);
      auto; option_cases.
  - rewrite (fold_left_preserves _ console) by option_cases.
    rewrite orb_true_r. reflexivity.
  - rewrite orb_false_r, (fold_left_preserves _ console) by option_cases.
    reflexivity.
  - rewrite orb_false_r, (fold_left_preserves _ console) by option_cases.
    reflexivity.
  - rewrite orb_false_r. reflexivity.
Qed.

Lemma load_directive_syslog u d :
  syslog (load_directive u d)
  = (syslog u || (ToLower (sub d 1) =? "syslog"))%bool.
Proof.
  name_cases d.
  - rewrite orb_false_r.
    case_ifs; simpl; rewrite (fold_left_preserves _ syslog);
      auto; option_cases.
  - rewrite orb_false_r, (fold_left_preserves _ syslog) by option_cases.
    reflexivity.
  - rewrite (fold_left_preserves _ syslog) by option_cases.
    rewrite orb_true_r. reflexivity.
  - rewrite orb_false_r, (fold_left_preserves _ syslog) by option_cases.
    reflexivity.
  - rewrite orb_false_r. reflexivity.
Qed.

Lemma Load_console_syslog_flags progname target this :
  console (fst (Load progname target this)) = has_directive "console" target
  /\ syslog (fst (Load progname target this)) = has_directive "syslog" target.
Proof.
  unfold Load, has_directive.
  rewrite (surjective_pairing (Close this)). simpl fst.
  rewrite (fold_left_sticky _ console _ load_directive_console).
  rewrite (fold_left_sticky _ syslog _ load_directive_syslog).
  split; reflexivity.
Qed.

(** X8: the console sink and the syslog sink are enabled exactly when
    the descriptor has a directive of their name; no option of the
    directive is needed and none disables the sink. *)
Theorem Load_console_and_syslog_enabled :
  forall (progname target : string) (this : ULog),
    console (fst (Load progname target this)) = has_directive "console" target
    /\ syslog (fst (Load progname target this))
       = has_directive "syslog" target.
Proof.
  intros progname target this. apply Load_console_syslog_flags.
Qed.

Lemma fold_load_directive_file_enabled ds : forall u,
  file (fold_left load_directive ds u)
  = if existsb (fun d => ToLower (sub d 1) =? "file") ds
    then negb (filePath (fold_left load_directive ds u) =? "")
    else file u.
Proof.
  induction ds as [|d ds IH] using rev_ind; intro u.
  - reflexivity.
  - rewrite fold_left_app, existsb_app. simpl.
    rewrite load_directive_file.
    destruct (ToLower (sub d 1) =? "file") eqn:E.
    + rewrite orb_true_r. reflexivity.
    + rewrite !orb_false_r, IH.
      rewrite (load_directive_filePath _ d).
      unfold directive_settings. rewrite E. reflexivity.
Qed.

Lemma settings_has_directive name key target :
  settings name key target <> [] -> has_directive name target = true.
Proof.
  unfold settings, has_directive.
  induction (directives_of target) as [|d ds IH]; simpl; intro H.
  - contradiction.
  - unfold directive_settings in H at 1.
    destruct (ToLower (sub d 1) =? name); [reflexivity | ].
    apply IH, H.
Qed.

(** X9: the file sink is enabled exactly when some [file] directive of
    the descriptor has a [path] option, and its path template is the
    value of the last such option.  The value is never empty and holds
    neither a comma nor white space: the pattern ends a value there, so
    a path with a space in it is cut at the space. *)
Theorem Load_file_enabled_iff_path :
  forall (progname target : string) (this : ULog),
    let u := fst (Load progname target this) in
    (file u = true <-> settings "file" "path" target <> [])
    /\ filePath u = match last_of (settings "file" "path" target) with
                    | Some v => v
                    | None => ""
                    end
    /\ all_bytes_in value_byte (filePath u) = true.
Proof.
  intros progname target this u.
  assert (Hpath : filePath u
                  = match last_of (settings "file" "path" target) with
                    | Some v => v
                    | None => ""
                    end) by apply Load_filePath.
  assert (Hfile : file u
                  = if has_directive "file" target
                    then negb (filePath u =? "") else false).
  { unfold u, Load, has_directive.
    rewrite (surjective_pairing (Close this)). simpl fst.
    apply fold_load_directive_file_enabled. }
  split; [ | split; [exact Hpath | ] ].
  - rewrite Hfile, Hpath. split.
    + intros H E. rewrite E in H. simpl in H.
      destruct (has_directive "file" target); discriminate H.
    + intro H. rewrite (settings_has_directive _ _ _ H).
      destruct (last_of (settings "file" "path" target)) as [v|] eqn:E.
      * apply last_of_In, settings_values in E. destruct E as [E _].
        apply String.eqb_neq in E. rewrite E. reflexivity.
      * apply last_of_nil_inv in E. contradiction.
  - rewrite Hpath.
    destruct (last_of (settings "file" "path" target)) as [v|] eqn:E;
      [ | reflexivity].
    apply last_of_In, settings_values in E. apply E.
Qed.

Example path_with_space_ex :
  let u := New "ulog" "file(path=/var/my logs/a.log)" in
  (file u, filePath u) = (true, "/var/my").
Proof. reflexivity. Qed.

(** X10: a descriptor with no [console] directive, no [syslog]
    directive and no [path] option in a [file] directive, the empty
    descriptor among them, gives a logger that does nothing: every call
    of [log] returns at once with the logger as it was and no call
    made, whatever the severity and the payload. *)
Theorem Load_without_sink_logs_nothing :
  forall (progname target : string) (this : ULog),
    has_directive "console" target = false ->
    has_directive "syslog" target = false ->
    settings "file" "path" target = [] ->
    forall calendar GoMap GoOther Encode Sprintf Dir env severity payload a,
      log calendar GoMap GoOther Encode Sprintf Dir
        (fst (Load progname target this)) env severity payload a
      = Return (fst (Load progname target this), []).
Proof.
  intros progname target this Hc Hs Hf.
  destruct (Load_console_syslog_flags progname target this) as [Ec Es].
  assert (Ef : file (fst (Load progname target this)) = false).
  { pose proof (Load_filePath progname target this) as Hp.
    rewrite Hf in Hp. simpl in Hp.
    unfold Load in *. rewrite (surjective_pairing (Close this)) in *.
    simpl fst in *.
    apply fold_load_directive_file; [reflexivity | exact Hp]. }
  intros. unfold log, filtered.
  rewrite Ec, Es, Ef, Hc, Hs. simpl. rewrite orb_true_r. reflexivity.
Qed.

Lemma Load_without_sink_logs_nothing_witness :
  sample_log (New "ulog" "") quiet_env LOG_ERR (VString "lost") []
  = Return (New "ulog" "", [])
  /\ sample_log (New "ulog" "FILE(path=/a) option(level=debug) file(time=0)")
       quiet_env LOG_ERR VNil []
     = Return (New "ulog" "FILE(path=/a) option(level=debug) file(time=0)", []).
Proof.
  split.
  - apply (Load_without_sink_logs_nothing "ulog" "" zero_ULog); reflexivity.
  - apply (Load_without_sink_logs_nothing "ulog"
             "FILE(path=/a) option(level=debug) file(time=0)" zero_ULog);
      reflexivity.
Defined.

(** X11: with no [level] option in the descriptor the minimum severity
    is [LOG_INFO]: a call of [Debug] does nothing, whatever sinks are
    enabled, and the three other severities pass the test on the
    level. *)
Theorem Load_default_level_drops_debug :
  forall (progname target : string) (this : ULog),
    settings "option" "level" target = [] ->
    let u := fst (Load progname target this) in
    (forall calendar GoMap GoOther Encode Sprintf Dir env payload a,
        Debug calendar GoMap GoOther Encode Sprintf Dir u env payload a
        = Return (u, []))
    /\ (LOG_ERR <= level u)%Z /\ (LOG_WARNING <= level u)%Z
    /\ (LOG_INFO <= level u)%Z.
Proof.
  intros progname target this H u.
  assert (Hl : level u = LOG_INFO)
    by (unfold u; rewrite Load_level, H; reflexivity).
  split.
  - intros. unfold Debug, log.
    rewrite filtered_below by (rewrite Hl; reflexivity).
    reflexivity.
  - rewrite Hl. repeat split; discriminate.
Qed.

Lemma Load_default_level_drops_debug_witness :
  let u := New "ulog" "console() syslog()" in
  sample_log u quiet_env LOG_DEBUG (VString "detail") [] = Return (u, []).
Proof.
  intro u.
  exact (proj1 (Load_default_level_drops_debug "ulog" "console() syslog()"
                  zero_ULog eq_refl)
           sample_calendar string Z (fun m => Some m) sample_Sprintf
           (fun p => p) quiet_env (VString "detail") []).
Defined.

(** ** [SetLevel] and the [level] option *)

Lemma set_level_same this : set_level (level this) this = this.
Proof. destruct this; reflexivity. Qed.

Lemma SetLevel_table name this :
  SetLevel name this
  = set_level match lookup severities (ToLower name) with
              | Some p => p
              | None => level this
              end this.
Proof.
  unfold SetLevel, lookup, severities.
  destruct (ToLower name =? "error"); [reflexivity | ].
  destruct (ToLower name =? "warning"); [reflexivity | ].
  destruct (ToLower name =? "info"); [reflexivity | ].
  destruct (ToLower name =? "debug"); [reflexivity | ].
  symmetry. apply set_level_same.
Qed.

(** X12: [SetLevel] and the [level] option of a descriptor read the
    names alike: for a name that the table [severities] knows, in any
    case, [SetLevel] sets the minimum severity that [Load] sets when
    the name is the value of the last [level] option, and [SetLevel]
    changes no other field. *)
Theorem SetLevel_agrees_with_Load :
  forall (progname target name : string) (this other : ULog) (p : Z),
    last_of (settings "option" "level" target) = Some name ->
    lookup severities (ToLower name) = Some p ->
    SetLevel name other = set_level p other
    /\ level (SetLevel name other) = level (fst (Load progname target this)).
Proof.
  intros progname target name this other p Hlast Hp.
  rewrite SetLevel_table, Hp. split; [reflexivity | ].
  rewrite Load_level, Hlast. unfold level_of_value, index_priority.
  rewrite ToLower_idempotent, Hp. reflexivity.
Qed.

Lemma SetLevel_agrees_with_Load_witness :
  let u := New "ulog" "console() option(level=WARNING)" in
  level (SetLevel "WARNING" (New "ulog" "console()")) = level u.
Proof.
  intro u.
  apply (SetLevel_agrees_with_Load "ulog" "console() option(level=WARNING)"
           "WARNING" zero_ULog (New "ulog" "console()") LOG_WARNING);
    reflexivity.
Defined.

(** ** The three parts of [log] *)

Lemma filter_none {A : Type} (p : A -> bool) (l : list A) :
  forallb (fun x => negb (p x)) l = true -> filter p l = [].
Proof.
  induction l as [|x l IH]; simpl; intro H; [reflexivity | ].
  apply andb_true_iff in H. destruct H as [Hx Hl].
  apply negb_true_iff in Hx. rewrite Hx. auto.
Qed.

Lemma set_fields_same this :
  set_fileHandle (fileHandle this)
    (set_filePreviousPath (filePreviousPath this)
       (set_lastCheck (lastCheck this) this)) = this.
Proof. destruct this; reflexivity. Qed.

(** Every way through a function: the tests and the optional values it
    looks at, one after the other. *)
Ltac all_branches :=
  repeat (simpl;
          match goal with
          | |- context [if ?b then _ else _] => destruct b eqn:?
          | |- context [match ?x with Some _ => _ | None => _ end] =>
              destruct x eqn:?
          end);
  simpl.

Section LogParts.

Variable calendar : Time -> Calendar.
Variables GoMap GoOther : Type.
Variable Encode : GoMap -> option string.
Variable Sprintf : string -> list (Value GoMap GoOther) -> string.
Variable Dir : string -> string.

Abbreviation log_syslog' := (log_syslog GoMap GoOther Sprintf).
Abbreviation log_file' := (log_file calendar GoMap GoOther Sprintf Dir).
Abbreviation log_console' := (log_console calendar GoMap GoOther Sprintf).
Abbreviation log' := (log calendar GoMap GoOther Encode Sprintf Dir).

(** A call that passes the filter with a payload that does not panic
    returns, with the calls of the three parts one after the other. *)
Lemma log_parts this env severity payload a layout a' :
  filtered this severity = false ->
  normalize GoMap GoOther Encode payload a = Return (layout, a') ->
  let l := TrimSpace layout in
  let now := log_now this env in
  let r1 := log_syslog' this env severity l a' in
  let r2 := log_file' (fst r1) env now severity l a' in
  log' this env severity payload a
  = Return (fst r2,
            (snd r1 ++ snd r2
             ++ log_console' (fst r2) now severity payload l a')%list).
Proof.
  intros Hf Hn l now r1 r2. unfold log. rewrite Hf, Hn. fold l.
  destruct (log_syslog_effect GoMap GoOther Sprintf this env severity l a')
    as [h [Hu _] ].
  unfold r2, r1, now, log_now.
  destruct (log_syslog' this env severity l a') as [u1 sent].
  simpl in Hu. subst u1. simpl fst. simpl snd.
  change (optionUTC (set_syslogHandle h this)) with (optionUTC this).
  destruct (log_file' (set_syslogHandle h this) env
              (in_location (if optionUTC this then UTC else Local)
                 (env_now env)) severity l a') as [u2 written].
  reflexivity.
Qed.

(** The syslog part: the handle after it and its calls. *)
Lemma log_syslog_result this env severity l a :
  syslog this = true ->
  let h := match syslogHandle this with
           | Some w => Some w
           | None => env_dial env
           end in
  log_syslog' this env severity l a
  = (set_syslogHandle h this,
     (match syslogHandle this with
      | Some _ => []
      | None =>
          [Lock;
           SyslogDial (if syslogRemote this =? "" then "" else "udp")
             (syslogRemote this) (syslogFacility this) (syslogName this);
           Unlock]
      end
      ++ match h with
         | Some w =>
             if is_severity severity
             then [SyslogSend w severity (Sprintf l a)] else []
         | None => []
         end)%list).
Proof.
  intros Hs h. unfold log_syslog, h. rewrite Hs.
  destruct (syslogHandle this) as [w|] eqn:E.
  - simpl. rewrite E.
    replace (set_syslogHandle (Some w) this) with this
      by (rewrite <- E; symmetry; apply set_syslogHandle_same).
    destruct (is_severity severity); reflexivity.
  - simpl. destruct (env_dial env) as [w|];
      [destruct (is_severity severity) | ]; simpl;
      rewrite ?app_nil_r; reflexivity.
Qed.

Lemma log_syslog_off this env severity l a :
  syslog this = false -> log_syslog' this env severity l a = (this, []).
Proof. intro H. unfold log_syslog. rewrite H. reflexivity. Qed.

(** The file part when there is no open file. *)
Lemma log_file_opens this env now severity l a :
  file this = true ->
  fileHandle this = None ->
  let path := strftime calendar (filePath this) now in
  log_file' this env now severity l a
  = (set_fileHandle (env_open env)
       (set_filePreviousPath path (set_lastCheck now this)),
     ([Lock; MkdirAll (Dir path) 493; OpenFile path 420; Unlock]
      ++ match env_open env with
         | Some f =>
             [Lock;
              FileWriteString f
                (Sprintf (file_prefix calendar this now severity ++ l
                          ++ line_feed) a);
              Unlock]
         | None => []
         end)%list).
Proof.
  intros Hfile Hh path. unfold log_file, check_due, rotate, open_if_nil.
  rewrite Hfile. simpl. rewrite Hh, orb_true_r. fold path.
  destruct (path =? filePreviousPath this) eqn:E; simpl; rewrite Hh; simpl.
  - apply String.eqb_eq in E.
    replace (set_fileHandle (env_open env) (set_lastCheck now this))
      with (set_fileHandle (env_open env)
              (set_filePreviousPath path (set_lastCheck now this)))
      by (destruct this; simpl in *; subst; reflexivity).
    destruct (env_open env); reflexivity.
  - destruct (env_open env); reflexivity.
Qed.

(** The file part when a file is open and the path has not changed,
    or is not looked at. *)
Lemma log_file_reuses this env now severity l a f :
  file this = true ->
  fileHandle this = Some f ->
  check_due this now = false
  \/ strftime calendar (filePath this) now = filePreviousPath this ->
  log_file' this env now severity l a
  = (set_lastCheck (if check_due this now then now else lastCheck this) this,
     ((if check_due this now then [Lock; Unlock] else [])
      ++ [Lock;
          FileWriteString f
            (Sprintf (file_prefix calendar this now severity ++ l
                      ++ line_feed) a);
          Unlock])%list).
Proof.
  intros Hfile Hh Hsame. unfold log_file, rotate, open_if_nil.
  rewrite Hfile.
  destruct (check_due this now) eqn:Ed.
  - destruct Hsame as [Hsame | Hsame]; [discriminate Hsame | ].
    simpl. rewrite Hsame, String.eqb_refl.
    unfold set_lastCheck, file_prefix. simpl. rewrite Hh. reflexivity.
  - rewrite Hh.
    replace (set_lastCheck (lastCheck this) this) with this
      by (destruct this; reflexivity).
    reflexivity.
Qed.

Lemma log_file_off this env now severity l a :
  file this = false -> log_file' this env now severity l a = (this, []).
Proof. intro H. unfold log_file. rewrite H. reflexivity. Qed.

(** The console part: one locked [Fprintf], or nothing. *)
Lemma log_console_calls this now severity payload l a :
  console_calls (log_console' this now severity payload l a)
  = if console this
    then [Fprintf (consoleHandle this)
            (Sprintf (console_prefix calendar this now severity ++ l
                      ++ line_feed)
               (if (is_map GoMap GoOther payload && consoleColors this)%bool
                then map (fun x =>
                            VString
                              (ReplaceAllString (consoleColorizer this) 1
                                 (Sprintf "%s" [x]) colorize)) a
                else a))]
    else [].
Proof.
  unfold log_console, console_prefix.
  destruct (console this); reflexivity.
Qed.

Lemma log_console_other this now severity payload l a :
  file_calls (log_console' this now severity payload l a) = []
  /\ syslog_calls (log_console' this now severity payload l a) = [].
Proof. unfold log_console. destruct (console this); split; reflexivity. Qed.

Lemma log_syslog_other this env severity l a :
  file_calls (snd (log_syslog' this env severity l a)) = []
  /\ console_calls (snd (log_syslog' this env severity l a)) = [].
Proof.
  destruct (syslog this) eqn:Es;
    [rewrite log_syslog_result by exact Es
    | rewrite log_syslog_off by exact Es; split; reflexivity].
  simpl snd.
  destruct (syslogHandle this) as [w|].
  - destruct (is_severity severity); split; reflexivity.
  - destruct (env_dial env); [destruct (is_severity severity) | ];
      split; reflexivity.
Qed.

Lemma log_file_other this env now severity l a :
  syslog_calls (snd (log_file' this env now severity l a)) = []
  /\ console_calls (snd (log_file' this env now severity l a)) = [].
Proof.
  destruct this. unfold log_file, rotate, open_if_nil. all_branches.
  all: split; reflexivity.
Qed.

End LogParts.

Section LogShape.

Variable calendar : Time -> Calendar.
Variables GoMap GoOther : Type.
Variable Encode : GoMap -> option string.
Variable Sprintf : string -> list (Value GoMap GoOther) -> string.
Variable Dir : string -> string.

Abbreviation log_syslog'' := (log_syslog GoMap GoOther Sprintf).
Abbreviation log_file'' := (log_file calendar GoMap GoOther Sprintf Dir).
Abbreviation log_console'' := (log_console calendar GoMap GoOther Sprintf).

(** The file part does not look at the syslog handle. *)
Lemma log_file_syslogHandle h this env now severity l a :
  log_file'' (set_syslogHandle h this) env now severity l a
  = (set_syslogHandle h (fst (log_file'' this env now severity l a)),
     snd (log_file'' this env now severity l a)).
Proof.
  destruct this. unfold log_file, rotate, open_if_nil, check_due.
  all_branches. all: reflexivity.
Qed.

(** The file part changes the file handle, the recorded path and the
    instant of the last check, and nothing else. *)
Lemma log_file_fields this env now severity l a :
  exists fh pp lc,
    fst (log_file'' this env now severity l a)
    = set_fileHandle fh (set_filePreviousPath pp (set_lastCheck lc this)).
Proof.
  destruct this. unfold log_file, rotate, open_if_nil, check_due.
  all_branches.
  all: do 3 eexists;
    unfold set_fileHandle, set_filePreviousPath, set_lastCheck; simpl;
    reflexivity.
Qed.

Lemma log_console_fields fh pp lc h this now severity payload l a :
  log_console''
    (set_syslogHandle h
       (set_fileHandle fh (set_filePreviousPath pp (set_lastCheck lc this))))
    now severity payload l a
  = log_console'' this now severity payload l a.
Proof. reflexivity. Qed.

(** A call that passes the filter with a payload that does not panic:
    the logger it returns and its calls, from the three parts run on
    the logger it was given. *)
Lemma log_shape this env severity payload a layout a' :
  filtered this severity = false ->
  normalize GoMap GoOther Encode payload a = Return (layout, a') ->
  let l := TrimSpace layout in
  let now := log_now this env in
  exists h sent,
    log_syslog'' this env severity l a' = (set_syslogHandle h this, sent)
    /\ log calendar GoMap GoOther Encode Sprintf Dir this env severity
         payload a
       = Return
           (set_syslogHandle h (fst (log_file'' this env now severity l a')),
            (sent ++ snd (log_file'' this env now severity l a')
             ++ log_console'' this now severity payload l a')%list).
Proof.
  intros Hf Hn l now.
  rewrite (log_parts calendar GoMap GoOther Encode Sprintf Dir this env
             severity payload a layout a' Hf Hn).
  fold l. fold now.
  destruct (log_syslog_effect GoMap GoOther Sprintf this env severity l a')
    as [h [Hu _] ].
  destruct (log_syslog'' this env severity l a') as [u1 sent].
  simpl in Hu. subst u1.
  exists h, sent. split; [reflexivity | ].
  simpl fst. simpl snd.
  rewrite log_file_syslogHandle. simpl fst. simpl snd.
  destruct (log_file_fields this env now severity l a') as [fh [pp [lc E] ] ].
  rewrite E at 2. rewrite log_console_fields. reflexivity.
Qed.

Lemma locks_ok_app a : forall held b,
  locks_ok held a = true -> locks_ok held (a ++ b) = locks_ok false b.
Proof.
  induction a as [|e a IH]; intros held b H; simpl in *.
  - destruct held; [discriminate H | reflexivity].
  - destruct e, held; simpl in *; try discriminate H; apply IH; exact H.
Qed.

Lemma log_syslog_locks this env severity l a :
  locks_ok false (snd (log_syslog'' this env severity l a)) = true.
Proof. destruct this. unfold log_syslog. all_branches. all: reflexivity. Qed.

Lemma log_file_locks this env now severity l a :
  locks_ok false (snd (log_file'' this env now severity l a)) = true.
Proof.
  destruct this. unfold log_file, rotate, open_if_nil, check_due.
  all_branches. all: reflexivity.
Qed.

Lemma log_console_locks this now severity payload l a :
  locks_ok false (log_console'' this now severity payload l a) = true.
Proof. unfold log_console. destruct (console this); reflexivity. Qed.

End LogShape.

Lemma filter_app3 {A : Type} (p : A -> bool) (a b c : list A) :
  filter p (a ++ b ++ c) = (filter p a ++ filter p b ++ filter p c)%list.
Proof. rewrite !filter_app. reflexivity. Qed.

(** ** The file sink in [log] *)

(** X13: a call that passes the filter with the file sink enabled and
    no open file tries to open one, whatever the instant of the last
    check: it resolves the path from the template, creates the
    directories and opens the path.  When the open succeeds the line is
    written to the new handle; when it fails nothing is written, the
    call returns all the same and the handle stays nil, so the next
    call tries again. *)
Theorem log_opens_file_when_none :
  forall (calendar : Time -> Calendar) (GoMap GoOther : Type)
         (Encode : GoMap -> option string)
         (Sprintf : string -> list (Value GoMap GoOther) -> string)
         (Dir : string -> string)
         (this : ULog) (env : Env) (severity : Z)
         (payload : Value GoMap GoOther) (a : list (Value GoMap GoOther))
         (layout : string) (a' : list (Value GoMap GoOther)),
    filtered this severity = false ->
    normalize GoMap GoOther Encode payload a = Return (layout, a') ->
    file this = true ->
    fileHandle this = None ->
    let now := log_now this env in
    let path := strftime calendar (filePath this) now in
    exists this' events,
      log calendar GoMap GoOther Encode Sprintf Dir this env severity payload a
      = Return (this', events)
      /\ file_calls events
         = ([MkdirAll (Dir path) 493; OpenFile path 420]
            ++ match env_open env with
               | Some f =>
                   [FileWriteString f
                      (Sprintf (file_prefix calendar this now severity
                                ++ TrimSpace layout ++ line_feed)%string a')]
               | None => []
               end)%list
      /\ fileHandle this' = env_open env
      /\ filePreviousPath this' = path
      /\ lastCheck this' = now.
Proof.
  intros calendar GoMap GoOther Encode Sprintf Dir this env severity payload a
         layout a' Hf Hn Hfile Hh now path.
  destruct (log_shape calendar GoMap GoOther Encode Sprintf Dir this env
              severity payload a layout a' Hf Hn) as [h [sent [Hs Hlog] ] ].
  fold now in Hlog.
  rewrite (log_file_opens calendar GoMap GoOther Sprintf Dir this env now
             severity (TrimSpace layout) a' Hfile Hh) in Hlog.
  fold path in Hlog. simpl fst in Hlog. simpl snd in Hlog.
  eexists. eexists. split; [exact Hlog | ].
  split; [ | repeat split].
  unfold file_calls. rewrite filter_app3.
  pose proof (log_syslog_other GoMap GoOther Sprintf this env severity
                (TrimSpace layout) a') as [Hs1 _].
  rewrite Hs in Hs1. unfold file_calls in Hs1. simpl in Hs1. rewrite Hs1.
  pose proof (log_console_other calendar GoMap GoOther Sprintf this now
                severity payload (TrimSpace layout) a') as [Hc1 _].
  unfold file_calls in Hc1. rewrite Hc1.
  destruct (env_open env); reflexivity.
Qed.

Lemma log_opens_file_when_none_witness :
  let u := New "ulog" "file(path=/var/log/a-%Y.log, time=0)" in
  exists this' events,
    sample_log u quiet_env LOG_ERR (VString "boom") [] = Return (this', events)
    /\ file_calls events
       = [MkdirAll "/var/log/a-2024.log" 493; OpenFile "/var/log/a-2024.log" 420]
    /\ fileHandle this' = None.
Proof.
  intro u.
  destruct (log_opens_file_when_none sample_calendar string Z
              (fun m => Some m) sample_Sprintf (fun p => p) u quiet_env
              LOG_ERR (VString "boom") [] "boom" [])
    as [this' [events [H1 [H2 [H3 _] ] ] ] ]; try reflexivity.
  exists this', events. split; [exact H1 | split; [exact H2 | exact H3] ].
Defined.

(** X14: a call that passes the filter with the file sink enabled, a
    file open and the same path reuses the handle: whether the check of
    the path is not yet due (less than a second since the last one) or
    is due and resolves to the recorded path, the one call the call
    makes on a file is the write of the line to the open handle;
    nothing is closed, created or opened, and the handle and the
    recorded path are kept.  The instant of the last check moves only
    when the check was due. *)
Theorem log_reuses_open_file :
  forall (calendar : Time -> Calendar) (GoMap GoOther : Type)
         (Encode : GoMap -> option string)
         (Sprintf : string -> list (Value GoMap GoOther) -> string)
         (Dir : string -> string)
         (this : ULog) (env : Env) (severity : Z)
         (payload : Value GoMap GoOther) (a : list (Value GoMap GoOther))
         (layout : string) (a' : list (Value GoMap GoOther)) (f : File),
    filtered this severity = false ->
    normalize GoMap GoOther Encode payload a = Return (layout, a') ->
    file this = true ->
    fileHandle this = Some f ->
    let now := log_now this env in
    check_due this now = false
    \/ strftime calendar (filePath this) now = filePreviousPath this ->
    exists this' events,
      log calendar GoMap GoOther Encode Sprintf Dir this env severity payload a
      = Return (this', events)
      /\ file_calls events
         = [FileWriteString f
              (Sprintf (file_prefix calendar this now severity
                        ++ TrimSpace layout ++ line_feed) a')]
      /\ fileHandle this' = Some f
      /\ filePreviousPath this' = filePreviousPath this
      /\ lastCheck this'
         = if check_due this now then now else lastCheck this.
Proof.
  intros calendar GoMap GoOther Encode Sprintf Dir this env severity payload a
         layout a' f Hf Hn Hfile Hh now Hsame.
  destruct (log_shape calendar GoMap GoOther Encode Sprintf Dir this env
              severity payload a layout a' Hf Hn) as [h [sent [Hs Hlog] ] ].
  fold now in Hlog.
  rewrite (log_file_reuses calendar GoMap GoOther Sprintf Dir this env now
             severity (TrimSpace layout) a' f Hfile Hh Hsame) in Hlog.
  simpl fst in Hlog. simpl snd in Hlog.
  eexists. eexists. split; [exact Hlog | ].
  split; [ | split; [exact Hh | split; reflexivity] ].
  unfold file_calls. rewrite filter_app3.
  pose proof (log_syslog_other GoMap GoOther Sprintf this env severity
                (TrimSpace layout) a') as [Hs1 _].
  rewrite Hs in Hs1. unfold file_calls in Hs1. simpl in Hs1. rewrite Hs1.
  pose proof (log_console_other calendar GoMap GoOther Sprintf this now
                severity payload (TrimSpace layout) a') as [Hc1 _].
  unfold file_calls in Hc1. rewrite Hc1.
  destruct (check_due this now); reflexivity.
Qed.

Lemma log_reuses_open_file_witness :
  exists this' events,
    sample_log today_log today_env LOG_INFO (VString "hello") []
    = Return (this', events)
    /\ file_calls events
       = [FileWriteString 7%nat ("INFO hello" ++ line_feed)]
    /\ fileHandle this' = Some 7%nat.
Proof.
  destruct (log_reuses_open_file sample_calendar string Z
              (fun m => Some m) sample_Sprintf (fun p => p) today_log
              today_env LOG_INFO (VString "hello") [] "hello" [] 7%nat)
    as [this' [events [H1 [H2 [H3 _] ] ] ] ]; try reflexivity.
  - left. reflexivity.
  - exists this', events. split; [exact H1 | split; [exact H2 | exact H3] ].
Defined.

(** ** The syslog sink in [log] *)

(** X15: a call that passes the filter with the syslog sink enabled
    dials only when there is no connection: with a connection it makes
    no dial and, at one of the four severities, one send of the
    formatted message on that connection; without one it dials once,
    over [udp] when a remote address is set and locally otherwise, with
    the facility and the name of the logger, and sends on the new
    connection.  When the dial fails nothing is sent, the call returns
    and the handle stays nil, so the next call dials again.  The
    message has no prefix and no line feed. *)
Theorem log_syslog_dials_once :
  forall (calendar : Time -> Calendar) (GoMap GoOther : Type)
         (Encode : GoMap -> option string)
         (Sprintf : string -> list (Value GoMap GoOther) -> string)
         (Dir : string -> string)
         (this : ULog) (env : Env) (severity : Z)
         (payload : Value GoMap GoOther) (a : list (Value GoMap GoOther))
         (layout : string) (a' : list (Value GoMap GoOther)),
    filtered this severity = false ->
    normalize GoMap GoOther Encode payload a = Return (layout, a') ->
    syslog this = true ->
    let connection := match syslogHandle this with
                      | Some w => Some w
                      | None => env_dial env
                      end in
    exists this' events,
      log calendar GoMap GoOther Encode Sprintf Dir this env severity payload a
      = Return (this', events)
      /\ syslogHandle this' = connection
      /\ syslog_calls events
         = (match syslogHandle this with
            | Some _ => []
            | None =>
                [SyslogDial (if syslogRemote this =? "" then "" else "udp")
                   (syslogRemote this) (syslogFacility this)
                   (syslogName this)]
            end
            ++ match connection with
               | Some w =>
                   if is_severity severity
                   then [SyslogSend w severity (Sprintf (TrimSpace layout) a')]
                   else []
               | None => []
               end)%list.
Proof.
  intros calendar GoMap GoOther Encode Sprintf Dir this env severity payload a
         layout a' Hf Hn Hsys connection.
  destruct (log_shape calendar GoMap GoOther Encode Sprintf Dir this env
              severity payload a layout a' Hf Hn) as [h [sent [Hs Hlog] ] ].
  rewrite (log_syslog_result GoMap GoOther Sprintf this env severity
             (TrimSpace layout) a' Hsys) in Hs.
  fold connection in Hs.
  assert (Hh := f_equal fst Hs). assert (Hsent := f_equal snd Hs).
  cbn [fst snd] in Hh, Hsent. subst sent. clear Hs.
  assert (Eh : h = connection).
  { apply (f_equal syslogHandle) in Hh. simpl in Hh. symmetry. exact Hh. }
  eexists. eexists. split; [exact Hlog | ].
  split; [simpl; exact Eh | ].
  unfold syslog_calls. rewrite filter_app3.
  pose proof (log_file_other calendar GoMap GoOther Sprintf Dir this env
                (log_now this env) severity (TrimSpace layout) a') as [Hf1 _].
  unfold syslog_calls in Hf1. rewrite Hf1.
  pose proof (log_console_other calendar GoMap GoOther Sprintf this
                (log_now this env) severity payload (TrimSpace layout) a')
    as [_ Hc1].
  unfold syslog_calls in Hc1. rewrite Hc1.
  rewrite !app_nil_r, filter_app.
  destruct (syslogHandle this); destruct connection;
    try destruct (is_severity severity); reflexivity.
Qed.

Lemma log_syslog_dials_once_witness :
  exists this' events,
    sample_log syslog_log dial_env LOG_WARNING (VString "%s is down")
      [VString "db"]
    = Return (this', events)
    /\ syslogHandle this' = Some 3%nat
    /\ syslog_calls events
       = [SyslogDial "udp" "loghost:514" LOG_DAEMON "app";
          SyslogSend 3%nat LOG_WARNING "db is down"].
Proof.
  destruct (log_syslog_dials_once sample_calendar string Z
              (fun m => Some m) sample_Sprintf (fun p => p) syslog_log
              dial_env LOG_WARNING (VString "%s is down") [VString "db"]
              "%s is down" [VString "db"])
    as [this' [events [H1 [H2 H3] ] ] ]; try reflexivity.
  exists this', events. split; [exact H1 | split; [exact H2 | exact H3] ].
Defined.

(** ** The console sink in [log] *)

Lemma all_bytes_in_app p a b :
  all_bytes_in p (a ++ b) = (all_bytes_in p a && all_bytes_in p b)%bool.
Proof.
  unfold all_bytes_in.
  induction a as [|c a IH]; simpl; [reflexivity | ].
  rewrite IH, andb_assoc. reflexivity.
Qed.

Lemma no_escape_app a b :
  no_escape a = true -> no_escape b = true -> no_escape (a ++ b) = true.
Proof.
  unfold no_escape. intros Ha Hb. rewrite all_bytes_in_app, Ha, Hb.
  reflexivity.
Qed.

Lemma no_escape_repeat_char c n :
  Ascii.eqb c (byte 27) = false -> no_escape (repeat_char c n) = true.
Proof.
  intro H. unfold no_escape, all_bytes_in.
  induction n as [|n IH]; simpl; [reflexivity | ].
  rewrite H, IH. reflexivity.
Qed.

Lemma no_escape_uint d : no_escape (NilEmpty.string_of_uint d) = true.
Proof.
  unfold no_escape, all_bytes_in.
  induction d; simpl; auto.
Qed.

Lemma no_escape_digits n : no_escape (digits n) = true.
Proof.
  unfold digits, NilZero.string_of_uint.
  destruct (N.to_uint (Z.abs_N n)); try apply no_escape_uint.
  reflexivity.
Qed.

Lemma no_escape_fmt_d zero width n : no_escape (fmt_d zero width n) = true.
Proof.
  unfold fmt_d, sign.
  destruct zero, (n <? 0)%Z;
    repeat apply no_escape_app;
    try apply no_escape_digits;
    try (apply no_escape_repeat_char; reflexivity);
    reflexivity.
Qed.

Lemma no_escape_time_prefix calendar mode now :
  no_escape (time_prefix calendar mode now) = true.
Proof.
  destruct mode; unfold time_prefix;
    repeat first [apply no_escape_fmt_d | apply no_escape_app];
    reflexivity.
Qed.

Lemma no_escape_label severity :
  no_escape (index_label severityLabels severity) = true.
Proof.
  unfold index_label, severityLabels. simpl.
  case_ifs; reflexivity.
Qed.

(** X16: a call that passes the filter with the console enabled and the
    colours off writes one line to the stream of the logger; the
    format is the prefix, the trimmed template and a line feed, the
    arguments are those of the payload untouched, and the prefix has no
    escape byte at any severity, any time mode and any instant. *)
Theorem log_console_without_colors :
  forall (calendar : Time -> Calendar) (GoMap GoOther : Type)
         (Encode : GoMap -> option string)
         (Sprintf : string -> list (Value GoMap GoOther) -> string)
         (Dir : string -> string)
         (this : ULog) (env : Env) (severity : Z)
         (payload : Value GoMap GoOther) (a : list (Value GoMap GoOther))
         (layout : string) (a' : list (Value GoMap GoOther)),
    filtered this severity = false ->
    normalize GoMap GoOther Encode payload a = Return (layout, a') ->
    console this = true ->
    consoleColors this = false ->
    let prefix := console_prefix calendar this (log_now this env) severity in
    exists this' events,
      log calendar GoMap GoOther Encode Sprintf Dir this env severity payload a
      = Return (this', events)
      /\ console_calls events
         = [Fprintf (consoleHandle this)
              (Sprintf (prefix ++ TrimSpace layout ++ line_feed) a')]
      /\ no_escape prefix = true.
Proof.
  intros calendar GoMap GoOther Encode Sprintf Dir this env severity payload a
         layout a' Hf Hn Hcon Hcol prefix.
  destruct (log_shape calendar GoMap GoOther Encode Sprintf Dir this env
              severity payload a layout a' Hf Hn) as [h [sent [Hs Hlog] ] ].
  eexists. eexists. split; [exact Hlog | ].
  split.
  - unfold console_calls. rewrite filter_app3.
    pose proof (log_syslog_other GoMap GoOther Sprintf this env severity
                  (TrimSpace layout) a') as [_ Hs1].
    rewrite Hs in Hs1. unfold console_calls in Hs1. simpl in Hs1. rewrite Hs1.
    pose proof (log_file_other calendar GoMap GoOther Sprintf Dir this env
                  (log_now this env) severity (TrimSpace layout) a')
      as [_ Hf1].
    unfold console_calls in Hf1. rewrite Hf1.
    pose proof (log_console_calls calendar GoMap GoOther Sprintf this
                  (log_now this env) severity payload (TrimSpace layout) a')
      as Hc1.
    unfold console_calls in Hc1. rewrite Hc1, Hcon, Hcol, andb_false_r.
    reflexivity.
  - unfold prefix, console_prefix. rewrite Hcol.
    destruct (consoleSeverity this).
    + apply no_escape_app;
        [apply no_escape_time_prefix | apply no_escape_label].
    + apply no_escape_time_prefix.
Qed.

Lemma log_console_without_colors_witness :
  exists this' events,
    sample_log syslog_log quiet_env LOG_ERR (VString "  disk %s  ")
      [VString "full"]
    = Return (this', events)
    /\ console_calls events
       = [Fprintf Stderr ("ERRO disk full" ++ line_feed)].
Proof.
  destruct (log_console_without_colors sample_calendar string Z
              (fun m => Some m) sample_Sprintf (fun p => p) syslog_log
              quiet_env LOG_ERR (VString "  disk %s  ") [VString "full"]
              "  disk %s  " [VString "full"])
    as [this' [events [H1 [H2 _] ] ] ]; try reflexivity.
  exists this', events. split; [exact H1 | exact H2].
Defined.

(** ** The lock, and what [log] leaves alone *)

(** X17: the lock is used in order in [Close], in [Load] and in every
    call of [log] that returns: it is never taken while held, every
    unlock follows a lock, every call on a file, on the console and on
    the syslog connection other than a send is made with the lock held,
    a send to syslog is made with the lock free, and the lock is free
    when the function returns. *)
Theorem locks_are_paired :
  forall (calendar : Time -> Calendar) (GoMap GoOther : Type)
         (Encode : GoMap -> option string)
         (Sprintf : string -> list (Value GoMap GoOther) -> string)
         (Dir : string -> string)
         (progname target : string)
         (this : ULog) (env : Env) (severity : Z)
         (payload : Value GoMap GoOther) (a : list (Value GoMap GoOther)),
    locks_ok false (snd (Close this)) = true
    /\ locks_ok false (snd (Load progname target this)) = true
    /\ match log calendar GoMap GoOther Encode Sprintf Dir this env severity
               payload a with
       | Return (_, events) => locks_ok false events = true
       | Panic => True
       end.
Proof.
  intros calendar GoMap GoOther Encode Sprintf Dir progname target this env
         severity payload a.
  split; [ | split].
  - rewrite Close_calls. unfold close_calls.
    destruct (syslogHandle this), (fileHandle this); reflexivity.
  - unfold Load. rewrite (surjective_pairing (Close this)). simpl snd.
    rewrite Close_calls. unfold close_calls.
    destruct (syslogHandle this), (fileHandle this); reflexivity.
  - destruct (filtered this severity) eqn:Hf.
    + unfold log. rewrite Hf. reflexivity.
    + destruct (normalize GoMap GoOther Encode payload a) as [ [layout a']|]
        eqn:Hn.
      * destruct (log_shape calendar GoMap GoOther Encode Sprintf Dir this env
                    severity payload a layout a' Hf Hn)
          as [h [sent [Hs Hlog] ] ].
        rewrite Hlog.
        pose proof (log_syslog_locks GoMap GoOther Sprintf this env severity
                      (TrimSpace layout) a') as H1.
        rewrite Hs in H1. simpl in H1.
        rewrite (locks_ok_app _ _ _ H1).
        rewrite (locks_ok_app _ _ _
                   (log_file_locks calendar GoMap GoOther Sprintf Dir this env
                      (log_now this env) severity (TrimSpace layout) a')).
        apply log_console_locks.
      * unfold log. rewrite Hf, Hn. exact I.
Qed.

(** X18: a call of [log] changes nothing of the configuration: the
    logger it returns is the one it was given but for the syslog
    handle, the file handle, the recorded path and the instant of the
    last check.  The sinks, their options, the level and the template
    of the path are as they were. *)
Theorem log_keeps_configuration :
  forall (calendar : Time -> Calendar) (GoMap GoOther : Type)
         (Encode : GoMap -> option string)
         (Sprintf : string -> list (Value GoMap GoOther) -> string)
         (Dir : string -> string)
         (this : ULog) (env : Env) (severity : Z)
         (payload : Value GoMap GoOther) (a : list (Value GoMap GoOther))
         (this' : ULog) (events : list Event),
    log calendar GoMap GoOther Encode Sprintf Dir this env severity payload a
    = Return (this', events) ->
    exists sh fh pp lc,
      this' = set_syslogHandle sh
                (set_fileHandle fh
                   (set_filePreviousPath pp (set_lastCheck lc this))).
Proof.
  intros calendar GoMap GoOther Encode Sprintf Dir this env severity payload a
         this' events Hlog.
  destruct (filtered this severity) eqn:Hf.
  - unfold log in Hlog. rewrite Hf in Hlog. injection Hlog as <- _.
    exists (syslogHandle this), (fileHandle this), (filePreviousPath this),
      (lastCheck this).
    rewrite set_fields_same, set_syslogHandle_same. reflexivity.
  - destruct (normalize GoMap GoOther Encode payload a) as [ [layout a']|]
      eqn:Hn.
    + destruct (log_shape calendar GoMap GoOther Encode Sprintf Dir this env
                  severity payload a layout a' Hf Hn)
        as [h [sent [Hs Hlog'] ] ].
      rewrite Hlog' in Hlog. injection Hlog as <- _.
      destruct (log_file_fields calendar GoMap GoOther Sprintf Dir this env
                  (log_now this env) severity (TrimSpace layout) a')
        as [fh [pp [lc E] ] ].
      exists h, fh, pp, lc. rewrite E. reflexivity.
    + unfold log in Hlog. rewrite Hf, Hn in Hlog. discriminate Hlog.
Qed.

Lemma log_keeps_configuration_witness :
  exists sh fh pp lc,
    fst rotated = set_syslogHandle sh
                    (set_fileHandle fh
                       (set_filePreviousPath pp
                          (set_lastCheck lc yesterday_log))).
Proof.
  apply (log_keeps_configuration sample_calendar string Z (fun m => Some m)
           sample_Sprintf (fun p => p) yesterday_log today_env LOG_INFO
           (VString "hello") [] (fst rotated) (snd rotated)).
  reflexivity.
Defined.

(** ** The payload of [log] *)

(** X19: a payload whose type is a defined type with a string
    underneath has kind string, and the assertion to [string] that
    follows panics: a call that passes the filter with such a payload
    panics, before any call on a sink. *)
Theorem log_defined_string_type_panics :
  forall (calendar : Time -> Calendar) (GoMap GoOther : Type)
         (Encode : GoMap -> option string)
         (Sprintf : string -> list (Value GoMap GoOther) -> string)
         (Dir : string -> string)
         (this : ULog) (env : Env) (severity : Z) (s : string)
         (a : list (Value GoMap GoOther)),
    filtered this severity = false ->
    log calendar GoMap GoOther Encode Sprintf Dir this env severity
      (VNamedString s) a
    = Panic.
Proof.
  intros calendar GoMap GoOther Encode Sprintf Dir this env severity s a Hf.
  unfold log. rewrite Hf. reflexivity.
Qed.

Lemma log_defined_string_type_panics_witness :
  sample_log syslog_log quiet_env LOG_ERR (VNamedString "oops") [] = Panic.
Proof.
  apply log_defined_string_type_panics. reflexivity.
Defined.

(** X20: with a map as payload the arguments of the call play no part
    when the encoder succeeds: the template is [%s] and the one
    argument is the encoded text without the white space around it, so
    two calls that differ in their arguments alone do the same.  When
    the encoder fails the error is dropped and the call returns. *)
Theorem log_map_ignores_arguments :
  forall (calendar : Time -> Calendar) (GoMap GoOther : Type)
         (Encode : GoMap -> option string)
         (Sprintf : string -> list (Value GoMap GoOther) -> string)
         (Dir : string -> string)
         (this : ULog) (env : Env) (severity : Z) (m : GoMap),
    (forall buffer a b,
        Encode m = Some buffer ->
        normalize GoMap GoOther Encode (VMap m) a
        = Return ("%s", [VBytes (TrimSpace buffer)])
        /\ log calendar GoMap GoOther Encode Sprintf Dir this env severity
             (VMap m) a
           = log calendar GoMap GoOther Encode Sprintf Dir this env severity
               (VMap m) b)
    /\ (forall a,
           Encode m = None ->
           exists r,
             log calendar GoMap GoOther Encode Sprintf Dir this env severity
               (VMap m) a = Return r).
Proof.
  intros calendar GoMap GoOther Encode Sprintf Dir this env severity m.
  split.
  - intros buffer a b H.
    assert (Hn : forall c, normalize GoMap GoOther Encode (VMap m) c
                           = Return ("%s", [VBytes (TrimSpace buffer)]))
      by (intro c; unfold normalize; simpl; rewrite H; reflexivity).
    split; [apply Hn | ].
    unfold log. rewrite !Hn. reflexivity.
  - intros a H.
    destruct (filtered this severity) eqn:Hf.
    + unfold log. rewrite Hf. eexists. reflexivity.
    + assert (Hn : normalize GoMap GoOther Encode (VMap m) a = Return ("", a))
        by (unfold normalize; simpl; rewrite H; reflexivity).
      destruct (log_shape calendar GoMap GoOther Encode Sprintf Dir this env
                  severity (VMap m) a "" a Hf Hn) as [h [sent [_ Hlog] ] ].
      eexists. exact Hlog.
Qed.

Lemma log_map_ignores_arguments_witness :
  sample_log syslog_log quiet_env LOG_ERR (VMap "{}") [VString "x"]
  = sample_log syslog_log quiet_env LOG_ERR (VMap "{}") [].
Proof.
  destruct (log_map_ignores_arguments sample_calendar string Z
              (fun m => Some m) sample_Sprintf (fun p => p) syslog_log
              quiet_env LOG_ERR "{}") as [H _].
  apply (H "{}" [VString "x"] []). reflexivity.
Defined.

(** ** More on [strftime] *)

(** X21: a template of ASCII bytes with no [%] in it is returned as it
    is, at every instant. *)
Theorem strftime_ascii_template_unchanged :
  forall (calendar : Time -> Calendar) (layout : string) (base : Time),
    no_percent layout = true ->
    all_ascii layout = true ->
    strftime calendar layout base = layout.
Proof.
  intros calendar layout base Hp Ha.
  apply strftime_ascii_literal; assumption.
Qed.

Lemma strftime_ascii_template_unchanged_witness :
  strftime sample_calendar "/var/log/app/current.log" sample_time
  = "/var/log/app/current.log".
Proof.
  apply strftime_ascii_template_unchanged; reflexivity.
Defined.

Lemma Join_map_length (l : list ascii) :
  length (Join (map string_of_byte l))
  = (List.length l
     + List.length (filter (fun c => negb (is_ascii c)) l))%nat.
Proof.
  induction l as [|c l IH]; simpl; [reflexivity | ].
  rewrite length_append, IH. unfold string_of_byte.
  destruct (is_ascii c); simpl; lia.
Qed.

Lemma length_list_ascii s :
  List.length (list_ascii_of_string s) = length s.
Proof. induction s as [|c s IH]; simpl; [ | rewrite IH]; reflexivity. Qed.

(** X22: in a template with no [%] in it every byte up to 0x7F is
    copied and every byte above 0x7F is replaced by the two bytes that
    encode the code point of its number: the result is longer than the
    template by the number of bytes above 0x7F. *)
Theorem strftime_without_percent :
  forall (calendar : Time -> Calendar) (layout : string) (base : Time),
    no_percent layout = true ->
    strftime calendar layout base
    = Join (map string_of_byte (list_ascii_of_string layout))
    /\ length (strftime calendar layout base)
       = (length layout + high_bytes layout)%nat.
Proof.
  intros calendar layout base Hp.
  assert (H : strftime calendar layout base
              = Join (map string_of_byte (list_ascii_of_string layout))).
  { unfold no_percent in Hp.
    induction layout as [|c layout IH]; simpl in *; [reflexivity | ].
    apply andb_true_iff in Hp. destruct Hp as [Hc Hp].
    apply negb_true_iff in Hc.
    rewrite strftime_literal_byte by exact Hc.
    rewrite IH by exact Hp. reflexivity. }
  split; [exact H | ].
  rewrite H, Join_map_length, length_list_ascii. reflexivity.
Qed.

Lemma strftime_without_percent_witness :
  length (strftime sample_calendar ("caf" ++ e_acute ++ ".log") sample_time)
  = 11%nat.
Proof.
  rewrite (proj2 (strftime_without_percent sample_calendar
                    ("caf" ++ e_acute ++ ".log") sample_time eq_refl)).
  reflexivity.
Defined.

(** X23: the composite verbs are the sequences they stand for: [%D] and
    [%x] are [%m/%d/%y], [%F] is [%Y-%m-%d], [%T] and [%X] are
    [%H:%M:%S], [%R] is [%H:%M], [%h] is [%b], and [%r] is
    [%I:%M:%S %p], at every instant. *)
Theorem strftime_composite_verbs :
  forall (calendar : Time -> Calendar) (base : Time),
    let f layout := strftime calendar layout base in
    f "%D" = f "%m/%d/%y"
    /\ f "%x" = f "%m/%d/%y"
    /\ f "%F" = f "%Y-%m-%d"
    /\ f "%T" = f "%H:%M:%S"
    /\ f "%X" = f "%H:%M:%S"
    /\ f "%R" = f "%H:%M"
    /\ f "%h" = f "%b"
    /\ f "%r" = f "%I:%M:%S %p".
Proof.
  intros calendar base f. unfold f, strftime.
  cbn [strftime_output verb app Join string_of_byte is_ascii].
  repeat split;
    cbn [Join append];
    rewrite ?append_nil_r, ?append_assoc; cbn [append];
    try reflexivity.
  destruct (Hour (calendar base) <? 12)%Z; reflexivity.
Qed.

(** X24: templates can be formatted piece by piece: when the loop run
    over [p] alone does not end on a [%] that is the last byte of [p],
    the result for [p ++ s] is the result for [p] followed by the
    result for [s]. *)
Theorem strftime_of_concatenation :
  forall (calendar : Time -> Calendar) (p s : string) (base : Time),
    dangling p = false ->
    strftime calendar (p ++ s) base
    = strftime calendar p base ++ strftime calendar s base.
Proof.
  intros calendar p s base H. apply strftime_app. exact H.
Qed.

Lemma strftime_of_concatenation_witness :
  strftime sample_calendar ("/var/log/%Y/" ++ "%m-%d.log") sample_time
  = "/var/log/2024/" ++ "03-05.log".
Proof.
  rewrite (strftime_of_concatenation sample_calendar "/var/log/%Y/"
             "%m-%d.log" sample_time eq_refl).
  reflexivity.
Defined.

Lemma Load_file_enabled_iff_path_witness :
  let target := "file(time=0) file(path=/a.log, path=/b.log) console()" in
  file (New "ulog" target) = true /\ filePath (New "ulog" target) = "/b.log".
Proof.
  intro target.
  destruct (Load_file_enabled_iff_path "ulog" target zero_ULog)
    as [ [_ H1] [H2 _] ].
  split.
  - apply H1. discriminate.
  - exact H2.
Defined.

(** ** [log] after [Close] *)

(** X25: [Close] does not switch the logger off.  The next call that
    passes the filter opens again what the enabled sinks need: with the
    file sink enabled it creates the directories and opens the path
    resolved at that instant, and with the syslog sink enabled it dials
    again; no close is made, since nothing is open. *)
Theorem log_after_Close_reopens :
  forall (calendar : Time -> Calendar) (GoMap GoOther : Type)
         (Encode : GoMap -> option string)
         (Sprintf : string -> list (Value GoMap GoOther) -> string)
         (Dir : string -> string)
         (this : ULog) (env : Env) (severity : Z)
         (payload : Value GoMap GoOther) (a : list (Value GoMap GoOther))
         (layout : string) (a' : list (Value GoMap GoOther)),
    filtered this severity = false ->
    normalize GoMap GoOther Encode payload a = Return (layout, a') ->
    let closed := fst (Close this) in
    let path := strftime calendar (filePath this) (log_now this env) in
    exists this' events,
      log calendar GoMap GoOther Encode Sprintf Dir closed env severity
        payload a
      = Return (this', events)
      /\ (file this = true ->
          exists written,
            file_calls events
            = ([MkdirAll (Dir path) 493; OpenFile path 420] ++ written)%list
            /\ fileHandle this' = env_open env)
      /\ (syslog this = true ->
          exists sent,
            syslog_calls events
            = (SyslogDial (if syslogRemote this =? "" then "" else "udp")
                 (syslogRemote this) (syslogFacility this) (syslogName this)
               :: sent)
            /\ syslogHandle this' = env_dial env).
Proof.
  intros calendar GoMap GoOther Encode Sprintf Dir this env severity payload a
         layout a' Hf Hn closed path.
  assert (Ec : closed = set_fileHandle None (set_syslogHandle None this))
    by apply Close_state.
  assert (Hf' : filtered closed severity = false) by (rewrite Ec; exact Hf).
  destruct (log_shape calendar GoMap GoOther Encode Sprintf Dir closed env
              severity payload a layout a' Hf' Hn) as [h [sent [Hs Hlog] ] ].
  eexists. eexists. split; [exact Hlog | ].
  assert (Hnow : log_now closed env = log_now this env)
    by (rewrite Ec; reflexivity).
  split.
  - intro Hfile.
    assert (Hfile' : file closed = true) by (rewrite Ec; exact Hfile).
    assert (Hh : fileHandle closed = None) by (rewrite Ec; reflexivity).
    rewrite (log_file_opens calendar GoMap GoOther Sprintf Dir closed env
               (log_now closed env) severity (TrimSpace layout) a' Hfile' Hh).
    simpl fst. simpl snd.
    replace (filePath closed) with (filePath this) by (rewrite Ec; reflexivity).
    rewrite Hnow. fold path.
    eexists. split; [ | reflexivity].
    unfold file_calls. rewrite filter_app3.
    pose proof (log_syslog_other GoMap GoOther Sprintf closed env severity
                  (TrimSpace layout) a') as [Hs1 _].
    rewrite Hs in Hs1. unfold file_calls in Hs1. simpl in Hs1. rewrite Hs1.
    simpl. reflexivity.
  - intro Hsys.
    assert (Hsys' : syslog closed = true) by (rewrite Ec; exact Hsys).
    rewrite (log_syslog_result GoMap GoOther Sprintf closed env severity
               (TrimSpace layout) a' Hsys') in Hs.
    assert (Hh := f_equal fst Hs). assert (Hsent := f_equal snd Hs).
    cbn [fst snd] in Hh, Hsent. subst sent. clear Hs.
    replace (syslogHandle closed) with (@None SyslogWriter) in *
      by (rewrite Ec; reflexivity).
    replace (syslogRemote closed) with (syslogRemote this)
      by (rewrite Ec; reflexivity).
    replace (syslogFacility closed) with (syslogFacility this)
      by (rewrite Ec; reflexivity).
    replace (syslogName closed) with (syslogName this)
      by (rewrite Ec; reflexivity).
    eexists. split.
    + unfold syslog_calls. rewrite filter_app. simpl. reflexivity.
    + apply (f_equal syslogHandle) in Hh. simpl in Hh. simpl. symmetry.
      exact Hh.
Qed.

Lemma log_after_Close_reopens_witness :
  exists this' events,
    sample_log (fst (Close today_log)) today_env LOG_INFO (VString "hello") []
    = Return (this', events)
    /\ file_calls events
       = [MkdirAll "/tmp/x-20240305.log" 493;
          OpenFile "/tmp/x-20240305.log" 420;
          FileWriteString 8%nat ("INFO hello" ++ line_feed)]
    /\ fileHandle this' = Some 8%nat.
Proof.
  destruct (log_after_Close_reopens sample_calendar string Z
              (fun m => Some m) sample_Sprintf (fun p => p) today_log
              today_env LOG_INFO (VString "hello") [] "hello" [])
    as [this' [events [H1 [H2 _] ] ] ]; try reflexivity.
  destruct (H2 eq_refl) as [written [H3 H4] ].
  exists this', events.
  split; [exact H1 | ].
  split; [ | exact H4].
  assert (E : Return (this', events)
              = sample_log (fst (Close today_log)) today_env LOG_INFO
                  (VString "hello") []) by (symmetry; exact H1).
  vm_compute in E. injection E as _ ->. reflexivity.
Defined.
